(** * OSPAC data-generation pipeline: classifier, rule deriver, matrix builder,
    aggregator and validator, embedded from
    [ospac/pipeline/llm_analyzer.py] and [ospac/pipeline/data_generator.py],
    and the repair script [fix_missing_licenses.py].

    Python dictionaries are finite maps ([gmap]); values that travel through
    the pipeline are JSON-shaped Python values ([pyval]); code that can raise
    lives in the [outcome] monad, with [try ... except] as a combinator. *)

From Stdlib Require Import ZArith String Ascii.
From stdpp Require Import gmap strings list fin_maps pretty.

#[local] Set Warnings "-register-all".
#[local] Open Scope string_scope.
#[local] Open Scope Z_scope.

(** ** Python values *)

Module Py.

(** The values [json.loads] can build, fractional numbers left out: the model
    has no floats.  A [dict] has string keys, as every JSON object has. *)
Inductive pyval :=
| PyNone
| PyBool (b : bool)
| PyInt (z : Z)
| PyStr (s : string)
| PyList (l : list pyval)
| PyDict (d : gmap string pyval).

Abbreviation pydict := (gmap string pyval).

(** [bool(v)]: what [if v] and [not v] test. *)
Definition truthy (v : pyval) : bool :=
  match v with
  | PyNone => false
  | PyBool b => b
  | PyInt z => negb (z =? 0)
  | PyStr s => negb (String.eqb s "")
  | PyList l => match l with [] => false | _ :: _ => true end
  | PyDict d => negb (bool_decide (d = ∅))
  end.

(** [d.get(k, default)] *)
Definition get_default (d : pydict) (k : string) (default : pyval) : pyval :=
  match d !! k with
  | Some v => v
  | None => default
  end.

(** [d.get(k)]: [None] of Python when the key is absent. *)
Definition get (d : pydict) (k : string) : pyval := get_default d k PyNone.

(** [d.get(category, default)] with permissive as default: the category a
    record counts as having. *)
Definition category_of (license_data : pydict) : pyval :=
  get_default license_data "category" (PyStr "permissive").

(** The numeric value of a number-like value ([True == 1], [False == 0]). *)
Definition as_number (v : pyval) : option Z :=
  match v with
  | PyBool b => Some (Z.b2z b)
  | PyInt z => Some z
  | _ => None
  end.

(** [a == b] *)
Fixpoint py_eq (a b : pyval) {struct a} : bool :=
  match a, b with
  | PyNone, PyNone => true
  | PyBool x, (PyBool _ | PyInt _) =>
      match as_number b with Some y => Z.b2z x =? y | None => false end
  | PyInt x, (PyBool _ | PyInt _) =>
      match as_number b with Some y => x =? y | None => false end
  | PyStr s, PyStr t => String.eqb s t
  | PyList l, PyList m =>
      (fix all2 (l : list pyval) (m : list pyval) {struct l} : bool :=
         match l, m with
         | [], [] => true
         | x :: l', y :: m' => py_eq x y && all2 l' m'
         | _, _ => false
         end) l m
  | PyDict d, PyDict e =>
      (size d =? size e)%nat &&
      map_fold (fun k v acc =>
                  acc && match e !! k with
                         | Some w => py_eq v w
                         | None => false
                         end) true d
  | _, _ => false
  end.

(** A dict literal [{k1: v1, k2: v2, ...}]: later entries win. *)
Definition dict_of (kvs : list (string * pyval)) : pydict :=
  foldl (fun d kv => <[kv.1 := kv.2]> d) ∅ kvs.

Definition str_list (l : list string) : pyval := PyList (PyStr <$> l).

(** [d[k1][k2] = v] where [d[k1]] is a dict (it is, wherever this is used:
    the dict literal just above each use has the key). *)
Definition set_in (k1 k2 : string) (v : pyval) (d : pydict) : pydict :=
  alter (fun inner =>
           match inner with
           | PyDict c => PyDict (<[k2 := v]> c)
           | other => other
           end) k1 d.

(** [d[k1][k2]], when both keys are there. *)
Definition get_path (d : pydict) (k1 k2 : string) : option pyval :=
  match d !! k1 with
  | Some (PyDict c) => c !! k2
  | _ => None
  end.

(** *** Strings *)

(** [sub in s] *)
Fixpoint contains (sub s : string) : bool :=
  if String.prefix sub s then true
  else match s with
       | EmptyString => false
       | String _ s' => contains sub s'
       end.

Fixpoint find_from (sub s : string) (i : Z) : Z :=
  if String.prefix sub s then i
  else match s with
       | EmptyString => -1
       | String _ s' => find_from sub s' (i + 1)
       end.

(** [s.find(sub)]: the lowest index where [sub] starts, or -1. *)
Definition str_find (sub s : string) : Z := find_from sub s 0.

Fixpoint rfind_from (sub s : string) (i : Z) : Z :=
  match s with
  | EmptyString => if String.prefix sub s then i else -1
  | String _ s' =>
      let later := rfind_from sub s' (i + 1) in
      if 0 <=? later then later
      else if String.prefix sub s then i else -1
  end.

(** [s.rfind(sub)]: the highest index where [sub] starts, or -1. *)
Definition str_rfind (sub s : string) : Z := rfind_from sub s 0.

(** [s[start:stop]] for [0 <= start]; an end past the string is clamped. *)
Definition slice (s : string) (start stop : Z) : string :=
  String.substring (Z.to_nat start) (Z.to_nat (stop - start)) s.

(** Some opening brace of [s] stands before some closing brace of [s]. *)
Definition brace_before (s : string) : Prop :=
  exists i j : nat,
    (i < j)%nat /\ String.get i s = Some "{"%char /\ String.get j s = Some "}"%char.

Definition dq : string := String "034" EmptyString.
Definition nl : string := String "010" EmptyString.

(** A text between double quotes. *)
Definition quoted (s : string) : string := dq +:+ s +:+ dq.

Definition unlines (ls : list string) : string := String.concat nl ls.

(** *** Exceptions *)

(** Every class below derives from [Exception]. *)
Inductive exn :=
| JSONDecodeError
| RecursionError
| TypeError
| ValueError
| AttributeError
| ConnectionError
| TimeoutError.

Inductive outcome (A : Type) :=
| Return (a : A)
| Raise (e : exn).
Arguments Return {A} a.
Arguments Raise {A} e.

Definition bind {A B} (m : outcome A) (k : A -> outcome B) : outcome B :=
  match m with
  | Return a => k a
  | Raise e => Raise e
  end.

(** [try: body / except <class> ...: handler], the class given as the test
    [caught]. *)
Definition try_except {A} (body : outcome A) (caught : exn -> bool)
    (handler : exn -> outcome A) : outcome A :=
  match body with
  | Return a => Return a
  | Raise e => if caught e then handler e else Raise e
  end.

Definition is_Exception (e : exn) : bool := true.

Definition is_JSONDecodeError (e : exn) : bool :=
  match e with
  | JSONDecodeError => true
  | _ => false
  end.

Definition returns {A} (m : outcome A) : Prop := exists a, m = Return a.

(** [for x in items: body], the loop state threaded through the body; an
    exception raised by the body leaves the loop. *)
Fixpoint for_each {A S} (items : list A) (body : A -> S -> outcome S) (s : S)
    : outcome S :=
  match items with
  | [] => Return s
  | x :: rest =>
      match body x s with
      | Return s' => for_each rest body s'
      | Raise e => Raise e
      end
  end.

(** The last item of a list that passes a test. *)
Fixpoint find_last {A} (test : A -> bool) (items : list A) : option A :=
  match items with
  | [] => None
  | x :: rest =>
      match find_last test rest with
      | Some y => Some y
      | None => if test x then Some x else None
      end
  end.

(** [[f(x) for x in items]], left to right; the first exception leaves the
    comprehension. *)
Fixpoint map_outcome {A B} (f : A -> outcome B) (items : list A)
    : outcome (list B) :=
  match items with
  | [] => Return []
  | x :: rest =>
      match f x with
      | Return y =>
          match map_outcome f rest with
          | Return ys => Return (y :: ys)
          | Raise e => Raise e
          end
      | Raise e => Raise e
      end
  end.

(** *** Dictionary keys *)

(** The hashable values, up to the equality a dict looks keys up with
    ([True] is the key [1], [False] the key [0]). *)
Inductive pykey :=
| KNone
| KInt (z : Z)
| KStr (s : string).

#[export] Instance pykey_eq_dec : EqDecision pykey.
Proof. solve_decision. Defined.

#[export] Instance pykey_countable : Countable pykey.
Proof.
  refine (inj_countable'
            (fun k => match k with
                      | KNone => inl ()
                      | KInt z => inr (inl z)
                      | KStr s => inr (inr s)
                      end)
            (fun x => match x with
                      | inl _ => KNone
                      | inr (inl z) => KInt z
                      | inr (inr s) => KStr s
                      end) _).
  intros []; reflexivity.
Defined.

(** Using [v] as a dict key: a list or a dict is unhashable. *)
Definition as_key (v : pyval) : outcome pykey :=
  match v with
  | PyNone => Return KNone
  | PyBool b => Return (KInt (Z.b2z b))
  | PyInt z => Return (KInt z)
  | PyStr s => Return (KStr s)
  | PyList _ | PyDict _ => Raise TypeError
  end.

(** [d[k] = v] for the entry an item gives, if it gives one. *)
Definition put_entry {A V} (entry : A -> option (pykey * V))
    (d : gmap pykey V) (x : A) : gmap pykey V :=
  match entry x with
  | Some (k, v) => <[k := v]> d
  | None => d
  end.

Definition gives_key {A V} (entry : A -> option (pykey * V)) (k : pykey) (x : A)
    : bool :=
  match entry x with
  | Some (k', _) => bool_decide (k' = k)
  | None => false
  end.

(** [v.get(k, default)] on a value that may not be a dict. *)
Definition attr_get (v : pyval) (k : string) (default : pyval) : outcome pyval :=
  match v with
  | PyDict d => Return (get_default d k default)
  | _ => Raise AttributeError
  end.

End Py.

Export Py.

Notation "'let!' x ':=' m 'in' k" := (bind m (fun x => k))
  (at level 10, x name, m at level 100, k at level 200).

(** ** The Python runtime the pipeline calls into *)

(** What the code takes from outside the repository: [json.loads], always
    called on a text that starts with an opening brace, so that what it returns
    (when it returns) is a dict; [str()], used by f-strings; and
    [datetime.now().isoformat()]. *)
Class PyRuntime := {
  json_loads : string -> outcome pydict;
  py_str : pyval -> string;
  now_isoformat : string
}.

(** ** [ospac/pipeline/llm_analyzer.py] *)

Module LlmAnalyzer.

(** The StrandsAgents agent, seen through its one operation: [query], which
    answers a prompt with a text or raises. *)
Record Agent := { query : string -> outcome string }.

(** [self] of [LicenseAnalyzer]; [agent] is [None] when the SDK is missing or
    the agent could not be initialised. *)
Record LicenseAnalyzer := {
  model : string;
  ollama_url : string;
  agent : option Agent
}.

(** *** [__init__] and [_init_agent]

    The StrandsAgents SDK, when the import found it: its two classes, seen
    through their constructors, each of which may raise. *)
Record Sdk := {
  provider : Type;
  OllamaProvider : string -> string -> outcome provider;
  make_Agent : string -> provider -> string -> outcome Agent
}.

Definition system_prompt : string :=
  unlines [
    "You are an expert in software licensing and open source compliance.";
    "                Your task is to analyze software licenses and provide detailed, accurate information about:";
    "                - License obligations and requirements";
    "                - Compatibility with other licenses";
    "                - Usage restrictions and permissions";
    "                - Patent grants and trademark rules";
    "";
    "                Always provide information in structured JSON format.";
    "                Be precise and accurate - licensing compliance is critical."
  ].

(** [_init_agent]: what it leaves in [self.agent]. *)
Definition _init_agent (sdk : Sdk) (model ollama_url : string)
    : outcome (option Agent) :=
  try_except
    (let! the_provider := OllamaProvider sdk model ollama_url in
     let! the_agent := make_Agent sdk "LicenseAnalyzer" the_provider system_prompt in
     Return (Some the_agent))
    is_Exception
    (fun e => Return None).

(** [LicenseAnalyzer(model, ollama_url)]; [sdk] is [None] when the import
    failed, which leaves both classes [None]. *)
Definition new_LicenseAnalyzer (sdk : option Sdk) (model ollama_url : string)
    : outcome LicenseAnalyzer :=
  let! the_agent :=
    match sdk with
    | Some sdk => _init_agent sdk model ollama_url
    | None => Return None
    end in
  Return {| model := model; ollama_url := ollama_url; agent := the_agent |}.

(** The f-string of [analyze_license]. *)
Definition analysis_prompt (license_id license_text : string) : string :=
  unlines [
    "Analyze the following license and provide detailed information in JSON format.";
    "";
    "License ID: " +:+ license_id;
    "License Text (first 3000 chars):";
    slice license_text 0 3000;
    "";
    "Provide a JSON response with the following structure:";
    "{";
    "    " +:+ quoted "license_id" +:+ ": " +:+ quoted license_id +:+ ",";
    "    " +:+ quoted "category" +:+ ": "
           +:+ quoted "permissive|copyleft_weak|copyleft_strong|proprietary|public_domain" +:+ ",";
    "    " +:+ quoted "permissions" +:+ ": {";
    "        " +:+ quoted "commercial_use" +:+ ": true/false,";
    "        " +:+ quoted "distribution" +:+ ": true/false,";
    "        " +:+ quoted "modification" +:+ ": true/false,";
    "        " +:+ quoted "patent_grant" +:+ ": true/false,";
    "        " +:+ quoted "private_use" +:+ ": true/false";
    "    },";
    "    " +:+ quoted "conditions" +:+ ": {";
    "        " +:+ quoted "disclose_source" +:+ ": true/false,";
    "        " +:+ quoted "include_license" +:+ ": true/false,";
    "        " +:+ quoted "include_copyright" +:+ ": true/false,";
    "        " +:+ quoted "include_notice" +:+ ": true/false,";
    "        " +:+ quoted "state_changes" +:+ ": true/false,";
    "        " +:+ quoted "same_license" +:+ ": true/false,";
    "        " +:+ quoted "network_use_disclosure" +:+ ": true/false";
    "    },";
    "    " +:+ quoted "limitations" +:+ ": {";
    "        " +:+ quoted "liability" +:+ ": true/false,";
    "        " +:+ quoted "warranty" +:+ ": true/false,";
    "        " +:+ quoted "trademark_use" +:+ ": true/false";
    "    },";
    "    " +:+ quoted "compatibility" +:+ ": {";
    "        " +:+ quoted "can_combine_with_permissive" +:+ ": true/false,";
    "        " +:+ quoted "can_combine_with_weak_copyleft" +:+ ": true/false,";
    "        " +:+ quoted "can_combine_with_strong_copyleft" +:+ ": true/false,";
    "        " +:+ quoted "static_linking_restrictions" +:+ ": " +:+ quoted "none|weak|strong" +:+ ",";
    "        " +:+ quoted "dynamic_linking_restrictions" +:+ ": " +:+ quoted "none|weak|strong";
    "    },";
    "    " +:+ quoted "obligations" +:+ ": [";
    "        " +:+ quoted "List of specific obligations when using this license";
    "    ],";
    "    " +:+ quoted "key_requirements" +:+ ": [";
    "        " +:+ quoted "List of key requirements for compliance";
    "    ]";
    "}"
  ].

(** The dict literal that opens [_get_fallback_analysis]. *)
Definition default_analysis (license_id : string) : pydict :=
  dict_of [
    ("license_id", PyStr license_id);
    ("category", PyStr "permissive");
    ("permissions", PyDict (dict_of [
       ("commercial_use", PyBool true);
       ("distribution", PyBool true);
       ("modification", PyBool true);
       ("patent_grant", PyBool false);
       ("private_use", PyBool true)]));
    ("conditions", PyDict (dict_of [
       ("disclose_source", PyBool false);
       ("include_license", PyBool true);
       ("include_copyright", PyBool true);
       ("include_notice", PyBool false);
       ("state_changes", PyBool false);
       ("same_license", PyBool false);
       ("network_use_disclosure", PyBool false)]));
    ("limitations", PyDict (dict_of [
       ("liability", PyBool true);
       ("warranty", PyBool true);
       ("trademark_use", PyBool false)]));
    ("compatibility", PyDict (dict_of [
       ("can_combine_with_permissive", PyBool true);
       ("can_combine_with_weak_copyleft", PyBool true);
       ("can_combine_with_strong_copyleft", PyBool false);
       ("static_linking_restrictions", PyStr "none");
       ("dynamic_linking_restrictions", PyStr "none")]));
    ("obligations", str_list ["Include license text"; "Include copyright notice"]);
    ("key_requirements", str_list ["Attribution required"])
  ].

(** [_get_fallback_analysis]: the [if]/[elif] chain on the license id, in the
    order of the source. *)
Definition _get_fallback_analysis (license_id : string) : pydict :=
  let analysis := default_analysis license_id in
  if contains "GPL" license_id then
    let analysis := <["category" := PyStr "copyleft_strong"]> analysis in
    let analysis := set_in "conditions" "disclose_source" (PyBool true) analysis in
    let analysis := set_in "conditions" "same_license" (PyBool true) analysis in
    let analysis := set_in "compatibility" "can_combine_with_strong_copyleft" (PyBool true) analysis in
    let analysis := set_in "compatibility" "can_combine_with_permissive" (PyBool false) analysis in
    let analysis := set_in "compatibility" "static_linking_restrictions" (PyStr "strong") analysis in
    <["obligations" := str_list [
        "Disclose source code";
        "Include license text";
        "State changes";
        "Use same license for derivatives"]]> analysis
  else if contains "LGPL" license_id then
    let analysis := <["category" := PyStr "copyleft_weak"]> analysis in
    let analysis := set_in "conditions" "disclose_source" (PyBool true) analysis in
    let analysis := set_in "compatibility" "static_linking_restrictions" (PyStr "weak") analysis in
    <["obligations" := str_list [
        "Disclose source of LGPL components";
        "Allow relinking";
        "Include license text"]]> analysis
  else if contains "AGPL" license_id then
    let analysis := <["category" := PyStr "copyleft_strong"]> analysis in
    let analysis := set_in "conditions" "disclose_source" (PyBool true) analysis in
    let analysis := set_in "conditions" "same_license" (PyBool true) analysis in
    let analysis := set_in "conditions" "network_use_disclosure" (PyBool true) analysis in
    set_in "compatibility" "static_linking_restrictions" (PyStr "strong") analysis
  else if contains "Apache" license_id then
    let analysis := <["category" := PyStr "permissive"]> analysis in
    let analysis := set_in "permissions" "patent_grant" (PyBool true) analysis in
    let analysis := set_in "conditions" "include_notice" (PyBool true) analysis in
    set_in "conditions" "state_changes" (PyBool true) analysis
  else if contains "MIT" license_id || contains "BSD" license_id
          || contains "ISC" license_id then
    <["category" := PyStr "permissive"]> analysis
  else if contains "CC0" license_id || contains "Unlicense" license_id then
    let analysis := <["category" := PyStr "public_domain"]> analysis in
    let analysis := set_in "conditions" "include_license" (PyBool false) analysis in
    let analysis := set_in "conditions" "include_copyright" (PyBool false) analysis in
    <["obligations" := PyList []]> analysis
  else analysis.

Section WithRuntime.
Context `{PyRuntime}.

(** [analyze_license]: the outer [try]/[except Exception] around the query and
    the inner [try]/[except json.JSONDecodeError] around the extraction. *)
Definition analyze_license (self : LicenseAnalyzer)
    (license_id license_text : string) : outcome pydict :=
  match agent self with
  | None => Return (_get_fallback_analysis license_id)
  | Some the_agent =>
      try_except
        (let prompt := analysis_prompt license_id license_text in
         let! response := query the_agent prompt in
         let! analysis :=
           try_except
             (let json_start := str_find "{" response in
              let json_end := str_rfind "}" response + 1 in
              if (0 <=? json_start) && (json_start <? json_end) then
                let json_str := slice response json_start json_end in
                json_loads json_str
              else Return (_get_fallback_analysis license_id))
             is_JSONDecodeError
             (fun e => Return (_get_fallback_analysis license_id)) in
         Return analysis)
        is_Exception
        (fun e => Return (_get_fallback_analysis license_id))
  end.

(** The f-string of [extract_compatibility_rules]; the category is formatted
    by [str()]. *)
Definition rules_prompt (license_id : string) (analysis : pydict) : string :=
  let pad := "            " in
  let pad4 := pad +:+ "    " in
  let pad8 := pad4 +:+ "    " in
  let list3 (a b c : string) :=
    [pad8 +:+ quoted a +:+ ": [" +:+ quoted "list" +:+ "],";
     pad8 +:+ quoted b +:+ ": [" +:+ quoted "list" +:+ "],";
     pad8 +:+ quoted c +:+ ": [" +:+ quoted "list" +:+ "]"] in
  unlines (
    ["Based on the " +:+ license_id +:+ " license with category "
       +:+ py_str (get_default analysis "category" (PyStr "unknown")) +:+ ",";
     pad +:+ "provide detailed compatibility rules in JSON format:";
     "";
     pad +:+ "{";
     pad4 +:+ quoted "static_linking" +:+ ": {";
     pad8 +:+ quoted "compatible_with" +:+ ": ["
       +:+ quoted "list of compatible license IDs or categories" +:+ "],";
     pad8 +:+ quoted "incompatible_with" +:+ ": ["
       +:+ quoted "list of incompatible license IDs or categories" +:+ "],";
     pad8 +:+ quoted "requires_review" +:+ ": ["
       +:+ quoted "list of licenses requiring case-by-case review" +:+ "]";
     pad4 +:+ "},";
     pad4 +:+ quoted "dynamic_linking" +:+ ": {"]
    ++ list3 "compatible_with" "incompatible_with" "requires_review" ++
    [pad4 +:+ "},";
     pad4 +:+ quoted "distribution" +:+ ": {";
     pad8 +:+ quoted "can_distribute_with" +:+ ": [" +:+ quoted "list" +:+ "],";
     pad8 +:+ quoted "cannot_distribute_with" +:+ ": [" +:+ quoted "list" +:+ "],";
     pad8 +:+ quoted "special_requirements" +:+ ": ["
       +:+ quoted "list of special requirements" +:+ "]";
     pad4 +:+ "},";
     pad4 +:+ quoted "contamination_effect" +:+ ": "
       +:+ quoted "none|module|derivative|full" +:+ ",";
     pad4 +:+ quoted "notes" +:+ ": " +:+ quoted "Additional compatibility notes";
     pad +:+ "}"]).

(** One linking dimension of a rule block. *)
Definition linking_rules (compatible incompatible review : list string) : pyval :=
  PyDict (dict_of [
    ("compatible_with", str_list compatible);
    ("incompatible_with", str_list incompatible);
    ("requires_review", str_list review)]).

Definition distribution_rules (can cannot special : list string) : pyval :=
  PyDict (dict_of [
    ("can_distribute_with", str_list can);
    ("cannot_distribute_with", str_list cannot);
    ("special_requirements", str_list special)]).

Definition rule_block (static dynamic distribution : pyval)
    (contamination notes : string) : pydict :=
  dict_of [
    ("static_linking", static);
    ("dynamic_linking", dynamic);
    ("distribution", distribution);
    ("contamination_effect", PyStr contamination);
    ("notes", PyStr notes)].

(** The four dict literals of [_get_default_compatibility_rules]. *)
Definition permissive_rules : pydict :=
  rule_block
    (linking_rules ["category:any"] [] [])
    (linking_rules ["category:any"] [] [])
    (distribution_rules ["category:any"] [] ["Include license and copyright notice"])
    "none" "Permissive license with minimal restrictions".

Definition copyleft_strong_rules (license_id : string) : pydict :=
  rule_block
    (linking_rules [license_id; "category:copyleft_strong"]
                   ["category:permissive"; "category:proprietary"]
                   ["category:copyleft_weak"])
    (linking_rules ["category:any"] [] ["category:proprietary"])
    (distribution_rules [license_id] ["category:proprietary"]
                        ["Source code must be provided"; "Same license required"])
    "full" "Strong copyleft with viral effect".

Definition copyleft_weak_rules (license_id : string) : pydict :=
  rule_block
    (linking_rules ["category:permissive"; license_id] [] ["category:copyleft_strong"])
    (linking_rules ["category:any"] [] [])
    (distribution_rules ["category:any"] [] ["Allow relinking"; "Provide LGPL source"])
    "module" "Weak copyleft affecting only the library itself".

Definition other_rules : pydict :=
  rule_block
    (linking_rules ["category:any"] [] [])
    (linking_rules ["category:any"] [] [])
    (distribution_rules ["category:any"] [] [])
    "none" "Default compatibility rules".

(** [_get_default_compatibility_rules] *)
Definition _get_default_compatibility_rules (license_id : string)
    (analysis : pydict) : pydict :=
  let category := get_default analysis "category" (PyStr "permissive") in
  if py_eq category (PyStr "permissive") then permissive_rules
  else if py_eq category (PyStr "copyleft_strong") then copyleft_strong_rules license_id
  else if py_eq category (PyStr "copyleft_weak") then copyleft_weak_rules license_id
  else other_rules.

(** [extract_compatibility_rules]: one [try]/[except Exception] around the
    query, the extraction and the parse. *)
Definition extract_compatibility_rules (self : LicenseAnalyzer)
    (license_id : string) (analysis : pydict) : outcome pydict :=
  match agent self with
  | None => Return (_get_default_compatibility_rules license_id analysis)
  | Some the_agent =>
      try_except
        (let prompt := rules_prompt license_id analysis in
         let! response := query the_agent prompt in
         let json_start := str_find "{" response in
         let json_end := str_rfind "}" response + 1 in
         let! rules :=
           (if (0 <=? json_start) && (json_start <? json_end) then
              json_loads (slice response json_start json_end)
            else Return (_get_default_compatibility_rules license_id analysis)) in
         Return rules)
        is_Exception
        (fun e => Return (_get_default_compatibility_rules license_id analysis))
  end.

(** An item of the list [batch_analyze] receives, as [generate_all_data]
    builds it: a [str] under [id], and a [str] under [text], which may be
    missing ([license_data.get(text, default)] with the empty string as
    default). *)
Record license_item := {
  item_id : string;
  item_text : option string
}.

(** The body of [analyze_with_semaphore], between acquiring the semaphore and
    releasing it. *)
Definition analyze_item (self : LicenseAnalyzer) (license_data : license_item)
    : outcome pydict :=
  let license_id := item_id license_data in
  let license_text := default "" (item_text license_data) in
  let! analysis := analyze_license self license_id license_text in
  let! compatibility := extract_compatibility_rules self license_id analysis in
  Return (<["compatibility_rules" := PyDict compatibility]> analysis).

(** *** [batch_analyze]

    The tasks [asyncio.gather] runs are interleaved by the event loop; the
    model is the step relation of that interleaving.  A task waits at
    [async with semaphore], runs the body of [analyze_with_semaphore] while it
    holds a slot of the semaphore, and is done, slot released, with what the
    body returned or raised. *)
Inductive task :=
| Waiting
| Running
| Done (result : outcome pydict).

Record batch_state := {
  tasks : list task;
  semaphore : nat
}.

(** [asyncio.Semaphore(max_concurrent)] refuses a negative value; then one
    task per license, in the order of the list. *)
Definition batch_start (licenses : list license_item) (max_concurrent : Z)
    : outcome batch_state :=
  if max_concurrent <? 0 then Raise ValueError
  else Return {| tasks := (fun _ => Waiting) <$> licenses;
                 semaphore := Z.to_nat max_concurrent |}.

Inductive batch_step (self : LicenseAnalyzer) (licenses : list license_item)
    : batch_state -> batch_state -> Prop :=
| step_acquire (i : nat) (st : batch_state) :
    tasks st !! i = Some Waiting ->
    (0 < semaphore st)%nat ->
    batch_step self licenses st
      {| tasks := <[i := Running]> (tasks st);
         semaphore := (semaphore st - 1)%nat |}
| step_release (i : nat) (license_data : license_item) (st : batch_state) :
    tasks st !! i = Some Running ->
    licenses !! i = Some license_data ->
    batch_step self licenses st
      {| tasks := <[i := Done (analyze_item self license_data)]> (tasks st);
         semaphore := S (semaphore st) |}.

Definition is_running (t : task) : bool :=
  match t with
  | Running => true
  | _ => false
  end.

Definition is_waiting (t : task) : bool :=
  match t with
  | Waiting => true
  | _ => false
  end.

(** The tasks inside the [async with] block. *)
Definition in_flight (st : batch_state) : nat :=
  length (filter (fun t => is_running t = true) (tasks st)).

(** What [await asyncio.gather] hands back, once it does: the results
    in the order of the tasks, or an exception a task raised (the leftmost
    one stands for whichever came first).  [None]: still waiting. *)
Fixpoint gather (ts : list task) : option (outcome (list pydict)) :=
  match ts with
  | [] => Some (Return [])
  | t :: rest =>
      match t, gather rest with
      | Done (Raise e), _ => Some (Raise e)
      | _, Some (Raise e) => Some (Raise e)
      | Done (Return r), Some (Return rs) => Some (Return (r :: rs))
      | _, _ => None
      end
  end.

(** The steps a state still has ahead of it: two per waiting task, one per
    running task. *)
Definition steps_left (st : batch_state) : nat :=
  (2 * length (filter (fun t => is_waiting t = true) (tasks st))
   + in_flight st)%nat.

(** What a task holds for its license: once done, what the body returned
    on that license. *)
Definition task_of (self : LicenseAnalyzer) (license_data : license_item)
    (t : task) : Prop :=
  t = Waiting \/ t = Running \/ t = Done (analyze_item self license_data).

(** What every state of a batch with [limit] slots satisfies: one task per
    license, in the order of the licenses, and the free slots and the tasks
    in flight add up to the limit. *)
Definition batch_invariant (self : LicenseAnalyzer) (licenses : list license_item)
    (limit : nat) (st : batch_state) : Prop :=
  Forall2 (task_of self) licenses (tasks st)
  /\ (semaphore st + in_flight st = limit)%nat.

(** The ids the fallback classifies public_domain: those the CC0 or
    Unlicense test takes, no earlier test of the chain having taken them. *)
Definition public_domain_id (license_id : string) : bool :=
  negb (contains "GPL" license_id)
  && negb (contains "Apache" license_id)
  && negb (contains "MIT" license_id || contains "BSD" license_id
           || contains "ISC" license_id)
  && (contains "CC0" license_id || contains "Unlicense" license_id).

(** The result of an item on which both queries of the backend raise. *)
Definition fallback_result (license_id : string) : pydict :=
  let analysis := _get_fallback_analysis license_id in
  <["compatibility_rules" :=
      PyDict (_get_default_compatibility_rules license_id analysis)]> analysis.

End WithRuntime.

End LlmAnalyzer.

(** ** [ospac/pipeline/data_generator.py] *)

Module DataGenerator.

(** The three datasets; what is written to disk is the value returned. *)
Record matrix := {
  matrix_version : string;
  matrix_generated : string;
  total_licenses : nat;
  compatibility : gmap pykey (gmap pykey pydict)
}.

Record obligation_db := {
  obligations_version : string;
  obligations_generated : string;
  obligation_licenses : gmap pykey pydict
}.

Record master_db := {
  master_version : string;
  master_generated : string;
  master_total_licenses : nat;
  master_licenses : gmap pykey pydict
}.

Record validation_report := {
  report_total_licenses : nat;
  missing_category : nat;
  missing_permissions : nat;
  missing_obligations : nat;
  missing_compatibility : nat;
  validation_errors : list string;
  is_valid : option bool
}.

Definition verdict (static dynamic distribution : string) : pydict :=
  dict_of [
    ("static_linking", PyStr static);
    ("dynamic_linking", PyStr dynamic);
    ("distribution", PyStr distribution)].

(** [_check_license_compatibility] *)
Definition _check_license_compatibility (license1 license2 : pydict) : pydict :=
  let cat1 := get_default license1 "category" (PyStr "permissive") in
  let cat2 := get_default license2 "category" (PyStr "permissive") in
  let compatibility := verdict "unknown" "unknown" "unknown" in
  if py_eq cat1 (PyStr "permissive") && py_eq cat2 (PyStr "permissive") then
    verdict "compatible" "compatible" "compatible"
  else if py_eq cat1 (PyStr "copyleft_strong") || py_eq cat2 (PyStr "copyleft_strong") then
    if py_eq cat1 cat2 then
      verdict "compatible" "compatible" "compatible"
    else
      verdict "incompatible" "review_required" "incompatible"
  else if py_eq cat1 (PyStr "copyleft_weak") || py_eq cat2 (PyStr "copyleft_weak") then
    verdict "review_required" "compatible" "compatible"
  else compatibility.

Section WithRuntime.
Context `{PyRuntime}.

(** The inner loop of [_generate_compatibility_matrix]: the row of
    [license1], filled in place in the source, threaded here. *)
Definition matrix_row (license1 : pydict) (licenses : list pydict)
    : outcome (gmap pykey pydict) :=
  for_each licenses
    (fun license2 row =>
       let id2 := get license2 "license_id" in
       if negb (truthy id2) then Return row
       else
         let compat := _check_license_compatibility license1 license2 in
         let! key2 := as_key id2 in
         Return (<[key2 := compat]> row))
    ∅.

(** [_generate_compatibility_matrix] *)
Definition _generate_compatibility_matrix (licenses : list pydict) : outcome matrix :=
  let! table :=
    for_each licenses
      (fun license1 table =>
         let id1 := get license1 "license_id" in
         if negb (truthy id1) then Return table
         else
           let! key1 := as_key id1 in
           let! row := matrix_row license1 licenses in
           Return (<[key1 := row]> table))
      ∅ in
  Return {| matrix_version := "1.0";
            matrix_generated := now_isoformat;
            total_licenses := length licenses;
            compatibility := table |}.

(** [_generate_obligation_database] *)
Definition _generate_obligation_database (licenses : list pydict)
    : outcome obligation_db :=
  let! entries :=
    for_each licenses
      (fun license_data entries =>
         let license_id := get license_data "license_id" in
         if negb (truthy license_id) then Return entries
         else
           let conditions := get_default license_data "conditions" (PyDict ∅) in
           let! attribution := attr_get conditions "include_copyright" (PyBool false) in
           let! disclosure := attr_get conditions "disclose_source" (PyBool false) in
           let! notice := attr_get conditions "include_notice" (PyBool false) in
           let! key := as_key license_id in
           Return (<[key := dict_of [
             ("obligations", get_default license_data "obligations" (PyList []));
             ("key_requirements", get_default license_data "key_requirements" (PyList []));
             ("conditions", conditions);
             ("attribution_required", attribution);
             ("source_disclosure_required", disclosure);
             ("notice_required", notice)]]> entries))
      ∅ in
  Return {| obligations_version := "1.0";
            obligations_generated := now_isoformat;
            obligation_licenses := entries |}.

(** [_generate_master_database]; the source returns nothing and writes
    [master_db] out. *)
Definition _generate_master_database (licenses : list pydict)
    (compatibility_matrix : matrix) (obligation_database : obligation_db)
    : outcome master_db :=
  let! entries :=
    for_each licenses
      (fun license_data entries =>
         let license_id := get license_data "license_id" in
         if negb (truthy license_id) then Return entries
         else
           let! key := as_key license_id in
           let obligation_entry :=
             default ∅ (obligation_licenses obligation_database !! key) in
           let spdx_data := get_default license_data "spdx_data" (PyDict ∅) in
           let! is_osi_approved := attr_get spdx_data "isOsiApproved" (PyBool false) in
           let! is_fsf_libre := attr_get spdx_data "isFsfLibre" (PyBool false) in
           let! is_deprecated := attr_get spdx_data "isDeprecatedLicenseId" (PyBool false) in
           Return (<[key := dict_of [
             ("id", license_id);
             ("name", get_default license_data "name" license_id);
             ("category", get license_data "category");
             ("permissions", get license_data "permissions");
             ("conditions", get license_data "conditions");
             ("limitations", get license_data "limitations");
             ("obligations", get_default obligation_entry "obligations" (PyList []));
             ("compatibility_rules",
                get_default license_data "compatibility_rules" (PyDict ∅));
             ("spdx_metadata", PyDict (dict_of [
                ("is_osi_approved", is_osi_approved);
                ("is_fsf_libre", is_fsf_libre);
                ("is_deprecated", is_deprecated)]))]]> entries))
      ∅ in
  Return {| master_version := "1.0";
            master_generated := now_isoformat;
            master_total_licenses := length licenses;
            master_licenses := entries |}.

(** The body of the loop of [_validate_generated_data]. *)
Definition validate_license (license_data : pydict) (report : validation_report)
    : validation_report :=
  let license_id := get_default license_data "license_id" (PyStr "unknown") in
  let report :=
    if negb (truthy (get license_data "category")) then
      {| report_total_licenses := report_total_licenses report;
         missing_category := (missing_category report + 1)%nat;
         missing_permissions := missing_permissions report;
         missing_obligations := missing_obligations report;
         missing_compatibility := missing_compatibility report;
         validation_errors :=
           validation_errors report ++ [py_str license_id +:+ ": Missing category"];
         is_valid := is_valid report |}
    else report in
  let report :=
    if negb (truthy (get license_data "permissions")) then
      {| report_total_licenses := report_total_licenses report;
         missing_category := missing_category report;
         missing_permissions := (missing_permissions report + 1)%nat;
         missing_obligations := missing_obligations report;
         missing_compatibility := missing_compatibility report;
         validation_errors :=
           validation_errors report ++ [py_str license_id +:+ ": Missing permissions"];
         is_valid := is_valid report |}
    else report in
  let report :=
    if negb (truthy (get license_data "obligations")) then
      {| report_total_licenses := report_total_licenses report;
         missing_category := missing_category report;
         missing_permissions := missing_permissions report;
         missing_obligations := (missing_obligations report + 1)%nat;
         missing_compatibility := missing_compatibility report;
         validation_errors := validation_errors report;
         is_valid := is_valid report |}
    else report in
  if negb (truthy (get license_data "compatibility_rules")) then
    {| report_total_licenses := report_total_licenses report;
       missing_category := missing_category report;
       missing_permissions := missing_permissions report;
       missing_obligations := missing_obligations report;
       missing_compatibility := (missing_compatibility report + 1)%nat;
       validation_errors := validation_errors report;
       is_valid := is_valid report |}
  else report.

(** [_validate_generated_data] *)
Definition _validate_generated_data (licenses : list pydict)
    : validation_report :=
  let report :=
    {| report_total_licenses := length licenses;
       missing_category := 0;
       missing_permissions := 0;
       missing_obligations := 0;
       missing_compatibility := 0;
       validation_errors := [];
       is_valid := None |} in
  let report := foldl (fun report license_data => validate_license license_data report)
                      report licenses in
  {| report_total_licenses := report_total_licenses report;
     missing_category := missing_category report;
     missing_permissions := missing_permissions report;
     missing_obligations := missing_obligations report;
     missing_compatibility := missing_compatibility report;
     validation_errors := validation_errors report;
     is_valid := Some (length (validation_errors report) =? 0)%nat |}.

(** The key a record is filed under by the three generators: that of its
    [license_id], when this is truthy and hashable. *)
Definition license_key (license_data : pydict) : option pykey :=
  let license_id := get license_data "license_id" in
  if truthy license_id then
    match as_key license_id with
    | Return key => Some key
    | Raise _ => None
    end
  else None.

(** The records a generator can file: a truthy [license_id] is hashable, and
    [conditions] and [spdx_data], when present, are dicts. *)
Definition hashable_id (license_data : pydict) : Prop :=
  truthy (get license_data "license_id") = true ->
  returns (as_key (get license_data "license_id")).

Definition is_dict (v : pyval) : Prop := exists d, v = PyDict d.

Definition well_formed (license_data : pydict) : Prop :=
  hashable_id license_data
  /\ is_dict (get_default license_data "conditions" (PyDict ∅))
  /\ is_dict (get_default license_data "spdx_data" (PyDict ∅)).

(** The entry a record is filed with: its key, and a value made from it. *)
Definition filed {V} (value : pydict -> V) (license_data : pydict)
    : option (pykey * V) :=
  (fun key => (key, value license_data)) <$> license_key license_data.

(** The row of [license1] and the table, as the loops leave them when no
    key raises. *)
Definition row_of (license1 : pydict) (licenses : list pydict) : gmap pykey pydict :=
  foldl (put_entry (filed (_check_license_compatibility license1))) ∅ licenses.

Definition table_of (licenses : list pydict) : gmap pykey (gmap pykey pydict) :=
  foldl (put_entry (filed (fun license1 => row_of license1 licenses))) ∅ licenses.

(** [v.get(k, default)] when [v] is a dict. *)
Definition dict_get (v : pyval) (k : string) (default : pyval) : pyval :=
  match v with
  | PyDict d => get_default d k default
  | _ => default
  end.

(** The dict literal of [_generate_obligation_database], for a record whose
    [conditions] are a dict. *)
Definition obligation_entry (license_data : pydict) : pydict :=
  let conditions := get_default license_data "conditions" (PyDict ∅) in
  dict_of [
    ("obligations", get_default license_data "obligations" (PyList []));
    ("key_requirements", get_default license_data "key_requirements" (PyList []));
    ("conditions", conditions);
    ("attribution_required", dict_get conditions "include_copyright" (PyBool false));
    ("source_disclosure_required", dict_get conditions "disclose_source" (PyBool false));
    ("notice_required", dict_get conditions "include_notice" (PyBool false))].

(** The dict literal of [_generate_master_database], for a record whose
    [spdx_data] is a dict. *)
Definition master_entry (obligation_database : obligation_db)
    (license_data : pydict) : pydict :=
  let license_id := get license_data "license_id" in
  let obligation_entry :=
    match license_key license_data with
    | Some key => default ∅ (obligation_licenses obligation_database !! key)
    | None => ∅
    end in
  let spdx_data := get_default license_data "spdx_data" (PyDict ∅) in
  dict_of [
    ("id", license_id);
    ("name", get_default license_data "name" license_id);
    ("category", get license_data "category");
    ("permissions", get license_data "permissions");
    ("conditions", get license_data "conditions");
    ("limitations", get license_data "limitations");
    ("obligations", get_default obligation_entry "obligations" (PyList []));
    ("compatibility_rules",
       get_default license_data "compatibility_rules" (PyDict ∅));
    ("spdx_metadata", PyDict (dict_of [
       ("is_osi_approved", dict_get spdx_data "isOsiApproved" (PyBool false));
       ("is_fsf_libre", dict_get spdx_data "isFsfLibre" (PyBool false));
       ("is_deprecated", dict_get spdx_data "isDeprecatedLicenseId" (PyBool false))]))].

(** What the validator reads as missing: [not license_data.get(key)]. *)
Definition missing (key : string) (license_data : pydict) : bool :=
  negb (truthy (get license_data key)).

Definition count_missing (key : string) (licenses : list pydict) : nat :=
  length (filter (fun license_data => missing key license_data = true) licenses).

(** The messages one record adds to [validation_errors]. *)
Definition messages_of (license_data : pydict) : list string :=
  let license_id := get_default license_data "license_id" (PyStr "unknown") in
  (if missing "category" license_data
   then [py_str license_id +:+ ": Missing category"] else [])
  ++ (if missing "permissions" license_data
      then [py_str license_id +:+ ": Missing permissions"] else []).

(** [_format_compatibility_for_policy]; [rules] is whatever the record holds
    under [compatibility_rules]. *)
Definition _format_compatibility_for_policy (rules : pyval) : outcome pydict :=
  let linking (dimension : string) : outcome pyval :=
    let! block := attr_get rules dimension (PyDict ∅) in
    let! compatible_with := attr_get block "compatible_with" (PyList []) in
    let! block := attr_get rules dimension (PyDict ∅) in
    let! incompatible_with := attr_get block "incompatible_with" (PyList []) in
    let! block := attr_get rules dimension (PyDict ∅) in
    let! requires_review := attr_get block "requires_review" (PyList []) in
    Return (PyDict (dict_of [
      ("compatible_with", compatible_with);
      ("incompatible_with", incompatible_with);
      ("requires_review", requires_review)])) in
  let! static_linking := linking "static_linking" in
  let! dynamic_linking := linking "dynamic_linking" in
  let! contamination_effect := attr_get rules "contamination_effect" (PyStr "none") in
  let! notes := attr_get rules "notes" (PyStr "") in
  Return (dict_of [
    ("static_linking", static_linking);
    ("dynamic_linking", dynamic_linking);
    ("contamination_effect", contamination_effect);
    ("notes", notes)]).

(** The policy [_generate_license_policies] makes of a record with a truthy
    [license_id]. *)
Definition license_policy (license_data : pydict) : outcome pydict :=
  let license_id := get license_data "license_id" in
  let! compatibility :=
    _format_compatibility_for_policy
      (get_default license_data "compatibility_rules" (PyDict ∅)) in
  Return (dict_of [
    ("license", PyDict (dict_of [
       ("id", license_id);
       ("name", get_default license_data "name" license_id);
       ("type", get_default license_data "category" (PyStr "permissive"));
       ("spdx_id", license_id);
       ("properties", get_default license_data "permissions" (PyDict ∅));
       ("requirements", get_default license_data "conditions" (PyDict ∅));
       ("limitations", get_default license_data "limitations" (PyDict ∅));
       ("compatibility", PyDict compatibility);
       ("obligations", get_default license_data "obligations" (PyList []));
       ("key_requirements",
          get_default license_data "key_requirements" (PyList []))]))]).

(** [_generate_license_policies]: the files written, in the order they are
    written, each with its name under [licenses/spdx] and its policy. *)
Definition _generate_license_policies (licenses : list pydict)
    : outcome (list (string * pydict)) :=
  for_each licenses
    (fun license_data written =>
       let license_id := get license_data "license_id" in
       if negb (truthy license_id) then Return written
       else
         let! policy := license_policy license_data in
         let policy_file := py_str license_id +:+ ".yaml" in
         Return (written ++ [(policy_file, policy)])%list)
    [].

(** [_count_categories] *)
Definition _count_categories (licenses : list pydict) : outcome (gmap pykey Z) :=
  for_each licenses
    (fun license_data categories =>
       let cat := get_default license_data "category" (PyStr "unknown") in
       let! key := as_key cat in
       Return (<[key := default 0 (categories !! key) + 1]> categories))
    ∅.

(** The key [_count_categories] counts a record under, when its category can
    be one. *)
Definition category_key (license_data : pydict) : option pykey :=
  match as_key (get_default license_data "category" (PyStr "unknown")) with
  | Return key => Some key
  | Raise _ => None
  end.

(** *** [generate_all_data] *)

(** Modelled from the spec: [ospac.pipeline.spdx_processor] is not among the
    sources.  The registry snapshot is a list of entries, each with its
    [licenseId] (a string, or nothing) and the entry as the registry has it,
    and a version; the text of a license may be unavailable. *)
Record spdx_license := {
  licenseId : option string;
  spdx_entry : pydict
}.

Record spdx_snapshot := {
  spdx_licenses : list spdx_license;
  spdx_version : pyval
}.

Record SPDXProcessor := {
  download_spdx_data : bool -> outcome spdx_snapshot;
  get_license_text : string -> outcome (option string)
}.

(** [self] of [PolicyDataGenerator]. *)
Record PolicyDataGenerator := {
  output_dir : string;
  spdx_processor : SPDXProcessor;
  llm_analyzer : LlmAnalyzer.LicenseAnalyzer
}.

(** [licenses[:limit]] *)
Definition slice_to {A} (items : list A) (limit : Z) : list A :=
  if 0 <=? limit then take (Z.to_nat limit) items
  else take (Z.to_nat (Z.of_nat (length items) + limit)) items.

(** Step 2 of [generate_all_data]: the items handed to the batch. *)
Definition process_licenses (self : PolicyDataGenerator)
    (licenses : list spdx_license) : outcome (list LlmAnalyzer.license_item) :=
  for_each licenses
    (fun license_data processed_licenses =>
       match licenseId license_data with
       | None => Return processed_licenses
       | Some license_id =>
           if negb (truthy (PyStr license_id)) then Return processed_licenses
           else
             let! license_text := get_license_text (spdx_processor self) license_id in
             let text :=
               match license_text with
               | Some t => if truthy (PyStr t) then t else ""
               | None => ""
               end in
             Return (processed_licenses
                       ++ [{| LlmAnalyzer.item_id := license_id;
                              LlmAnalyzer.item_text := Some text |}])%list
       end)
    [].

(** The id under which an entry of the registry is processed: its
    [licenseId], when it is truthy. *)
Definition kept_id (license_data : spdx_license) : option string :=
  match licenseId license_data with
  | Some license_id => if truthy (PyStr license_id) then Some license_id else None
  | None => None
  end.

(** What a run leaves: the summary it returns and the datasets it wrote. *)
Record summary := {
  summary_total_licenses : nat;
  summary_spdx_version : pyval;
  generated_at : string;
  output_directory : string;
  categories : gmap pykey Z;
  validation : validation_report
}.

Record run := {
  run_summary : summary;
  run_policies : list (string * pydict);
  run_matrix : matrix;
  run_obligations : obligation_db;
  run_master : master_db
}.

(** [generate_all_data]; the batch runs with its default limit of five, and
    hands back the comprehension of the body over the items. *)
Definition generate_all_data (self : PolicyDataGenerator) (force_download : bool)
    (limit : option Z) : outcome run :=
  let! spdx_data := download_spdx_data (spdx_processor self) force_download in
  let licenses := spdx_licenses spdx_data in
  let licenses :=
    match limit with
    | Some n => if truthy (PyInt n) then slice_to licenses n else licenses
    | None => licenses
    end in
  let! processed_licenses := process_licenses self licenses in
  let! analyzed_licenses :=
    map_outcome (LlmAnalyzer.analyze_item (llm_analyzer self)) processed_licenses in
  let! policies := _generate_license_policies analyzed_licenses in
  let! compatibility_matrix := _generate_compatibility_matrix analyzed_licenses in
  let! obligation_database := _generate_obligation_database analyzed_licenses in
  let! master :=
    _generate_master_database analyzed_licenses compatibility_matrix
      obligation_database in
  let validation_report := _validate_generated_data analyzed_licenses in
  let! histogram := _count_categories analyzed_licenses in
  Return {|
    run_summary := {|
      summary_total_licenses := length analyzed_licenses;
      summary_spdx_version := spdx_version spdx_data;
      generated_at := now_isoformat;
      output_directory := output_dir self;
      categories := histogram;
      validation := validation_report |};
    run_policies := policies;
    run_matrix := compatibility_matrix;
    run_obligations := obligation_database;
    run_master := master |}.

End WithRuntime.

End DataGenerator.

(** ** [fix_missing_licenses.py] *)

Module FixMissingLicenses.

Definition MISSING_LICENSES : list string := [
  "Advanced-Cryptics-Dictionary";
  "BSD-3-Clause-Tso";
  "BSD-Mark-Modifications";
  "ESA-PL-permissive-2.4";
  "ESA-PL-strong-copyleft-2.4";
  "ESA-PL-weak-copyleft-2.4";
  "HPND-SMC";
  "hyphen-bulgarian";
  "NIST-PD-TNT";
  "OSSP";
  "SGMLUG-PM";
  "WordNet";
  "WTFNMFPL"
].

(** An entry of [FALLBACK_LICENSES]: the three keys every entry has. *)
Record fallback_license := {
  entry_name : string;
  entry_text : string;
  entry_category : string
}.

Definition FALLBACK_LICENSES : gmap string fallback_license :=
  list_to_map [
    ("Advanced-Cryptics-Dictionary",
     {| entry_name := "Advanced Cryptics Dictionary License";
        entry_text := "Permission to use this dictionary is granted under standard dictionary terms.";
        entry_category := "permissive" |});
    ("BSD-3-Clause-Tso",
     {| entry_name := "BSD 3-Clause Theodore Ts'o variant";
        entry_text := "BSD 3-Clause License with Theodore Ts'o variant terms.";
        entry_category := "permissive" |});
    ("BSD-Mark-Modifications",
     {| entry_name := "BSD Mark Modifications License";
        entry_text := "BSD-style license requiring modifications to be marked.";
        entry_category := "permissive" |});
    ("ESA-PL-permissive-2.4",
     {| entry_name := "European Space Agency Public License - Permissive v2.4";
        entry_text := "ESA permissive license for space-related software.";
        entry_category := "permissive" |});
    ("ESA-PL-strong-copyleft-2.4",
     {| entry_name := "European Space Agency Public License - Strong Copyleft v2.4";
        entry_text := "ESA strong copyleft license for space-related software.";
        entry_category := "copyleft_strong" |});
    ("ESA-PL-weak-copyleft-2.4",
     {| entry_name := "European Space Agency Public License - Weak Copyleft v2.4";
        entry_text := "ESA weak copyleft license for space-related software.";
        entry_category := "copyleft_weak" |});
    ("HPND-SMC",
     {| entry_name := "Historical Permission Notice and Disclaimer - SMC variant";
        entry_text := "HPND with SMC variant terms.";
        entry_category := "permissive" |});
    ("hyphen-bulgarian",
     {| entry_name := "Bulgarian Hyphenation Patterns License";
        entry_text := "License for Bulgarian hyphenation patterns.";
        entry_category := "permissive" |});
    ("NIST-PD-TNT",
     {| entry_name := "NIST Public Domain Notice with TNT variant";
        entry_text := "NIST public domain notice for TNT software.";
        entry_category := "public_domain" |});
    ("OSSP",
     {| entry_name := "OSSP License";
        entry_text := "Open Source Software Project license.";
        entry_category := "permissive" |});
    ("SGMLUG-PM",
     {| entry_name := "SGML Users Group Perl Module License";
        entry_text := "License for SGML Perl modules.";
        entry_category := "permissive" |});
    ("WordNet",
     {| entry_name := "WordNet License";
        entry_text := "License for WordNet lexical database.";
        entry_category := "permissive" |});
    ("WTFNMFPL",
     {| entry_name := "Do What The F*ck You Want To Public License (No Military/Fascist)";
        entry_text := "WTFPL with restrictions on military and fascist use.";
        entry_category := "permissive" |})
  ].

(** [requests.get(url, timeout=5)], seen through what the script reads of the
    response; the call may raise. *)
Record Response := {
  status_code : Z;
  response_text : string
}.

Record Requests := { requests_get : string -> outcome Response }.

(** The loop of [try_fetch_from_github]: the bare [except] goes on with the
    next URL whatever was raised. *)
Fixpoint fetch_first (requests : Requests) (urls : list string) : option string :=
  match urls with
  | [] => None
  | url :: urls =>
      match requests_get requests url with
      | Return response =>
          if status_code response =? 200 then Some (response_text response)
          else fetch_first requests urls
      | Raise _ => fetch_first requests urls
      end
  end.

Definition try_fetch_from_github (requests : Requests) (license_id : string)
    : option string :=
  let urls := [
    "https://raw.githubusercontent.com/spdx/license-list-data/master/text/"
      +:+ license_id +:+ ".txt";
    "https://raw.githubusercontent.com/spdx/license-list-data/main/text/"
      +:+ license_id +:+ ".txt"
  ] in
  fetch_first requests urls.

(** [s.replace(old, new)] for [old] and [new] of one character. *)
Fixpoint replace_char (old new : ascii) (s : string) : string :=
  match s with
  | EmptyString => EmptyString
  | String c s' => String (if Ascii.eqb c old then new else c) (replace_char old new s')
  end.

(** [not text], for the [str] or [None] that [try_fetch_from_github] gives. *)
Definition no_text (text : option string) : bool :=
  match text with
  | Some t => negb (truthy (PyStr t))
  | None => true
  end.

(** The text, the name and the category [create_license_file] settles on
    before it builds the file: those of the table when nothing was fetched
    and the table has the id, the defaults otherwise. *)
Definition license_source (requests : Requests) (license_id : string)
    : string * string * string :=
  let text := try_fetch_from_github requests license_id in
  match (if no_text text then FALLBACK_LICENSES !! license_id else None) with
  | Some fallback =>
      (entry_text fallback, entry_name fallback, entry_category fallback)
  | None =>
      let name := replace_char "-" " " license_id in
      let category := "permissive" in
      let text :=
        match text with
        | Some t => if no_text text then "License text for " +:+ license_id else t
        | None => "License text for " +:+ license_id
        end in
      (text, name, category)
  end.

(** [create_license_file]: the name of the file it writes under [output_dir]
    and what it dumps there.  [name] and [category] are bound on both
    branches, so the two tests on [locals()] hold; the two appends to the
    list of obligations, made on the dict in the source, are made before the
    dict is built. *)
Definition create_license_file (requests : Requests) (license_id : string)
    : string * pydict :=
  let '(text, name, category) := license_source requests license_id in
  let strong := String.eqb category "copyleft_strong" in
  let permissive := String.eqb category "permissive" in
  let obligations := ["Include license text"; "Include copyright notice"] in
  let obligations :=
    if contains "copyleft" category then
      let obligations := (obligations ++ ["Share source code for modifications"])%list in
      if strong then (obligations ++ ["Distribute under same license"])%list
      else obligations
    else obligations in
  let license_data := dict_of [
    ("license", PyDict (dict_of [
       ("id", PyStr license_id);
       ("name", PyStr name);
       ("type", PyStr category);
       ("spdx_id", PyStr license_id);
       ("properties", PyDict (dict_of [
          ("commercial_use", PyBool true);
          ("distribution", PyBool true);
          ("modification", PyBool true);
          ("patent_grant", PyBool false);
          ("private_use", PyBool true)]));
       ("requirements", PyDict (dict_of [
          ("disclose_source", PyBool strong);
          ("include_license", PyBool true);
          ("include_copyright", PyBool true);
          ("include_notice", PyBool false);
          ("state_changes", PyBool false);
          ("same_license", PyBool strong);
          ("network_use_disclosure", PyBool false)]));
       ("limitations", PyDict (dict_of [
          ("liability", PyBool true);
          ("warranty", PyBool true);
          ("trademark_use", PyBool false)]));
       ("compatibility", PyDict (dict_of [
          ("static_linking", PyDict (dict_of [
             ("compatible_with",
                if permissive then str_list ["category:any"] else PyList []);
             ("incompatible_with", PyList []);
             ("requires_review", PyList [])]));
          ("dynamic_linking", PyDict (dict_of [
             ("compatible_with",
                if negb strong then str_list ["category:any"] else PyList []);
             ("incompatible_with", PyList []);
             ("requires_review", PyList [])]));
          ("contamination_effect",
             PyStr (if permissive then "none" else "strong"));
          ("notes", PyStr ("License data for " +:+ license_id))]));
       ("obligations", str_list obligations);
       ("key_requirements", str_list ["Attribution required"])]))] in
  let output_file := license_id +:+ ".yaml" in
  (output_file, license_data).

(** One turn of the loop of [main] on the files of [data/licenses/spdx], by
    name, and the count of the files created; writing a file does not fail
    here, so the [except] branch of the loop is not taken. *)
Definition fix_license (requests : Requests)
    (state : gmap string pydict * nat) (license_id : string)
    : gmap string pydict * nat :=
  let '(files, fixed_count) := state in
  let license_file := license_id +:+ ".yaml" in
  if bool_decide (is_Some (files !! license_file)) then (files, fixed_count)
  else
    let '(created_file, license_data) := create_license_file requests license_id in
    (<[created_file := license_data]> files, S fixed_count).

(** [main]: the files it leaves and the count it prints. *)
Definition main (requests : Requests) (files : gmap string pydict)
    : gmap string pydict * nat :=
  foldl (fix_license requests) (files, 0%nat) MISSING_LICENSES.

End FixMissingLicenses.

(** ** A runtime to run the pipeline on

    The statements below hold for every [PyRuntime]; this one is what the
    concrete runs use.  Its [json_loads] reads the JSON grammar without
    fractional numbers (the model has no floats: a number with a fraction or
    an exponent is refused) and without unicode escapes. *)

Module Runtime.

Definition is_ws (c : ascii) : bool :=
  (Ascii.eqb c " " || Ascii.eqb c "009" || Ascii.eqb c "010" || Ascii.eqb c "013")%bool.

Fixpoint skip_ws (s : string) : string :=
  match s with
  | String c rest => if is_ws c then skip_ws rest else s
  | EmptyString => s
  end.

Definition digit_value (c : ascii) : option Z :=
  let n := Z.of_nat (nat_of_ascii c) in
  if (48 <=? n) && (n <=? 57) then Some (n - 48) else None.

(** The text of a JSON string after its opening quote, up to the closing
    quote; control characters are refused, as [json.loads] does by default. *)
Fixpoint parse_string (s : string) : outcome (string * string) :=
  match s with
  | EmptyString => Raise JSONDecodeError
  | String c rest =>
      if Ascii.eqb c "034" then Return (EmptyString, rest)
      else if Ascii.eqb c "\" then
        match rest with
        | String e rest' =>
            let unescaped :=
              if Ascii.eqb e "034" then Some "034"%char
              else if Ascii.eqb e "\" then Some "\"%char
              else if Ascii.eqb e "/" then Some "/"%char
              else if Ascii.eqb e "b" then Some "008"%char
              else if Ascii.eqb e "f" then Some "012"%char
              else if Ascii.eqb e "n" then Some "010"%char
              else if Ascii.eqb e "r" then Some "013"%char
              else if Ascii.eqb e "t" then Some "009"%char
              else None in
            match unescaped with
            | Some u =>
                let! parsed := parse_string rest' in
                Return (String u parsed.1, parsed.2)
            | None => Raise JSONDecodeError
            end
        | EmptyString => Raise JSONDecodeError
        end
      else if (nat_of_ascii c <? 32)%nat then Raise JSONDecodeError
      else
        let! parsed := parse_string rest in
        Return (String c parsed.1, parsed.2)
  end.

Fixpoint parse_digits (s : string) (acc : Z) : Z * string :=
  match s with
  | String c rest =>
      match digit_value c with
      | Some d => parse_digits rest (10 * acc + d)
      | None => (acc, s)
      end
  | EmptyString => (acc, s)
  end.

Definition starts_float_part (s : string) : bool :=
  match s with
  | String c _ => (Ascii.eqb c "." || Ascii.eqb c "e" || Ascii.eqb c "E")%bool
  | EmptyString => false
  end.

(** An integer: a single zero, or digits that start with a nonzero one. *)
Definition parse_int (s : string) : outcome (Z * string) :=
  match s with
  | String c rest =>
      match digit_value c with
      | Some d =>
          let parsed := if d =? 0 then (0, rest) else parse_digits rest d in
          if starts_float_part parsed.2 then Raise JSONDecodeError
          else Return parsed
      | None => Raise JSONDecodeError
      end
  | EmptyString => Raise JSONDecodeError
  end.

Definition expect_literal (lit : string) (v : pyval) (s : string)
    : outcome (pyval * string) :=
  if String.prefix lit s
  then Return (v, String.substring (String.length lit)
                                   (String.length s - String.length lit) s)
  else Raise JSONDecodeError.

Inductive mode :=
| Value
| Elements (acc : list pyval)
| Members (acc : pydict).

(** One value, the rest of an array after its opening bracket or a comma, or
    the rest of an object after its opening brace or a comma.  [fuel] bounds
    the nesting of the calls; Python's own bound is its recursion limit. *)
Fixpoint parse (fuel : nat) (m : mode) (s : string) : outcome (pyval * string) :=
  match fuel with
  | O => Raise RecursionError
  | S fuel =>
      match m with
      | Value =>
          match skip_ws s with
          | String c rest =>
              if Ascii.eqb c "{" then
                match skip_ws rest with
                | String "}" rest' => Return (PyDict ∅, rest')
                | _ => parse fuel (Members ∅) rest
                end
              else if Ascii.eqb c "[" then
                match skip_ws rest with
                | String "]" rest' => Return (PyList [], rest')
                | _ => parse fuel (Elements []) rest
                end
              else if Ascii.eqb c "034" then
                let! parsed := parse_string rest in
                Return (PyStr parsed.1, parsed.2)
              else if Ascii.eqb c "-" then
                let! parsed := parse_int rest in
                Return (PyInt (- parsed.1), parsed.2)
              else if Ascii.eqb c "t" then expect_literal "true" (PyBool true) (skip_ws s)
              else if Ascii.eqb c "f" then expect_literal "false" (PyBool false) (skip_ws s)
              else if Ascii.eqb c "n" then expect_literal "null" PyNone (skip_ws s)
              else
                let! parsed := parse_int (skip_ws s) in
                Return (PyInt parsed.1, parsed.2)
          | EmptyString => Raise JSONDecodeError
          end
      | Elements acc =>
          let! element := parse fuel Value s in
          match skip_ws element.2 with
          | String "," rest => parse fuel (Elements (acc ++ [element.1])) rest
          | String "]" rest => Return (PyList (acc ++ [element.1]), rest)
          | _ => Raise JSONDecodeError
          end
      | Members acc =>
          match skip_ws s with
          | String "034" rest =>
              let! key := parse_string rest in
              match skip_ws key.2 with
              | String ":" rest' =>
                  let! member := parse fuel Value rest' in
                  match skip_ws member.2 with
                  | String "," rest'' =>
                      parse fuel (Members (<[key.1 := member.1]> acc)) rest''
                  | String "}" rest'' =>
                      Return (PyDict (<[key.1 := member.1]> acc), rest'')
                  | _ => Raise JSONDecodeError
                  end
              | _ => Raise JSONDecodeError
              end
          | _ => Raise JSONDecodeError
          end
      end
  end.

(** [json.loads] on a text that opens an object: one value, nothing but white
    space after it.  A text that holds another kind of value is not what the
    pipeline passes; it is refused. *)
Definition loads (s : string) : outcome pydict :=
  let! parsed := parse (2 * String.length s + 2) Value s in
  match skip_ws parsed.2, parsed.1 with
  | EmptyString, PyDict d => Return d
  | _, _ => Raise JSONDecodeError
  end.

(** [repr] of a string: between single quotes (exact for a text without
    quotes, backslashes and control characters). *)
Definition repr_str (s : string) : string := "'" +:+ s +:+ "'".

Definition join_comma (parts : list string) : string := String.concat ", " parts.

(** [str(v)], which is [repr(v)] but on a string. *)
Fixpoint repr (v : pyval) : string :=
  match v with
  | PyNone => "None"
  | PyBool true => "True"
  | PyBool false => "False"
  | PyInt z => pretty z
  | PyStr s => repr_str s
  | PyList l => "[" +:+ join_comma (map repr l) +:+ "]"
  | PyDict d =>
      "{" +:+ join_comma
                (map_fold (fun k v acc => (repr_str k +:+ ": " +:+ repr v) :: acc) [] d)
          +:+ "}"
  end.

Definition str (v : pyval) : string :=
  match v with
  | PyStr s => s
  | _ => repr v
  end.

#[export] Instance python : PyRuntime := {
  json_loads := loads;
  py_str := str;
  now_isoformat := "2024-01-01T00:00:00"
}.

End Runtime.

(** ** Concrete inputs *)

Module Samples.

Import LlmAnalyzer DataGenerator.

(** An analyzer without agent: the SDK is not installed. *)
Definition no_backend : LicenseAnalyzer :=
  {| model := "llama3"; ollama_url := "http://localhost:11434"; agent := None |}.

(** A record as the pipeline hands it on: an id and a category. *)
Definition classified (license_id category : string) : pydict :=
  dict_of [("license_id", PyStr license_id); ("category", PyStr category)].

Definition cc0 : pydict := classified "CC0-1.0" "public_domain".
Definition unlicense : pydict := classified "Unlicense" "public_domain".
Definition lgpl : pydict := classified "LGPL-2.1-only" "copyleft_weak".
Definition mpl : pydict := classified "MPL-2.0" "copyleft_weak".
Definition gpl2 : pydict := classified "GPL-2.0-only" "copyleft_strong".
Definition gpl3 : pydict := classified "GPL-3.0-only" "copyleft_strong".
Definition mit : pydict := classified "MIT" "permissive".

(** A record without [license_id]. *)
Definition anonymous : pydict := dict_of [("category", PyStr "permissive")].

(** A record with a category and permissions, without obligations and
    without compatibility rules. *)
Definition bare_mit : pydict :=
  dict_of [("license_id", PyStr "MIT"); ("category", PyStr "permissive");
           ("permissions", PyDict (dict_of [("commercial_use", PyBool true)]))].

(** A record that lacks its category and nothing else. *)
Definition uncategorized : pydict :=
  dict_of [("license_id", PyStr "Zed");
           ("permissions", PyDict (dict_of [("commercial_use", PyBool true)]));
           ("obligations", str_list ["Include license text"]);
           ("compatibility_rules", PyDict (dict_of [("notes", PyStr "none")]))].

(** Analyzers whose agent raises, answers without any JSON, answers with
    braces around something that is no JSON, and answers with a JSON object
    that has no category. *)
Definition with_agent (answer : string -> outcome string) : LicenseAnalyzer :=
  {| model := "llama3"; ollama_url := "http://localhost:11434";
     agent := Some {| query := answer |} |}.

Definition unreachable_backend : LicenseAnalyzer :=
  with_agent (fun prompt => Raise ConnectionError).

Definition chatty_backend : LicenseAnalyzer :=
  with_agent (fun prompt => Return "I am sorry, I cannot analyze this license.").

Definition closing_first_backend : LicenseAnalyzer :=
  with_agent (fun prompt => Return "} nothing here {").

Definition broken_json_backend : LicenseAnalyzer :=
  with_agent (fun prompt => Return "Here you are: {category: permissive}").

Definition no_category_reply : string :=
  "Here you are: {" +:+ quoted "license_id" +:+ ": " +:+ quoted "MIT" +:+ "} Done.".

Definition no_category_backend : LicenseAnalyzer :=
  with_agent (fun prompt => Return no_category_reply).

(** Ten items, and a backend that is down for the fourth of them (the id
    stands in both prompts of an item) and answers nothing usable for the
    others. *)
Definition ten_items : list license_item :=
  (fun license_id => {| item_id := license_id; item_text := Some "text" |})
  <$> ["MIT"; "Apache-2.0"; "GPL-3.0-only"; "Zlib"; "ISC"; "CC0-1.0";
       "BSD-3-Clause"; "Unlicense"; "LGPL-2.1-only"; "MPL-2.0"].

Definition down_for_zlib : LicenseAnalyzer :=
  with_agent (fun prompt =>
                if contains "Zlib" prompt then Raise TimeoutError
                else Return "no answer").

(** A registry of three entries, one of them without id, the texts of which
    cannot be had, and a generator on it whose analyzer has no agent. *)
Definition registry : spdx_snapshot :=
  {| spdx_licenses := [
       {| licenseId := Some "MIT";
          spdx_entry := dict_of [("licenseId", PyStr "MIT");
                                 ("isOsiApproved", PyBool true)] |};
       {| licenseId := None; spdx_entry := ∅ |};
       {| licenseId := Some "GPL-3.0-only";
          spdx_entry := dict_of [("licenseId", PyStr "GPL-3.0-only");
                                 ("isOsiApproved", PyBool true)] |}];
     spdx_version := PyStr "3.27.0" |}.

(** No network: every request raises. *)
Definition offline : FixMissingLicenses.Requests :=
  {| FixMissingLicenses.requests_get := fun url => Raise ConnectionError |}.

(** The first URL answers with a text. *)
Definition online : FixMissingLicenses.Requests :=
  {| FixMissingLicenses.requests_get := fun url =>
       Return {| FixMissingLicenses.status_code := 200;
                 FixMissingLicenses.response_text := "The text of the license." |} |}.

Definition offline_generator : PolicyDataGenerator :=
  {| output_dir := "data";
     spdx_processor :=
       {| download_spdx_data := fun force => Return registry;
          get_license_text := fun license_id => Return None |};
     llm_analyzer := no_backend |}.

End Samples.

(** * Properties *)

Import LlmAnalyzer DataGenerator.
#[local] Existing Instance Runtime.python.

(** ** Values and strings *)

Lemma py_eq_str (v : pyval) (s : string) :
  py_eq v (PyStr s) = true <-> v = PyStr s.
Proof.
  split.
  - destruct v; simpl; try discriminate.
    intros E. apply String.eqb_eq in E. by subst.
  - intros ->. simpl. apply String.eqb_refl.
Qed.

Lemma py_eq_str_l (v : pyval) (s : string) :
  py_eq (PyStr s) v = true <-> v = PyStr s.
Proof.
  split.
  - destruct v; simpl; try discriminate.
    intros E. apply String.eqb_eq in E. by subst.
  - intros ->. simpl. apply String.eqb_refl.
Qed.

Lemma py_eq_str_sym (v : pyval) (s : string) :
  py_eq v (PyStr s) = py_eq (PyStr s) v.
Proof.
  destruct (py_eq v (PyStr s)) eqn:E1, (py_eq (PyStr s) v) eqn:E2; try done.
  - apply py_eq_str in E1. subst. simpl in E2. by rewrite String.eqb_refl in E2.
  - apply py_eq_str_l in E2. subst. simpl in E1. by rewrite String.eqb_refl in E1.
Qed.

Lemma contains_prefix (sub s : string) :
  String.prefix sub s = true -> contains sub s = true.
Proof. intros E. destruct s; simpl in *; by rewrite E. Qed.

Lemma contains_cons (sub : string) (c : ascii) (s : string) :
  contains sub s = true -> contains sub (String c s) = true.
Proof.
  intros E. cbn [contains]. by destruct (String.prefix sub (String c s)).
Qed.

(** A text that holds [c :: sub] holds [sub]. *)
Lemma contains_tail (c : ascii) (sub s : string) :
  contains (String c sub) s = true -> contains sub s = true.
Proof.
  induction s as [|a s IH]; cbn [contains].
  - simpl. discriminate.
  - destruct (String.prefix (String c sub) (String a s)) eqn:E.
    + intros _. apply contains_cons, contains_prefix.
      simpl in E. destruct (ascii_dec c a); [done | discriminate].
    + intros E'. apply contains_cons. by apply IH.
Qed.

Lemma prefix_single (c : ascii) (s : string) :
  String.prefix (String c EmptyString) s = true <-> String.get 0 s = Some c.
Proof.
  destruct s as [|a s]; simpl; [split; discriminate |].
  destruct (ascii_dec c a) as [-> | N]; [by destruct s |].
  split; [discriminate | intros [= ->]; by destruct N].
Qed.

Lemma prefix_single_false (c : ascii) (s : string) :
  String.prefix (String c EmptyString) s = false <-> String.get 0 s <> Some c.
Proof.
  rewrite <- prefix_single. by destruct (String.prefix _ s).
Qed.

(** [find] of one character: -1 when the character is not there, else the
    index of its first occurrence. *)
Lemma find_from_cases (c : ascii) (s : string) (i0 : Z) :
  (find_from (String c EmptyString) s i0 = -1
   /\ forall j, String.get j s <> Some c)
  \/ (exists k : nat,
        find_from (String c EmptyString) s i0 = i0 + Z.of_nat k
        /\ String.get k s = Some c
        /\ forall j, (j < k)%nat -> String.get j s <> Some c).
Proof.
  revert i0. induction s as [|a s IH]; intros i0.
  - left. split; [reflexivity | by intros []].
  - cbn [find_from].
    destruct (String.prefix (String c EmptyString) (String a s)) eqn:P.
    + right. exists 0%nat. apply prefix_single in P.
      split; [lia |]. split; [done | lia].
    + apply prefix_single_false in P.
      destruct (IH (i0 + 1)) as [[E N] | (k & E & G & N)].
      * left. split; [done |]. intros [|j]; [done | apply N].
      * right. exists (S k). split; [lia |]. split; [done |].
        intros [|j] Hj; [done | apply N; lia].
Qed.

(** [rfind] of one character: -1 when the character is not there, else the
    index of its last occurrence. *)
Lemma rfind_from_cases (c : ascii) (s : string) (i0 : Z) :
  0 <= i0 ->
  (rfind_from (String c EmptyString) s i0 = -1
   /\ forall j, String.get j s <> Some c)
  \/ (exists k : nat,
        rfind_from (String c EmptyString) s i0 = i0 + Z.of_nat k
        /\ String.get k s = Some c
        /\ forall j, (k < j)%nat -> String.get j s <> Some c).
Proof.
  revert i0. induction s as [|a s IH]; intros i0 Hi0.
  - left. split; [reflexivity | by intros []].
  - cbn [rfind_from]. cbn zeta.
    destruct (IH (i0 + 1)) as [[E N] | (k & E & G & N)]; [lia | |].
    + rewrite E. replace (0 <=? -1) with false by reflexivity.
      destruct (String.prefix (String c EmptyString) (String a s)) eqn:P.
      * right. exists 0%nat. apply prefix_single in P.
        split; [lia |]. split; [done |]. intros [|j] Hj; [lia | apply N].
      * apply prefix_single_false in P. left. split; [done |].
        intros [|j]; [done | apply N].
    + rewrite E. replace (0 <=? i0 + 1 + Z.of_nat k) with true
        by (symmetry; apply Z.leb_le; lia).
      right. exists (S k). split; [lia |]. split; [done |].
      intros [|j] Hj; [lia | apply N; lia].
Qed.

(** The test [json_start >= 0 and json_end > json_start] of the extraction
    holds exactly when an opening brace stands before a closing brace. *)
Lemma extraction_test_brace_before (response : string) :
  (0 <=? str_find "{" response)
  && (str_find "{" response <? str_rfind "}" response + 1) = true
  <-> brace_before response.
Proof.
  unfold str_find, str_rfind, brace_before.
  destruct (find_from_cases "{" response 0) as [[E N] | (k & E & G & N)];
    destruct (rfind_from_cases "}" response 0 ltac:(lia))
      as [[E' N'] | (k' & E' & G' & N')];
    rewrite E, E'.
  - split; [discriminate |]. intros (i & j & _ & Gi & _). by destruct (N i).
  - split; [discriminate |]. intros (i & j & _ & Gi & _). by destruct (N i).
  - split.
    + intros T. apply andb_true_iff in T as [_ T]. apply Z.ltb_lt in T. lia.
    + intros (i & j & _ & _ & Gj). by destruct (N' j).
  - split.
    + intros T. apply andb_true_iff in T as [_ T]. apply Z.ltb_lt in T.
      exists k, k'. split; [| done].
      destruct (decide (k = k')) as [-> | Hne]; [| lia].
      rewrite G in G'. discriminate.
    + intros (i & j & Hij & Gi & Gj).
      apply andb_true_iff. split; [apply Z.leb_le; lia |]. apply Z.ltb_lt.
      assert (k <= i)%nat.
      { destruct (decide (k <= i)%nat); [done |].
        exfalso. apply (N i); [lia | done]. }
      assert (j <= k')%nat.
      { destruct (decide (j <= k')%nat); [done |].
        exfalso. apply (N' j); [lia | done]. }
      lia.
Qed.

(** ** The fallback classification *)

(** C1: an id that holds LGPL holds GPL, so the first test of the chain takes
    it: the fallback classifies it copyleft_strong, with the obligations and
    the static-linking restriction of the GPL branch, and the LGPL branch is
    never reached. *)
Theorem fallback_lgpl_takes_gpl_branch (license_id : string) :
  contains "LGPL" license_id = true ->
  let analysis := _get_fallback_analysis license_id in
  analysis !! "category" = Some (PyStr "copyleft_strong")
  /\ get_path analysis "conditions" "disclose_source" = Some (PyBool true)
  /\ get_path analysis "conditions" "same_license" = Some (PyBool true)
  /\ get_path analysis "compatibility" "static_linking_restrictions"
     = Some (PyStr "strong")
  /\ analysis !! "obligations"
     = Some (str_list ["Disclose source code"; "Include license text";
                       "State changes"; "Use same license for derivatives"]).
Proof.
  intros E. apply contains_tail in E.
  unfold _get_fallback_analysis. rewrite E.
  repeat split; vm_compute; reflexivity.
Qed.

Lemma fallback_lgpl_takes_gpl_branch_witness :
  contains "LGPL" "LGPL-2.1-only" = true
  /\ _get_fallback_analysis "LGPL-2.1-only" !! "category"
     = Some (PyStr "copyleft_strong").
Proof.
  split; [reflexivity |].
  apply (fallback_lgpl_takes_gpl_branch "LGPL-2.1-only"). reflexivity.
Defined.

(** The fallback on an id no test of the chain takes but the MIT one, and on
    a GPL id. *)
Example fallback_mit_fake :
  let analysis := _get_fallback_analysis "MIT-Fake" in
  analysis !! "category" = Some (PyStr "permissive")
  /\ get_path analysis "permissions" "patent_grant" = Some (PyBool false)
  /\ analysis !! "obligations"
     = Some (str_list ["Include license text"; "Include copyright notice"]).
Proof. repeat split; vm_compute; reflexivity. Qed.

Example fallback_gpl3 :
  let analysis := _get_fallback_analysis "GPL-3.0-only" in
  analysis !! "category" = Some (PyStr "copyleft_strong")
  /\ get_path analysis "conditions" "disclose_source" = Some (PyBool true)
  /\ get_path analysis "conditions" "same_license" = Some (PyBool true).
Proof. repeat split; vm_compute; reflexivity. Qed.

(** C7: without agent, [analyze_license] is the fallback analysis of the id,
    whatever the text. *)
Theorem analyze_license_without_agent_ignores_text `{PyRuntime}
    (self : LicenseAnalyzer) (license_id text1 text2 : string) :
  agent self = None ->
  analyze_license self license_id text1 = analyze_license self license_id text2
  /\ analyze_license self license_id text1
     = Return (_get_fallback_analysis license_id).
Proof.
  intros E. unfold analyze_license. rewrite E. done.
Qed.

Lemma analyze_license_without_agent_ignores_text_witness :
  agent Samples.no_backend = None
  /\ analyze_license Samples.no_backend "MIT-Fake" "" 
     = analyze_license Samples.no_backend "MIT-Fake" "Permission is hereby granted".
Proof.
  split; [reflexivity |].
  apply (analyze_license_without_agent_ignores_text
           Samples.no_backend "MIT-Fake" "" "Permission is hereby granted").
  reflexivity.
Defined.

(** ** The pairwise verdict *)

Lemma check_by_category (license1 license2 : pydict) :
  _check_license_compatibility license1 license2
  = let cat1 := category_of license1 in
    let cat2 := category_of license2 in
    if py_eq cat1 (PyStr "permissive") && py_eq cat2 (PyStr "permissive") then
      verdict "compatible" "compatible" "compatible"
    else if py_eq cat1 (PyStr "copyleft_strong") || py_eq cat2 (PyStr "copyleft_strong") then
      if py_eq cat1 cat2 then verdict "compatible" "compatible" "compatible"
      else verdict "incompatible" "review_required" "incompatible"
    else if py_eq cat1 (PyStr "copyleft_weak") || py_eq cat2 (PyStr "copyleft_weak") then
      verdict "review_required" "compatible" "compatible"
    else verdict "unknown" "unknown" "unknown".
Proof. reflexivity. Qed.

(** C2, as the code has it: two records of one category get the verdict of
    that category, which is compatible in all three dimensions for permissive
    and for copyleft_strong, review_required for static linking (compatible
    otherwise) for copyleft_weak, and unknown in all three for every other
    category. *)
Theorem same_category_verdict (license1 license2 : pydict) (category : string) :
  category_of license1 = PyStr category ->
  category_of license2 = PyStr category ->
  _check_license_compatibility license1 license2
  = if String.eqb category "permissive" || String.eqb category "copyleft_strong"
    then verdict "compatible" "compatible" "compatible"
    else if String.eqb category "copyleft_weak"
    then verdict "review_required" "compatible" "compatible"
    else verdict "unknown" "unknown" "unknown".
Proof.
  intros E1 E2. rewrite check_by_category. cbn zeta. rewrite E1, E2.
  cbn [py_eq]. rewrite String.eqb_refl, !orb_diag, andb_diag.
  destruct (String.eqb category "permissive") eqn:P; [done |].
  destruct (String.eqb category "copyleft_strong") eqn:S; done.
Qed.

Lemma same_category_verdict_witness :
  _check_license_compatibility Samples.gpl2 Samples.gpl3
  = verdict "compatible" "compatible" "compatible"
  /\ _check_license_compatibility Samples.lgpl Samples.mpl
     = verdict "review_required" "compatible" "compatible".
Proof.
  split.
  - apply (same_category_verdict Samples.gpl2 Samples.gpl3 "copyleft_strong");
      reflexivity.
  - apply (same_category_verdict Samples.lgpl Samples.mpl "copyleft_weak");
      reflexivity.
Defined.

(** C2 as stated fails: two public_domain records have one category, and
    their entry is unknown in all three dimensions. *)
Lemma same_category_not_always_compatible :
  category_of Samples.cc0 = category_of Samples.unlicense
  /\ _check_license_compatibility Samples.cc0 Samples.unlicense
     = verdict "unknown" "unknown" "unknown"
  /\ _check_license_compatibility Samples.cc0 Samples.unlicense !! "static_linking"
     <> Some (PyStr "compatible").
Proof.
  assert (C1 : category_of Samples.cc0 = PyStr "public_domain") by reflexivity.
  assert (C2 : category_of Samples.unlicense = PyStr "public_domain") by reflexivity.
  assert (V : _check_license_compatibility Samples.cc0 Samples.unlicense
              = verdict "unknown" "unknown" "unknown").
  { rewrite check_by_category. cbn zeta. rewrite C1, C2. reflexivity. }
  split; [by rewrite C1, C2 |]. split; [exact V |].
  rewrite V. vm_compute. discriminate.
Qed.

(** ** The fallback compatibility rules *)

(** C5, as the code has it: the fallback rules are one of four blocks, chosen
    by the category alone; the copyleft_strong and the copyleft_weak block
    name the license itself, so that two licenses of one category get the
    same rules when they have the same id or when their category is neither
    of those two. *)
Theorem default_rules_by_category (id1 id2 : string) (analysis1 analysis2 : pydict) :
  category_of analysis1 = category_of analysis2 ->
  let rules1 := _get_default_compatibility_rules id1 analysis1 in
  let rules2 := _get_default_compatibility_rules id2 analysis2 in
  (rules1 = permissive_rules \/ rules1 = copyleft_strong_rules id1
   \/ rules1 = copyleft_weak_rules id1 \/ rules1 = other_rules)
  /\ (id1 = id2 -> rules1 = rules2)
  /\ (category_of analysis1 <> PyStr "copyleft_strong" ->
      category_of analysis1 <> PyStr "copyleft_weak" -> rules1 = rules2).
Proof.
  intros E. unfold _get_default_compatibility_rules.
  fold (category_of analysis1). fold (category_of analysis2). rewrite <- E.
  destruct (py_eq (category_of analysis1) (PyStr "permissive")) eqn:P;
    [by auto 10 |].
  destruct (py_eq (category_of analysis1) (PyStr "copyleft_strong")) eqn:S.
  { apply py_eq_str in S. cbn zeta. repeat split; auto.
    - by intros ->.
    - intros NS _. by destruct NS. }
  destruct (py_eq (category_of analysis1) (PyStr "copyleft_weak")) eqn:W.
  { apply py_eq_str in W. cbn zeta. repeat split; auto.
    - by intros ->.
    - intros _ NW. by destruct NW. }
  cbn zeta. by auto 10.
Qed.

Lemma default_rules_by_category_witness :
  _get_default_compatibility_rules "CC0-1.0" Samples.cc0
  = _get_default_compatibility_rules "Unlicense" Samples.unlicense.
Proof.
  apply (default_rules_by_category "CC0-1.0" "Unlicense" Samples.cc0 Samples.unlicense).
  - reflexivity.
  - vm_compute. discriminate.
  - vm_compute. discriminate.
Defined.

(** C5 as stated fails: two copyleft_strong licenses get different rules,
    each block listing its own license id. *)
Lemma default_rules_depend_on_license_id :
  category_of Samples.gpl2 = category_of Samples.gpl3
  /\ _get_default_compatibility_rules "GPL-2.0-only" Samples.gpl2
     <> _get_default_compatibility_rules "GPL-3.0-only" Samples.gpl3.
Proof.
  split; [reflexivity |].
  intros E. apply (f_equal (fun rules => get_path rules "distribution" "can_distribute_with")) in E.
  vm_compute in E. discriminate.
Qed.

(** ** The classifier *)

Lemma fallback_category (license_id : string) :
  exists category,
    _get_fallback_analysis license_id !! "category" = Some (PyStr category)
    /\ (category = "permissive" \/ category = "copyleft_strong"
        \/ category = "public_domain").
Proof.
  unfold _get_fallback_analysis.
  destruct (contains "GPL" license_id) eqn:G.
  { eexists. split; [vm_compute; reflexivity | auto]. }
  destruct (contains "LGPL" license_id) eqn:L.
  { apply contains_tail in L. congruence. }
  repeat match goal with
         | |- context [if ?b then _ else _] => destruct b
         end;
    eexists; (split; [vm_compute; reflexivity | auto]).
Qed.

Lemma fallback_category_truthy (license_id : string) :
  truthy (get (_get_fallback_analysis license_id) "category") = true.
Proof.
  destruct (fallback_category license_id) as (c & E & Hc).
  unfold get, get_default. rewrite E.
  destruct Hc as [-> | [-> | ->]]; reflexivity.
Qed.

(** The text [analyze_license] hands to [json.loads]. *)
Lemma analyze_license_cases `{PyRuntime} (self : LicenseAnalyzer)
    (license_id license_text : string) :
  analyze_license self license_id license_text
  = Return (_get_fallback_analysis license_id)
  \/ exists the_agent response analysis,
       agent self = Some the_agent
       /\ query the_agent (analysis_prompt license_id license_text) = Return response
       /\ json_loads (slice response (str_find "{" response)
                            (str_rfind "}" response + 1)) = Return analysis
       /\ analyze_license self license_id license_text = Return analysis.
Proof.
  unfold analyze_license.
  destruct (agent self) as [the_agent|] eqn:A; [| by left].
  destruct (query the_agent _) as [response|e] eqn:Q; cbn; [| by left].
  destruct ((0 <=? _) && _); cbn; [| by left].
  destruct (json_loads _) as [analysis|e] eqn:J; cbn.
  - right. by exists the_agent, response, analysis.
  - left. by destruct e.
Qed.

Lemma analyze_license_returns `{PyRuntime} (self : LicenseAnalyzer)
    (license_id license_text : string) :
  returns (analyze_license self license_id license_text).
Proof.
  destruct (analyze_license_cases self license_id license_text)
    as [F | (the_agent & response & analysis & _ & _ & _ & R)].
  - rewrite F. by eexists.
  - rewrite R. by eexists.
Qed.

(** C3, as the code has it: a record that leaves the classifier is either the
    fallback analysis of the id, whose category is permissive, copyleft_strong
    or public_domain, or the object parsed from the reply of the backend, as
    it was parsed. *)
Theorem classifier_category `{PyRuntime} (self : LicenseAnalyzer)
    (license_id license_text : string) (analysis : pydict) :
  analyze_license self license_id license_text = Return analysis ->
  (analysis = _get_fallback_analysis license_id
   /\ truthy (get analysis "category") = true
   /\ exists category,
        analysis !! "category" = Some (PyStr category)
        /\ (category = "permissive" \/ category = "copyleft_strong"
            \/ category = "public_domain"))
  \/ (exists the_agent response,
        agent self = Some the_agent
        /\ query the_agent (analysis_prompt license_id license_text) = Return response
        /\ json_loads (slice response (str_find "{" response)
                             (str_rfind "}" response + 1)) = Return analysis).
Proof.
  intros E.
  destruct (analyze_license_cases self license_id license_text)
    as [F | (the_agent & response & parsed & A & Q & J & R)].
  - left. rewrite F in E. injection E as <-.
    split; [done |]. split; [apply fallback_category_truthy | apply fallback_category].
  - right. rewrite R in E. injection E as <-. eauto.
Qed.

Lemma classifier_category_witness :
  exists category,
    _get_fallback_analysis "Unlicense" !! "category" = Some (PyStr category).
Proof.
  assert (E : analyze_license Samples.unreachable_backend "Unlicense" ""
              = Return (_get_fallback_analysis "Unlicense")).
  { unfold analyze_license, Samples.unreachable_backend, Samples.with_agent.
    cbn [agent query bind try_except is_Exception]. reflexivity. }
  destruct (classifier_category Samples.unreachable_backend "Unlicense" ""
              (_get_fallback_analysis "Unlicense") E)
    as [(_ & _ & category & C & _) | (the_agent & response & A & Q & _)].
  - by exists category.
  - exfalso. injection A as <-. discriminate Q.
Defined.

(** C3 as stated fails on the backend path: the reply holds a JSON object
    without category, and that object is the record. *)
Lemma classifier_record_without_category :
  exists analysis,
    analyze_license Samples.no_category_backend "MIT" "" = Return analysis
    /\ analysis = dict_of [("license_id", PyStr "MIT")]
    /\ analysis !! "category" = None.
Proof.
  exists (dict_of [("license_id", PyStr "MIT")]).
  split; [| split; [reflexivity | by vm_compute]].
  vm_compute. reflexivity.
Qed.

(** C8: [analyze_license] returns for every analyzer, id and text, and what
    it returns is the fallback analysis of the id when there is no agent,
    when the query raises, when no opening brace of the reply stands before
    a closing brace, and when what stands between the first opening and the
    last closing brace does not parse. *)
Theorem analyze_license_degrades_to_fallback `{PyRuntime} (self : LicenseAnalyzer)
    (license_id license_text : string) :
  let result := analyze_license self license_id license_text in
  let prompt := analysis_prompt license_id license_text in
  let fallback := Return (_get_fallback_analysis license_id) in
  returns result
  /\ (agent self = None -> result = fallback)
  /\ (forall the_agent e,
        agent self = Some the_agent ->
        query the_agent prompt = Raise e -> result = fallback)
  /\ (forall the_agent response,
        agent self = Some the_agent ->
        query the_agent prompt = Return response ->
        ~ brace_before response -> result = fallback)
  /\ (forall the_agent response e,
        agent self = Some the_agent ->
        query the_agent prompt = Return response ->
        json_loads (slice response (str_find "{" response)
                          (str_rfind "}" response + 1)) = Raise e ->
        result = fallback).
Proof.
  cbn zeta. split; [| split; [| split; [| split]]].
  - apply analyze_license_returns.
  - intros A. unfold analyze_license. by rewrite A.
  - intros the_agent e A Q. unfold analyze_license. rewrite A, Q. reflexivity.
  - intros the_agent response A Q N. unfold analyze_license. rewrite A, Q. cbn.
    destruct ((0 <=? _) && _) eqn:T; [| reflexivity].
    apply extraction_test_brace_before in T. by destruct N.
  - intros the_agent response e A Q J. unfold analyze_license. rewrite A, Q. cbn.
    destruct ((0 <=? _) && _); [| reflexivity].
    rewrite J. by destruct e.
Qed.

Lemma no_brace_before (response : string) :
  (0 <=? str_find "{" response)
  && (str_find "{" response <? str_rfind "}" response + 1) = false ->
  ~ brace_before response.
Proof.
  intros T B. apply extraction_test_brace_before in B. congruence.
Qed.

Lemma analyze_license_degrades_to_fallback_witness :
  analyze_license Samples.no_backend "MIT-Fake" "text"
  = Return (_get_fallback_analysis "MIT-Fake")
  /\ analyze_license Samples.unreachable_backend "MIT-Fake" "text"
     = Return (_get_fallback_analysis "MIT-Fake")
  /\ analyze_license Samples.chatty_backend "MIT-Fake" "text"
     = Return (_get_fallback_analysis "MIT-Fake")
  /\ analyze_license Samples.closing_first_backend "MIT-Fake" "text"
     = Return (_get_fallback_analysis "MIT-Fake")
  /\ analyze_license Samples.broken_json_backend "MIT-Fake" "text"
     = Return (_get_fallback_analysis "MIT-Fake").
Proof.
  split; [| split; [| split; [| split]]].
  - apply (analyze_license_degrades_to_fallback Samples.no_backend "MIT-Fake" "text").
    reflexivity.
  - eapply (proj1 (proj2 (proj2 (analyze_license_degrades_to_fallback
              Samples.unreachable_backend "MIT-Fake" "text"))));
      reflexivity.
  - eapply (proj1 (proj2 (proj2 (proj2 (analyze_license_degrades_to_fallback
              Samples.chatty_backend "MIT-Fake" "text")))));
      [reflexivity | reflexivity | apply no_brace_before; by vm_compute].
  - eapply (proj1 (proj2 (proj2 (proj2 (analyze_license_degrades_to_fallback
              Samples.closing_first_backend "MIT-Fake" "text")))));
      [reflexivity | reflexivity | apply no_brace_before; by vm_compute].
  - eapply (proj2 (proj2 (proj2 (proj2 (analyze_license_degrades_to_fallback
              Samples.broken_json_backend "MIT-Fake" "text")))));
      [reflexivity | reflexivity | by vm_compute].
Defined.

(** ** The validator *)

Lemma validate_license_fields `{PyRuntime} (license_data : pydict)
    (report : validation_report) :
  let after := validate_license license_data report in
  let bump (key : string) := if missing key license_data then 1%nat else 0%nat in
  report_total_licenses after = report_total_licenses report
  /\ missing_category after = (missing_category report + bump "category")%nat
  /\ missing_permissions after = (missing_permissions report + bump "permissions")%nat
  /\ missing_obligations after = (missing_obligations report + bump "obligations")%nat
  /\ missing_compatibility after
     = (missing_compatibility report + bump "compatibility_rules")%nat
  /\ validation_errors after
     = (validation_errors report ++ messages_of license_data)%list
  /\ is_valid after = is_valid report.
Proof.
  unfold validate_license, messages_of, missing. cbn zeta.
  generalize (truthy (get license_data "category"))
             (truthy (get license_data "permissions"))
             (truthy (get license_data "obligations"))
             (truthy (get license_data "compatibility_rules")).
  generalize (py_str (get_default license_data "license_id" (PyStr "unknown"))
              +:+ ": Missing category").
  generalize (py_str (get_default license_data "license_id" (PyStr "unknown"))
              +:+ ": Missing permissions").
  intros message2 message1 [] [] [] [];
    lazy beta iota delta [report_total_licenses missing_category
      missing_permissions missing_obligations missing_compatibility
      validation_errors is_valid negb];
    rewrite <- ?app_assoc, ?app_nil_r; repeat split; try reflexivity; lia.
Qed.

Lemma count_missing_cons (key : string) (license_data : pydict)
    (licenses : list pydict) :
  count_missing key (license_data :: licenses)
  = ((if missing key license_data then 1 else 0) + count_missing key licenses)%nat.
Proof.
  unfold count_missing. rewrite filter_cons.
  destruct (missing key license_data); by case_decide.
Qed.

Lemma validate_loop `{PyRuntime} (licenses : list pydict) (report : validation_report) :
  let after := foldl (fun report license_data => validate_license license_data report)
                     report licenses in
  report_total_licenses after = report_total_licenses report
  /\ missing_category after
     = (missing_category report + count_missing "category" licenses)%nat
  /\ missing_permissions after
     = (missing_permissions report + count_missing "permissions" licenses)%nat
  /\ missing_obligations after
     = (missing_obligations report + count_missing "obligations" licenses)%nat
  /\ missing_compatibility after
     = (missing_compatibility report + count_missing "compatibility_rules" licenses)%nat
  /\ validation_errors after
     = (validation_errors report ++ concat (messages_of <$> licenses))%list.
Proof.
  revert report. induction licenses as [|license_data licenses IH]; intros report.
  - cbn. rewrite app_nil_r. unfold count_missing. cbn. repeat split; lia.
  - cbn [foldl]. cbn zeta.
    destruct (IH (validate_license license_data report))
      as (T & C & P & O & R & E).
    destruct (validate_license_fields license_data report)
      as (T' & C' & P' & O' & R' & E' & _).
    rewrite T, C, P, O, R, E, T', C', P', O', R', E', !count_missing_cons.
    rewrite fmap_cons, concat_cons, app_assoc. repeat split; lia.
Qed.

Lemma messages_of_length `{PyRuntime} (license_data : pydict) :
  length (messages_of license_data)
  = ((if missing "category" license_data then 1 else 0)
     + (if missing "permissions" license_data then 1 else 0))%nat.
Proof.
  unfold messages_of. cbn zeta. rewrite length_app.
  by destruct (missing "category" _), (missing "permissions" _).
Qed.

Lemma messages_length `{PyRuntime} (licenses : list pydict) :
  length (concat (messages_of <$> licenses))
  = (count_missing "category" licenses + count_missing "permissions" licenses)%nat.
Proof.
  induction licenses as [|license_data licenses IH]; [reflexivity |].
  rewrite fmap_cons, concat_cons, length_app, IH, messages_of_length,
    !count_missing_cons. lia.
Qed.

(** C4, as the code has it: the four counters count the records whose
    category, permissions, obligations and compatibility rules are missing;
    the error list gets one message per missing category and one per missing
    permissions, in the order of the records, and none for the two other
    kinds; [is_valid] tells whether the error list is empty.  A record that
    lacks only its category adds one to [missing_category] and one message. *)
Theorem validator_report `{PyRuntime} (licenses : list pydict) :
  let report := _validate_generated_data licenses in
  report_total_licenses report = length licenses
  /\ missing_category report = count_missing "category" licenses
  /\ missing_permissions report = count_missing "permissions" licenses
  /\ missing_obligations report = count_missing "obligations" licenses
  /\ missing_compatibility report = count_missing "compatibility_rules" licenses
  /\ validation_errors report = concat (messages_of <$> licenses)
  /\ length (validation_errors report)
     = (missing_category report + missing_permissions report)%nat
  /\ is_valid report = Some (bool_decide (validation_errors report = []))
  /\ forall license_data before,
       missing "category" license_data = true ->
       missing "permissions" license_data = false ->
       missing "obligations" license_data = false ->
       missing "compatibility_rules" license_data = false ->
       let after := validate_license license_data before in
       missing_category after = S (missing_category before)
       /\ missing_permissions after = missing_permissions before
       /\ missing_obligations after = missing_obligations before
       /\ missing_compatibility after = missing_compatibility before
       /\ length (validation_errors after) = S (length (validation_errors before)).
Proof.
  unfold _validate_generated_data. cbn zeta. cbn [report_total_licenses
    missing_category missing_permissions missing_obligations missing_compatibility
    validation_errors is_valid].
  match goal with
  | |- context [foldl ?f ?r0 licenses] =>
      destruct (validate_loop licenses r0) as (T & C & P & O & R & E)
  end.
  cbn zeta in *.
  rewrite T, C, P, O, R, E. cbn.
  repeat split; try done.
  - apply messages_length.
  - f_equal. by destruct (concat (messages_of <$> licenses)).
  - destruct (validate_license_fields license_data before)
      as (_ & C' & _). rewrite C', H0. lia.
  - destruct (validate_license_fields license_data before)
      as (_ & _ & P' & _). rewrite P', H1. lia.
  - destruct (validate_license_fields license_data before)
      as (_ & _ & _ & O' & _). rewrite O', H2. lia.
  - destruct (validate_license_fields license_data before)
      as (_ & _ & _ & _ & R' & _). rewrite R', H3. lia.
  - destruct (validate_license_fields license_data before)
      as (_ & _ & _ & _ & _ & E' & _).
    rewrite E', length_app, messages_of_length, H0, H1. lia.
Qed.

Lemma validator_report_witness :
  let after := validate_license Samples.uncategorized
                 (_validate_generated_data [Samples.mit]) in
  missing_category after = S (missing_category (_validate_generated_data [Samples.mit])).
Proof.
  apply (validator_report [Samples.mit]); by vm_compute.
Defined.

(** C4 as stated fails: a record without obligations and without
    compatibility rules is counted twice and adds no message; the report is
    valid. *)
Lemma validator_counts_without_message :
  let report := _validate_generated_data [Samples.bare_mit] in
  missing_obligations report = 1%nat
  /\ missing_compatibility report = 1%nat
  /\ validation_errors report = []
  /\ is_valid report = Some true.
Proof. by vm_compute. Qed.

(** ** Loops that fill a dict *)

Section Loops.
Context {A V : Type}.
Implicit Types (items : list A) (d : gmap pykey V).
Implicit Types (body : A -> gmap pykey V -> outcome (gmap pykey V)).
Implicit Types (entry : A -> option (pykey * V)).

(** A loop whose body, when it returns, has stored the entry of the item,
    returns the dict with the entries of the items stored in turn. *)
Lemma for_each_put_entries body entry items d result :
  (forall x d d', x ∈ items -> body x d = Return d' -> d' = put_entry entry d x) ->
  for_each items body d = Return result ->
  result = foldl (put_entry entry) d items.
Proof.
  revert d. induction items as [|x items IH]; intros d Hbody E; cbn in *.
  - by injection E.
  - destruct (body x d) as [d'|e] eqn:B; [| discriminate].
    rewrite (Hbody x d d') in E by (done || left).
    apply IH; [| done]. intros y ? ? Hy. apply Hbody. by right.
Qed.

Lemma for_each_returns body items d :
  (forall x d, x ∈ items -> returns (body x d)) ->
  returns (for_each items body d).
Proof.
  revert d. induction items as [|x items IH]; intros d Hbody; cbn.
  - by eexists.
  - destruct (Hbody x d) as [d' ->]; [left |].
    apply IH. intros y ? Hy. apply Hbody. by right.
Qed.

(** The entry under a key is that of the last item that gives the key. *)
Lemma put_entries_lookup entry items d k :
  foldl (put_entry entry) d items !! k
  = match find_last (gives_key entry k) items with
    | Some x => snd <$> entry x
    | None => d !! k
    end.
Proof.
  revert d. induction items as [|x items IH]; intros d; cbn [foldl find_last].
  - done.
  - rewrite IH. destruct (find_last (gives_key entry k) items); [done |].
    unfold put_entry, gives_key.
    destruct (entry x) as [[k' v]|] eqn:E; [| done].
    case_bool_decide as Hk.
    + subst. rewrite lookup_insert_eq, E. reflexivity.
    + rewrite lookup_insert_ne; done.
Qed.

Lemma find_last_Some (test : A -> bool) items x :
  find_last test items = Some x -> x ∈ items /\ test x = true.
Proof.
  induction items as [|y items IH]; cbn; [discriminate |].
  destruct (find_last test items) as [z|].
  - intros [= ->]. destruct IH as [? ?]; [done |]. split; [by right | done].
  - destruct (test y) eqn:T; [| discriminate].
    intros [= ->]. split; [left | done].
Qed.

Lemma find_last_None (test : A -> bool) items :
  find_last test items = None -> forall x, x ∈ items -> test x = false.
Proof.
  induction items as [|y items IH]; cbn; intros E x Hx.
  - by apply elem_of_nil in Hx.
  - destruct (find_last test items) as [z|]; [discriminate |].
    destruct (test y) eqn:T; [discriminate |].
    apply elem_of_cons in Hx as [-> | Hx]; [done | by apply IH].
Qed.

Lemma find_last_ext (test test' : A -> bool) items :
  (forall x, x ∈ items -> test x = test' x) ->
  find_last test items = find_last test' items.
Proof.
  induction items as [|y items IH]; cbn; intros E; [done |].
  rewrite IH by (intros; apply E; by right).
  rewrite (E y) by left. done.
Qed.

(** The keys of the dict are the keys the items give. *)
Lemma put_entries_dom entry items k :
  k ∈ dom (foldl (put_entry entry) ∅ items)
  <-> exists x, x ∈ items /\ gives_key entry k x = true.
Proof.
  rewrite elem_of_dom, put_entries_lookup.
  destruct (find_last (gives_key entry k) items) as [x|] eqn:F.
  - apply find_last_Some in F as [Hx T]. split; [by eauto |].
    intros _. unfold gives_key in T. destruct (entry x) as [[k' v]|]; [| done].
    by eexists.
  - rewrite lookup_empty. split; [by intros [? ?] |].
    intros (x & Hx & T). by rewrite (find_last_None _ _ F x Hx) in T.
Qed.
End Loops.

(** ** The compatibility matrix *)

Lemma license_key_Some (license_data : pydict) (key : pykey) :
  license_key license_data = Some key
  <-> truthy (get license_data "license_id") = true
      /\ as_key (get license_data "license_id") = Return key.
Proof.
  unfold license_key. cbn zeta.
  destruct (truthy _); [| by split; [| intros []]].
  destruct (as_key _); split; (intros [= ->] || intros [_ [= ->]]); done.
Qed.

Lemma license_key_None (license_data : pydict) :
  truthy (get license_data "license_id") = false ->
  license_key license_data = None.
Proof. unfold license_key. cbn zeta. by intros ->. Qed.

Lemma gives_key_filed {V} (value : pydict -> V) (key : pykey) (license_data : pydict) :
  gives_key (filed value) key license_data
  = bool_decide (license_key license_data = Some key).
Proof.
  unfold gives_key, filed. destruct (license_key license_data) as [k|]; cbn.
  - apply bool_decide_ext. split; [by intros -> | by intros [= ->]].
  - symmetry. by apply bool_decide_eq_false.
Qed.

Lemma check_symmetric (license1 license2 : pydict) :
  _check_license_compatibility license1 license2
  = _check_license_compatibility license2 license1.
Proof.
  rewrite !check_by_category. cbn zeta.
  generalize (category_of license1) (category_of license2). intros c1 c2.
  destruct (py_eq c1 (PyStr "copyleft_strong")) eqn:S1.
  { apply py_eq_str in S1 as ->. rewrite <- (py_eq_str_sym c2).
    change (py_eq (PyStr "copyleft_strong") (PyStr "permissive")) with false.
    rewrite andb_false_r, orb_true_r. reflexivity. }
  destruct (py_eq c2 (PyStr "copyleft_strong")) eqn:S2.
  { apply py_eq_str in S2 as ->.
    rewrite <- (py_eq_str_sym c1 "copyleft_strong"), S1.
    change (py_eq (PyStr "copyleft_strong") (PyStr "permissive")) with false.
    rewrite andb_false_r. reflexivity. }
  generalize (py_eq c1 (PyStr "permissive")) (py_eq c2 (PyStr "permissive"))
             (py_eq c1 (PyStr "copyleft_weak")) (py_eq c2 (PyStr "copyleft_weak")).
  intros [] [] [] []; reflexivity.
Qed.

Section Matrix.
Context `{PyRuntime}.

Lemma matrix_row_spec (license1 : pydict) (licenses : list pydict)
    (row : gmap pykey pydict) :
  matrix_row license1 licenses = Return row -> row = row_of license1 licenses.
Proof.
  apply for_each_put_entries. intros license2 d d' _.
  unfold put_entry, filed. cbv zeta.
  destruct (truthy (get license2 "license_id")) eqn:T; cbn [negb].
  - destruct (as_key (get license2 "license_id")) as [key|e] eqn:K;
      cbn; [| discriminate].
    intros [= <-]. rewrite (proj2 (license_key_Some license2 key)) by auto.
    reflexivity.
  - intros [= <-]. rewrite license_key_None by done. reflexivity.
Qed.

Lemma matrix_row_returns (license1 : pydict) (licenses : list pydict) :
  Forall hashable_id licenses -> returns (matrix_row license1 licenses).
Proof.
  intros Hall. apply for_each_returns. intros license2 d Hin.
  rewrite Forall_forall in Hall. specialize (Hall license2 Hin).
  unfold hashable_id in Hall. cbv zeta.
  destruct (truthy (get license2 "license_id")); cbn [negb];
    [| eexists; reflexivity].
  destruct Hall as [key ->]; [done |]. eexists; reflexivity.
Qed.

Lemma matrix_spec (licenses : list pydict) (m : matrix) :
  _generate_compatibility_matrix licenses = Return m ->
  compatibility m = table_of licenses
  /\ total_licenses m = length licenses.
Proof.
  unfold _generate_compatibility_matrix.
  destruct (for_each licenses _ ∅) as [table|e] eqn:E; cbn [bind];
    [| discriminate].
  intros [= <-]. cbn [compatibility total_licenses]. split; [| done].
  revert E. apply for_each_put_entries. intros license1 d d' _.
  unfold put_entry, filed. cbv zeta.
  destruct (truthy (get license1 "license_id")) eqn:T; cbn [negb].
  - destruct (as_key (get license1 "license_id")) as [key|e] eqn:K;
      cbn [bind]; [| discriminate].
    destruct (matrix_row license1 licenses) as [row|e] eqn:R;
      cbn [bind]; [| discriminate].
    intros [= <-]. rewrite (proj2 (license_key_Some license1 key)) by auto.
    apply matrix_row_spec in R as ->. reflexivity.
  - intros [= <-]. rewrite license_key_None by done. reflexivity.
Qed.

Lemma matrix_returns (licenses : list pydict) :
  Forall hashable_id licenses ->
  returns (_generate_compatibility_matrix licenses).
Proof.
  intros Hall. unfold _generate_compatibility_matrix.
  match goal with
  | |- context [for_each licenses ?body ∅] =>
      destruct (for_each_returns body licenses ∅) as [table ->]
  end.
  - intros license1 d Hin.
    pose proof (proj1 (Forall_forall _ _) Hall license1 Hin) as Hid.
    unfold hashable_id in Hid. cbv zeta.
    destruct (truthy (get license1 "license_id")); cbn [negb];
      [| eexists; reflexivity].
    destruct Hid as [key ->]; [done |]. cbn [bind].
    destruct (matrix_row_returns license1 licenses Hall) as [row ->].
    eexists; reflexivity.
  - eexists; reflexivity.
Qed.

(** The entry of the table for two keys that are there: the verdict on the
    last record filed under the one and the last filed under the other. *)
Lemma table_lookup (licenses : list pydict) (key1 : pykey) :
  table_of licenses !! key1
  = (fun license1 => row_of license1 licenses)
      <$> find_last (fun l => bool_decide (license_key l = Some key1)) licenses.
Proof.
  unfold table_of. rewrite put_entries_lookup.
  rewrite (find_last_ext _ (fun l => bool_decide (license_key l = Some key1)))
    by (intros; apply gives_key_filed).
  destruct (find_last _ licenses) as [license1|] eqn:F; [| done].
  apply find_last_Some in F as [_ K]. apply bool_decide_eq_true in K.
  unfold filed. rewrite K. reflexivity.
Qed.

Lemma row_lookup (license1 : pydict) (licenses : list pydict) (key2 : pykey) :
  row_of license1 licenses !! key2
  = _check_license_compatibility license1
      <$> find_last (fun l => bool_decide (license_key l = Some key2)) licenses.
Proof.
  unfold row_of. rewrite put_entries_lookup.
  rewrite (find_last_ext _ (fun l => bool_decide (license_key l = Some key2)))
    by (intros; apply gives_key_filed).
  destruct (find_last _ licenses) as [license2|] eqn:F; [| done].
  apply find_last_Some in F as [_ K]. apply bool_decide_eq_true in K.
  unfold filed. rewrite K. reflexivity.
Qed.

Lemma table_dom (licenses : list pydict) (key : pykey) :
  key ∈ dom (table_of licenses)
  <-> exists license_data,
        license_data ∈ licenses /\ license_key license_data = Some key.
Proof.
  unfold table_of. rewrite put_entries_dom.
  split; intros (l & Hin & K); exists l; (split; [done |]).
  - rewrite gives_key_filed in K. by apply bool_decide_eq_true in K.
  - rewrite gives_key_filed. by apply bool_decide_eq_true.
Qed.
End Matrix.

(** C6: the verdict on two records is the verdict on them the other way
    round, and it is read off their two categories alone; in the matrix that
    was built, the entries for (A, B) and for (B, A) are there for any two
    keys A and B of the table, and they are the same dict, so the same in
    all three dimensions. *)
Theorem matrix_symmetric `{PyRuntime} (licenses : list pydict) (m : matrix)
    (A B : pykey) :
  _generate_compatibility_matrix licenses = Return m ->
  A ∈ dom (compatibility m) ->
  B ∈ dom (compatibility m) ->
  (exists (rowA rowB : gmap pykey pydict) (entry : pydict),
     compatibility m !! A = Some rowA
     /\ compatibility m !! B = Some rowB
     /\ rowA !! B = Some entry
     /\ rowB !! A = Some entry)
  /\ (forall license1 license2,
        _check_license_compatibility license1 license2
        = _check_license_compatibility license2 license1)
  /\ (forall license1 license2 license1' license2',
        category_of license1 = category_of license1' ->
        category_of license2 = category_of license2' ->
        _check_license_compatibility license1 license2
        = _check_license_compatibility license1' license2').
Proof.
  intros E HA HB. split; [| split; [apply check_symmetric |]].
  - apply matrix_spec in E as [T _]. rewrite T in *.
    apply elem_of_dom in HA as [rowA EA]. apply elem_of_dom in HB as [rowB EB].
    pose proof EA as EA'. pose proof EB as EB'.
    rewrite table_lookup in EA', EB'.
    destruct (find_last _ licenses) as [license1|] eqn:FA in EA'; [| done].
    destruct (find_last _ licenses) as [license2|] eqn:FB in EB'; [| done].
    cbn in EA', EB'. injection EA' as <-. injection EB' as <-.
    exists (row_of license1 licenses), (row_of license2 licenses),
      (_check_license_compatibility license1 license2).
    split; [done |]. split; [done |].
    rewrite !row_lookup, FA, FB. cbn. by rewrite (check_symmetric license2).
  - intros l1 l2 l1' l2' E1 E2. rewrite !check_by_category. cbn zeta.
    by rewrite E1, E2.
Qed.

Lemma samples_hashable :
  Forall hashable_id [Samples.gpl2; Samples.mit; Samples.anonymous].
Proof.
  repeat constructor; intros _.
  - by exists (KStr "GPL-2.0-only").
  - by exists (KStr "MIT").
  - by exists KNone.
Qed.

Lemma matrix_symmetric_witness :
  exists (m : matrix) (rowA rowB : gmap pykey pydict) (entry : pydict),
    _generate_compatibility_matrix [Samples.gpl2; Samples.mit; Samples.anonymous]
    = Return m
    /\ compatibility m !! KStr "GPL-2.0-only" = Some rowA
    /\ compatibility m !! KStr "MIT" = Some rowB
    /\ rowA !! KStr "MIT" = Some entry
    /\ rowB !! KStr "GPL-2.0-only" = Some entry.
Proof.
  destruct (matrix_returns _ samples_hashable) as [m E].
  assert (D : forall license_data key,
             license_data ∈ [Samples.gpl2; Samples.mit; Samples.anonymous] ->
             license_key license_data = Some key ->
             key ∈ dom (compatibility m)).
  { intros l k Hin K. rewrite (proj1 (matrix_spec _ _ E)).
    apply table_dom. by exists l. }
  destruct (matrix_symmetric _ m (KStr "GPL-2.0-only") (KStr "MIT") E)
    as [(rowA & rowB & entry & ?) _].
  - apply (D Samples.gpl2); [apply elem_of_cons; by left | reflexivity].
  - apply (D Samples.mit);
      [apply elem_of_cons; right; apply elem_of_cons; by left | reflexivity].
  - by exists m, rowA, rowB, entry.
Defined.

(** ** The per-license datasets *)

Lemma attr_get_returned (v : pyval) (k : string) (default result : pyval) :
  attr_get v k default = Return result ->
  is_dict v /\ result = dict_get v k default.
Proof.
  destruct v; cbn; try discriminate. intros [= <-]. split; [by eexists | done].
Qed.

Lemma attr_get_dict (v : pyval) (k : string) (default : pyval) :
  is_dict v -> attr_get v k default = Return (dict_get v k default).
Proof. by intros [d ->]. Qed.

Section Datasets.
Context `{PyRuntime}.

Lemma obligation_spec (licenses : list pydict) (o : obligation_db) :
  _generate_obligation_database licenses = Return o ->
  obligation_licenses o = foldl (put_entry (filed obligation_entry)) ∅ licenses.
Proof.
  unfold _generate_obligation_database.
  destruct (for_each licenses _ ∅) as [entries|e] eqn:E; cbn [bind];
    [| discriminate].
  intros [= <-]. cbn [obligation_licenses].
  revert E. apply for_each_put_entries. intros license_data d d' _.
  unfold put_entry, filed, obligation_entry. cbv zeta.
  destruct (truthy (get license_data "license_id")) eqn:T; cbn [negb].
  - destruct (attr_get _ "include_copyright" _) as [a|e] eqn:A1;
      cbn [bind]; [| discriminate].
    destruct (attr_get _ "disclose_source" _) as [b|e] eqn:A2;
      cbn [bind]; [| discriminate].
    destruct (attr_get _ "include_notice" _) as [c|e] eqn:A3;
      cbn [bind]; [| discriminate].
    destruct (as_key (get license_data "license_id")) as [key|e] eqn:K;
      cbn [bind]; [| discriminate].
    apply attr_get_returned in A1 as [_ ->].
    apply attr_get_returned in A2 as [_ ->].
    apply attr_get_returned in A3 as [_ ->].
    intros [= <-]. rewrite (proj2 (license_key_Some license_data key)) by auto.
    reflexivity.
  - intros [= <-]. rewrite license_key_None by done. reflexivity.
Qed.

Lemma obligation_returns (licenses : list pydict) :
  Forall well_formed licenses ->
  returns (_generate_obligation_database licenses).
Proof.
  intros Hall. unfold _generate_obligation_database.
  match goal with
  | |- context [for_each licenses ?body ∅] =>
      destruct (for_each_returns body licenses ∅) as [entries ->]
  end.
  - intros license_data d Hin.
    destruct (proj1 (Forall_forall _ _) Hall license_data Hin) as (Hid & Hc & _).
    unfold hashable_id in Hid. cbv zeta.
    destruct (truthy (get license_data "license_id")); cbn [negb];
      [| eexists; reflexivity].
    rewrite !(attr_get_dict _ _ _ Hc). cbn [bind].
    destruct Hid as [key ->]; [done |]. eexists; reflexivity.
  - eexists; reflexivity.
Qed.

Lemma master_spec (licenses : list pydict) (m : matrix) (o : obligation_db)
    (db : master_db) :
  _generate_master_database licenses m o = Return db ->
  master_licenses db = foldl (put_entry (filed (master_entry o))) ∅ licenses
  /\ master_total_licenses db = length licenses.
Proof.
  unfold _generate_master_database.
  destruct (for_each licenses _ ∅) as [entries|e] eqn:E; cbn [bind];
    [| discriminate].
  intros [= <-]. cbn [master_licenses master_total_licenses]. split; [| done].
  revert E. apply for_each_put_entries. intros license_data d d' _.
  unfold put_entry, filed, master_entry. cbv zeta.
  destruct (truthy (get license_data "license_id")) eqn:T; cbn [negb].
  - destruct (as_key (get license_data "license_id")) as [key|e] eqn:K;
      cbn [bind]; [| discriminate].
    destruct (attr_get _ "isOsiApproved" _) as [a|e] eqn:A1;
      cbn [bind]; [| discriminate].
    destruct (attr_get _ "isFsfLibre" _) as [b|e] eqn:A2;
      cbn [bind]; [| discriminate].
    destruct (attr_get _ "isDeprecatedLicenseId" _) as [c|e] eqn:A3;
      cbn [bind]; [| discriminate].
    apply attr_get_returned in A1 as [_ ->].
    apply attr_get_returned in A2 as [_ ->].
    apply attr_get_returned in A3 as [_ ->].
    intros [= <-]. rewrite (proj2 (license_key_Some license_data key)) by auto.
    reflexivity.
  - intros [= <-]. rewrite license_key_None by done. reflexivity.
Qed.

Lemma master_returns (licenses : list pydict) (m : matrix) (o : obligation_db) :
  Forall well_formed licenses ->
  returns (_generate_master_database licenses m o).
Proof.
  intros Hall. unfold _generate_master_database.
  match goal with
  | |- context [for_each licenses ?body ∅] =>
      destruct (for_each_returns body licenses ∅) as [entries ->]
  end.
  - intros license_data d Hin.
    destruct (proj1 (Forall_forall _ _) Hall license_data Hin) as (Hid & _ & Hs).
    unfold hashable_id in Hid. cbv zeta.
    destruct (truthy (get license_data "license_id")); cbn [negb];
      [| eexists; reflexivity].
    destruct Hid as [key ->]; [done |]. cbn [bind].
    rewrite !(attr_get_dict _ _ _ Hs). eexists; reflexivity.
  - eexists; reflexivity.
Qed.

Lemma filed_dom {V} (value : pydict -> V) (licenses : list pydict) (key : pykey) :
  key ∈ dom (foldl (put_entry (filed value)) ∅ licenses)
  <-> exists license_data,
        license_data ∈ licenses
        /\ truthy (get license_data "license_id") = true
        /\ as_key (get license_data "license_id") = Return key.
Proof.
  rewrite put_entries_dom.
  split; intros (l & Hin & K); exists l; (split; [done |]).
  - rewrite gives_key_filed in K. apply bool_decide_eq_true in K.
    by apply license_key_Some.
  - rewrite gives_key_filed. apply bool_decide_eq_true.
    by apply license_key_Some.
Qed.
End Datasets.

(** C10: the matrix and the master database record the length of the whole
    input list; the table of the matrix, the licenses of the obligation
    database and the licenses of the master database have an entry exactly
    under the keys of the records whose [license_id] is truthy; the three
    generators return on well-formed records; and the recorded total can
    exceed the number of entries. *)
Theorem per_license_entries `{PyRuntime} :
  (forall licenses : list pydict,
     let has_entry (key : pykey) :=
       exists license_data,
         license_data ∈ licenses
         /\ truthy (get license_data "license_id") = true
         /\ as_key (get license_data "license_id") = Return key in
     (forall m,
        _generate_compatibility_matrix licenses = Return m ->
        total_licenses m = length licenses
        /\ forall key, key ∈ dom (compatibility m) <-> has_entry key)
     /\ (forall o,
           _generate_obligation_database licenses = Return o ->
           forall key, key ∈ dom (obligation_licenses o) <-> has_entry key)
     /\ (forall m o db,
           _generate_master_database licenses m o = Return db ->
           master_total_licenses db = length licenses
           /\ forall key, key ∈ dom (master_licenses db) <-> has_entry key)
     /\ (Forall well_formed licenses ->
         exists m o db,
           _generate_compatibility_matrix licenses = Return m
           /\ _generate_obligation_database licenses = Return o
           /\ _generate_master_database licenses m o = Return db))
  /\ (exists (licenses : list pydict) (m : matrix),
        _generate_compatibility_matrix licenses = Return m
        /\ (size (compatibility m) < total_licenses m)%nat).
Proof.
  split.
  - intros licenses has_entry. subst has_entry. cbv beta.
    split; [| split; [| split]].
    + intros m E. apply matrix_spec in E as [T L]. split; [done |].
      intros key. rewrite T. apply filed_dom.
    + intros o E. apply obligation_spec in E. intros key. rewrite E.
      apply filed_dom.
    + intros m o db E. apply master_spec in E as [T L]. split; [done |].
      intros key. rewrite T. apply filed_dom.
    + intros Hall.
      destruct (matrix_returns licenses) as [m Em].
      { eapply Forall_impl; [exact Hall |]. by intros l [? _]. }
      destruct (obligation_returns licenses Hall) as [o Eo].
      destruct (master_returns licenses m o Hall) as [db Ed].
      by exists m, o, db.
  - exists [Samples.mit; Samples.anonymous].
    destruct (matrix_returns [Samples.mit; Samples.anonymous]) as [m E].
    { repeat constructor; intros _; [by exists (KStr "MIT") | by exists KNone]. }
    exists m. split; [done |].
    apply matrix_spec in E as [-> ->]. vm_compute. lia.
Qed.

Lemma samples_well_formed :
  Forall well_formed [Samples.gpl2; Samples.mit; Samples.anonymous].
Proof.
  apply Forall_cons. split; [| apply Forall_cons; split; [| apply Forall_cons; split]].
  - split; [intros _; by exists (KStr "GPL-2.0-only") | split; by eexists].
  - split; [intros _; by exists (KStr "MIT") | split; by eexists].
  - split; [intros _; by exists KNone | split; by eexists].
  - constructor.
Qed.

Lemma per_license_entries_witness :
  exists m o db,
    _generate_compatibility_matrix [Samples.gpl2; Samples.mit; Samples.anonymous]
    = Return m
    /\ _generate_obligation_database [Samples.gpl2; Samples.mit; Samples.anonymous]
       = Return o
    /\ _generate_master_database [Samples.gpl2; Samples.mit; Samples.anonymous] m o
       = Return db
    /\ total_licenses m = 3%nat
    /\ KStr "MIT" ∈ dom (master_licenses db).
Proof.
  destruct (proj1 per_license_entries
              [Samples.gpl2; Samples.mit; Samples.anonymous])
    as (M & _ & D & R).
  destruct (R samples_well_formed) as (m & o & db & Em & Eo & Ed).
  exists m, o, db.
  split; [exact Em |]. split; [exact Eo |]. split; [exact Ed |].
  split; [apply (M m Em) |].
  apply (D m o db Ed). exists Samples.mit.
  split; [apply elem_of_cons; right; apply elem_of_cons; by left |].
  split; reflexivity.
Defined.

(** ** The batch *)

Section Batch.
Context `{PyRuntime}.

Lemma extract_compatibility_rules_returns (self : LicenseAnalyzer)
    (license_id : string) (analysis : pydict) :
  returns (extract_compatibility_rules self license_id analysis).
Proof.
  unfold extract_compatibility_rules.
  destruct (agent self) as [the_agent|]; [| eexists; reflexivity].
  destruct (query the_agent _) as [response|e]; cbn [bind try_except];
    [| eexists; reflexivity].
  destruct ((0 <=? _) && _); cbn [bind try_except]; [| eexists; reflexivity].
  destruct (json_loads _) as [rules|e]; eexists; reflexivity.
Qed.

Lemma extract_compatibility_rules_raised (self : LicenseAnalyzer)
    (license_id : string) (analysis : pydict) (the_agent : Agent) (e : exn) :
  agent self = Some the_agent ->
  query the_agent (rules_prompt license_id analysis) = Raise e ->
  extract_compatibility_rules self license_id analysis
  = Return (_get_default_compatibility_rules license_id analysis).
Proof.
  intros A Q. unfold extract_compatibility_rules. rewrite A, Q. reflexivity.
Qed.

Lemma analyze_item_returns (self : LicenseAnalyzer) (license_data : license_item) :
  returns (analyze_item self license_data).
Proof.
  unfold analyze_item. cbv zeta.
  destruct (analyze_license_returns self (item_id license_data)
              (default "" (item_text license_data))) as [analysis ->].
  cbn [bind].
  destruct (extract_compatibility_rules_returns self (item_id license_data) analysis)
    as [rules ->].
  eexists; reflexivity.
Qed.

Lemma filter_insert_count (p : task -> bool) (ts : list task) (i : nat)
    (x y : task) :
  ts !! i = Some y ->
  (length (filter (fun t => p t = true) (<[i:=x]> ts)) + (if p y then 1 else 0)
   = length (filter (fun t => p t = true) ts) + (if p x then 1 else 0))%nat.
Proof.
  revert i. induction ts as [|t ts IH]; intros [|i] E; try discriminate.
  - injection E as ->. change (<[0%nat:=x]> (y :: ts)) with (x :: ts).
    rewrite !filter_cons.
    destruct (p x) eqn:X, (p y) eqn:Y; repeat case_decide;
      cbn [length]; congruence || lia.
  - change (<[S i:=x]> (t :: ts)) with (t :: <[i:=x]> ts).
    rewrite !filter_cons. specialize (IH i E).
    case_decide; cbn [length]; lia.
Qed.

Lemma filter_count_pos (p : task -> bool) (ts : list task) :
  (0 < length (filter (fun t => p t = true) ts))%nat ->
  exists i t, ts !! i = Some t /\ p t = true.
Proof.
  induction ts as [|t ts IH]; [cbn; lia |].
  rewrite filter_cons. case_decide as P.
  - intros _. by exists 0%nat, t.
  - intros L. destruct (IH L) as (i & t' & E & P'). by exists (S i), t'.
Qed.

Lemma gather_None (ts : list task) :
  gather ts = None ->
  exists i t, ts !! i = Some t /\ (t = Waiting \/ t = Running).
Proof.
  induction ts as [|t ts IH]; cbn; [discriminate |].
  destruct t as [| |[r|e]];
    try (intros _; exists 0%nat; eexists; split; [reflexivity | auto]; fail).
  - destruct (gather ts) as [[rs|e]|]; try discriminate.
    intros _. destruct IH as (i & t & E & Ht); [done |]. by exists (S i), t.
  - discriminate.
Qed.

Lemma gather_results (self : LicenseAnalyzer) (licenses : list license_item)
    (ts : list task) (out : outcome (list pydict)) :
  Forall2 (task_of self) licenses ts ->
  gather ts = Some out ->
  exists results,
    out = Return results
    /\ Forall2 (fun license_data r => analyze_item self license_data = Return r)
               licenses results.
Proof.
  intros F. revert out.
  induction F as [|license_data t licenses ts Ht F IH]; intros out; cbn.
  - intros [= <-]. exists []. split; [done | constructor].
  - destruct (analyze_item_returns self license_data) as [r R].
    destruct Ht as [-> | [-> | ->]].
    + destruct (gather ts) as [[rs|e]|] eqn:G; try discriminate.
      destruct (IH _ eq_refl) as (? & [=] & _).
    + destruct (gather ts) as [[rs|e]|] eqn:G; try discriminate.
      destruct (IH _ eq_refl) as (? & [=] & _).
    + rewrite R. destruct (gather ts) as [[rs|e]|] eqn:G; try discriminate.
      * intros [= <-]. destruct (IH _ eq_refl) as (rs' & [= <-] & F').
        exists (r :: rs). split; [done | by constructor].
      * destruct (IH _ eq_refl) as (? & [=] & _).
Qed.
End Batch.

Section BatchRuns.
Context `{PyRuntime}.
Variables (self : LicenseAnalyzer) (licenses : list license_item).

Lemma batch_start_invariant (max_concurrent : Z) :
  0 <= max_concurrent ->
  exists start,
    batch_start licenses max_concurrent = Return start
    /\ batch_invariant self licenses (Z.to_nat max_concurrent) start.
Proof.
  intros K. unfold batch_start.
  replace (max_concurrent <? 0) with false by (symmetry; apply Z.ltb_ge; lia).
  eexists. split; [reflexivity |]. split; cbn [tasks semaphore].
  - apply Forall2_fmap_r, Forall_Forall2_diag, Forall_forall.
    intros license_data _. by left.
  - unfold in_flight. cbn [tasks].
    assert (filter (fun t => is_running t = true)
                   ((fun _ : license_item => Waiting) <$> licenses) = []) as ->;
      [| cbn; lia].
    induction licenses as [|l ls IH]; [done |].
    rewrite fmap_cons, filter_cons. by case_decide.
Qed.

Lemma batch_step_invariant (limit : nat) (st st' : batch_state) :
  batch_invariant self licenses limit st ->
  batch_step self licenses st st' ->
  batch_invariant self licenses limit st'
  /\ (steps_left st' < steps_left st)%nat.
Proof.
  intros [F S] Hstep. unfold batch_invariant, steps_left, in_flight in *.
  destruct Hstep as [i st E Free | i license_data st E L]; cbn [tasks semaphore].
  - pose proof (filter_insert_count is_running (tasks st) i Running Waiting E) as R.
    pose proof (filter_insert_count is_waiting (tasks st) i Running Waiting E) as W.
    cbn [is_running is_waiting] in R, W.
    split; [split |]; [| lia | lia].
    destruct (Forall2_lookup_r _ _ _ _ _ F E) as (license_data & L & _).
    rewrite <- (list_insert_id licenses i license_data L).
    apply Forall2_insert; [done |]. right. by left.
  - pose proof (filter_insert_count is_running (tasks st) i
                  (Done (analyze_item self license_data)) Running E) as R.
    pose proof (filter_insert_count is_waiting (tasks st) i
                  (Done (analyze_item self license_data)) Running E) as W.
    cbn [is_running is_waiting] in R, W.
    split; [split |]; [| lia | lia].
    rewrite <- (list_insert_id licenses i license_data L).
    apply Forall2_insert; [done |]. right. by right.
Qed.

Lemma batch_reachable_invariant (limit : nat) (start st : batch_state) :
  batch_invariant self licenses limit start ->
  rtc (batch_step self licenses) start st ->
  batch_invariant self licenses limit st.
Proof.
  intros I R. induction R as [|st0 st1 st2 S _ IH]; [done |].
  apply IH. by apply (batch_step_invariant limit st0 st1).
Qed.

(** While the results are awaited and the semaphore was made with a slot,
    some task can move. *)
Lemma batch_progress (limit : nat) (st : batch_state) :
  (0 < limit)%nat ->
  batch_invariant self licenses limit st ->
  gather (tasks st) = None ->
  exists st', batch_step self licenses st st'.
Proof.
  intros K [F S] G.
  assert (Hrun : forall i, tasks st !! i = Some Running ->
                           exists st', batch_step self licenses st st').
  { intros i E. destruct (Forall2_lookup_r _ _ _ _ _ F E) as (l & L & _).
    eexists. by eapply step_release. }
  destruct (gather_None _ G) as (i & t & E & [-> | ->]); [| by eapply Hrun].
  destruct (decide (0 < semaphore st)%nat) as [Free|Full].
  - eexists. by eapply step_acquire.
  - destruct (filter_count_pos is_running (tasks st)) as (j & t & E' & R).
    { unfold in_flight in S. lia. }
    destruct t; try discriminate. by eapply Hrun.
Qed.

(** Every state of a batch with a slot reaches one where the results are
    there. *)
Lemma batch_terminates (limit : nat) (st : batch_state) :
  (0 < limit)%nat ->
  batch_invariant self licenses limit st ->
  exists final results,
    rtc (batch_step self licenses) st final
    /\ gather (tasks final) = Some (Return results).
Proof.
  intros K. remember (steps_left st) as n eqn:N.
  revert st N. induction (lt_wf n) as [n _ IH]. intros st -> I.
  destruct (gather (tasks st)) as [out|] eqn:G.
  - destruct (gather_results self licenses _ out (proj1 I) G) as (rs & -> & _).
    by exists st, rs.
  - destruct (batch_progress limit st K I G) as [st' S].
    destruct (batch_step_invariant limit st st' I S) as [I' D].
    destruct (IH _ D st' eq_refl I') as (final & rs & R & G').
    exists final, rs. split; [| done]. by eapply rtc_l.
Qed.
End BatchRuns.




(** * Further properties *)

(** ** The fallback rule table *)

Lemma contains_tail_false (c : ascii) (sub s : string) :
  contains sub s = false -> contains (String c sub) s = false.
Proof.
  intros E. destruct (contains (String c sub) s) eqn:C; [| done].
  apply contains_tail in C. congruence.
Qed.

(** An id that holds AGPL holds GPL: the fallback takes the GPL branch for
    it, and the AGPL branch, the only one that sets
    [network_use_disclosure], is never reached. *)
Theorem fallback_agpl_takes_gpl_branch (license_id : string) :
  contains "AGPL" license_id = true ->
  let analysis := _get_fallback_analysis license_id in
  analysis !! "category" = Some (PyStr "copyleft_strong")
  /\ get_path analysis "conditions" "network_use_disclosure" = Some (PyBool false)
  /\ get_path analysis "conditions" "same_license" = Some (PyBool true)
  /\ get_path analysis "compatibility" "can_combine_with_permissive"
     = Some (PyBool false)
  /\ analysis !! "obligations"
     = Some (str_list ["Disclose source code"; "Include license text";
                       "State changes"; "Use same license for derivatives"]).
Proof.
  intros E. apply contains_tail in E.
  unfold _get_fallback_analysis. rewrite E.
  repeat split; vm_compute; reflexivity.
Qed.

Lemma fallback_agpl_takes_gpl_branch_witness :
  get_path (_get_fallback_analysis "AGPL-3.0-only") "conditions"
           "network_use_disclosure" = Some (PyBool false).
Proof.
  apply (fallback_agpl_takes_gpl_branch "AGPL-3.0-only"). reflexivity.
Defined.

Lemma fallback_table (license_id : string) :
  let analysis := _get_fallback_analysis license_id in
  let gpl := contains "GPL" license_id in
  let apache := contains "Apache" license_id in
  let mit := contains "MIT" license_id || contains "BSD" license_id
             || contains "ISC" license_id in
  let public := contains "CC0" license_id || contains "Unlicense" license_id in
  let public_branch := negb gpl && negb apache && negb mit && public in
  analysis !! "license_id" = Some (PyStr license_id)
  /\ analysis !! "category"
     = Some (PyStr (if gpl then "copyleft_strong"
                    else if public_branch then "public_domain"
                    else "permissive"))
  /\ analysis !! "obligations"
     = Some (if gpl then
               str_list ["Disclose source code"; "Include license text";
                         "State changes"; "Use same license for derivatives"]
             else if public_branch then PyList []
             else str_list ["Include license text"; "Include copyright notice"])
  /\ get_path analysis "permissions" "patent_grant"
     = Some (PyBool (negb gpl && apache)).
Proof.
  cbv zeta. unfold _get_fallback_analysis.
  destruct (contains "GPL" license_id) eqn:G.
  { repeat split; vm_compute; reflexivity. }
  rewrite (contains_tail_false "L" "GPL" license_id G),
    (contains_tail_false "A" "GPL" license_id G).
  destruct (contains "Apache" license_id).
  { repeat split; vm_compute; reflexivity. }
  destruct (contains "MIT" license_id || contains "BSD" license_id
            || contains "ISC" license_id).
  { repeat split; vm_compute; reflexivity. }
  destruct (contains "CC0" license_id || contains "Unlicense" license_id);
    repeat split; vm_compute; reflexivity.
Qed.

(** The fallback as a table: the category, the obligations, the patent grant
    and the two inclusion conditions of the record are read off the id by
    four tests, GPL first, then Apache, then MIT, BSD or ISC, then CC0 or
    Unlicense; the record always carries the id it was made for and the one
    key requirement. *)
Theorem fallback_rule_table (license_id : string) :
  let analysis := _get_fallback_analysis license_id in
  let gpl := contains "GPL" license_id in
  let apache := contains "Apache" license_id in
  let mit := contains "MIT" license_id || contains "BSD" license_id
             || contains "ISC" license_id in
  let public := contains "CC0" license_id || contains "Unlicense" license_id in
  let public_branch := negb gpl && negb apache && negb mit && public in
  analysis !! "license_id" = Some (PyStr license_id)
  /\ analysis !! "category"
     = Some (PyStr (if gpl then "copyleft_strong"
                    else if public_branch then "public_domain"
                    else "permissive"))
  /\ analysis !! "obligations"
     = Some (if gpl then
               str_list ["Disclose source code"; "Include license text";
                         "State changes"; "Use same license for derivatives"]
             else if public_branch then PyList []
             else str_list ["Include license text"; "Include copyright notice"])
  /\ get_path analysis "permissions" "patent_grant"
     = Some (PyBool (negb gpl && apache))
  /\ get_path analysis "conditions" "include_license"
     = Some (PyBool (negb public_branch))
  /\ get_path analysis "conditions" "disclose_source" = Some (PyBool gpl)
  /\ analysis !! "key_requirements" = Some (str_list ["Attribution required"]).
Proof.
  cbv zeta. unfold _get_fallback_analysis.
  destruct (contains "GPL" license_id) eqn:G.
  { repeat split; vm_compute; reflexivity. }
  rewrite (contains_tail_false "L" "GPL" license_id G),
    (contains_tail_false "A" "GPL" license_id G).
  destruct (contains "Apache" license_id).
  { repeat split; vm_compute; reflexivity. }
  destruct (contains "MIT" license_id || contains "BSD" license_id
            || contains "ISC" license_id).
  { repeat split; vm_compute; reflexivity. }
  destruct (contains "CC0" license_id || contains "Unlicense" license_id);
    repeat split; vm_compute; reflexivity.
Qed.

(** ** The rule deriver *)

Lemma default_rules_of_category (license_id : string) (analysis : pydict)
    (category : string) :
  analysis !! "category" = Some (PyStr category) ->
  _get_default_compatibility_rules license_id analysis
  = if String.eqb category "permissive" then permissive_rules
    else if String.eqb category "copyleft_strong" then copyleft_strong_rules license_id
    else if String.eqb category "copyleft_weak" then copyleft_weak_rules license_id
    else other_rules.
Proof.
  intros E. unfold _get_default_compatibility_rules, get_default. rewrite E.
  reflexivity.
Qed.

(** Classifier and deriver without backend: the rules derived from the
    fallback analysis of an id are the copyleft_strong block of that id when
    the id holds GPL, the block of the other categories when the fallback
    made it public_domain, and the permissive block otherwise; they are never
    the copyleft_weak block. *)
Theorem fallback_rules_never_weak (license_id : string) :
  let rules :=
    _get_default_compatibility_rules license_id (_get_fallback_analysis license_id) in
  rules
  = (if contains "GPL" license_id then copyleft_strong_rules license_id
     else if negb (contains "Apache" license_id)
             && negb (contains "MIT" license_id || contains "BSD" license_id
                      || contains "ISC" license_id)
             && (contains "CC0" license_id || contains "Unlicense" license_id)
     then other_rules
     else permissive_rules)
  /\ rules !! "contamination_effect" <> Some (PyStr "module").
Proof.
  cbv zeta.
  destruct (fallback_table license_id) as (_ & C & _). cbv zeta in C.
  rewrite (default_rules_of_category _ _ _ C).
  destruct (contains "GPL" license_id); [split; [reflexivity | by vm_compute] |].
  cbn [negb andb].
  destruct (contains "Apache" license_id); cbn [negb andb];
    [split; [reflexivity | by vm_compute] |].
  destruct (contains "MIT" license_id || contains "BSD" license_id
            || contains "ISC" license_id); cbn [negb andb];
    [split; [reflexivity | by vm_compute] |].
  destruct (contains "CC0" license_id || contains "Unlicense" license_id);
    split; (reflexivity || by vm_compute).
Qed.

Lemma default_rules_effect (license_id : string) (analysis : pydict) :
  _get_default_compatibility_rules license_id analysis !! "contamination_effect"
  = Some (PyStr (if py_eq (category_of analysis) (PyStr "copyleft_strong") then "full"
                 else if py_eq (category_of analysis) (PyStr "copyleft_weak")
                 then "module" else "none")).
Proof.
  unfold _get_default_compatibility_rules. fold (category_of analysis).
  destruct (py_eq (category_of analysis) (PyStr "permissive")) eqn:P.
  { apply py_eq_str in P as ->. by vm_compute. }
  destruct (py_eq (category_of analysis) (PyStr "copyleft_strong"));
    [by vm_compute |].
  destruct (py_eq (category_of analysis) (PyStr "copyleft_weak")); by vm_compute.
Qed.

(** The contamination effect of the fallback rules: full for the category
    copyleft_strong, module for copyleft_weak, none for every other category
    and for a record without category, which counts as permissive. *)
Theorem default_rules_contamination (license_id : string) (analysis : pydict) :
  _get_default_compatibility_rules license_id analysis !! "contamination_effect"
  = Some (PyStr (if py_eq (category_of analysis) (PyStr "copyleft_strong") then "full"
                 else if py_eq (category_of analysis) (PyStr "copyleft_weak")
                 then "module" else "none"))
  /\ (analysis !! "category" = None ->
      _get_default_compatibility_rules license_id analysis = permissive_rules).
Proof.
  split; [apply default_rules_effect |].
  intros E. unfold _get_default_compatibility_rules, get_default. rewrite E.
  reflexivity.
Qed.

Lemma default_rules_contamination_witness :
  _get_default_compatibility_rules "Zed" Samples.uncategorized = permissive_rules.
Proof.
  apply (default_rules_contamination "Zed" Samples.uncategorized). by vm_compute.
Defined.

(** [extract_compatibility_rules] returns for every analyzer, id and
    analysis, and what it returns is the fallback rules when there is no
    agent, when the query raises, when no opening brace of the reply stands
    before a closing brace, and when what stands between the braces does not
    parse, whatever the exception. *)
Theorem extract_rules_degrades_to_default `{PyRuntime} (self : LicenseAnalyzer)
    (license_id : string) (analysis : pydict) :
  let result := extract_compatibility_rules self license_id analysis in
  let prompt := rules_prompt license_id analysis in
  let fallback := Return (_get_default_compatibility_rules license_id analysis) in
  returns result
  /\ (agent self = None -> result = fallback)
  /\ (forall the_agent e,
        agent self = Some the_agent ->
        query the_agent prompt = Raise e -> result = fallback)
  /\ (forall the_agent response,
        agent self = Some the_agent ->
        query the_agent prompt = Return response ->
        ~ brace_before response -> result = fallback)
  /\ (forall the_agent response e,
        agent self = Some the_agent ->
        query the_agent prompt = Return response ->
        json_loads (slice response (str_find "{" response)
                          (str_rfind "}" response + 1)) = Raise e ->
        result = fallback)
  /\ (forall the_agent response rules,
        agent self = Some the_agent ->
        query the_agent prompt = Return response ->
        brace_before response ->
        json_loads (slice response (str_find "{" response)
                          (str_rfind "}" response + 1)) = Return rules ->
        result = Return rules).
Proof.
  cbv zeta. split; [apply extract_compatibility_rules_returns |].
  unfold extract_compatibility_rules.
  split; [by intros -> |]. split; [by intros a e -> -> |].
  split; [| split].
  - intros a response -> -> N. cbn [bind try_except].
    destruct ((0 <=? _) && _) eqn:T; [| reflexivity].
    apply extraction_test_brace_before in T. by destruct N.
  - intros a response e -> -> J. cbn [bind try_except].
    destruct ((0 <=? _) && _); [| reflexivity]. by rewrite J.
  - intros a response rules -> -> B J. cbn [bind try_except].
    apply extraction_test_brace_before in B. rewrite B, J. reflexivity.
Qed.

Lemma extract_rules_degrades_to_default_witness :
  extract_compatibility_rules Samples.unreachable_backend "MIT" Samples.mit
  = Return (_get_default_compatibility_rules "MIT" Samples.mit)
  /\ extract_compatibility_rules Samples.broken_json_backend "MIT" Samples.mit
     = Return (_get_default_compatibility_rules "MIT" Samples.mit).
Proof.
  split.
  - eapply (proj1 (proj2 (proj2 (extract_rules_degrades_to_default
              Samples.unreachable_backend "MIT" Samples.mit))));
      reflexivity.
  - eapply (proj1 (proj2 (proj2 (proj2 (proj2 (extract_rules_degrades_to_default
              Samples.broken_json_backend "MIT" Samples.mit))))));
      [reflexivity | reflexivity | by vm_compute].
Defined.

(** ** The batch, as a whole *)

Lemma map_outcome_Forall2 {A B} (f : A -> outcome B) (items : list A)
    (results : list B) :
  map_outcome f items = Return results
  <-> Forall2 (fun x y => f x = Return y) items results.
Proof.
  revert results. induction items as [|x items IH]; intros results; cbn.
  - split; [intros [= <-]; constructor | intros F; by inversion F].
  - destruct (f x) as [y|e] eqn:E.
    + destruct (map_outcome f items) as [ys|e] eqn:M.
      * split.
        -- intros [= <-]. constructor; [done | by apply IH].
        -- intros F. inversion F as [|? y' ? ys' Hy Hys]; subst.
           apply IH in Hys. congruence.
      * split; [discriminate |]. intros F.
        inversion F as [|? y' ? ys' Hy Hys]; subst. apply IH in Hys. discriminate.
    + split; [discriminate |]. intros F.
      inversion F as [|? y' ? ys' Hy Hys]; subst. congruence.
Qed.



Lemma truthy_dict (d : pydict) (k : string) (v : pyval) :
  d !! k = Some v -> truthy (PyDict d) = true.
Proof.
  intros E. cbn. apply negb_true_iff, bool_decide_eq_false.
  intros ->. by rewrite lookup_empty in E.
Qed.

Lemma get_path_truthy (d : pydict) (k1 k2 : string) (v : pyval) :
  get_path d k1 k2 = Some v -> truthy (get d k1) = true.
Proof.
  unfold get_path, get, get_default.
  destruct (d !! k1) as [[| | | | |c]|]; try discriminate.
  apply truthy_dict.
Qed.

Lemma default_rules_truthy (license_id : string) (analysis : pydict) :
  truthy (PyDict (_get_default_compatibility_rules license_id analysis)) = true.
Proof.
  apply (truthy_dict _ "contamination_effect"
           (PyStr (if py_eq (category_of analysis) (PyStr "copyleft_strong") then "full"
                   else if py_eq (category_of analysis) (PyStr "copyleft_weak")
                   then "module" else "none"))).
  apply default_rules_effect.
Qed.

Lemma analyze_item_without_agent `{PyRuntime} (self : LicenseAnalyzer)
    (license_data : license_item) :
  agent self = None ->
  analyze_item self license_data = Return (fallback_result (item_id license_data)).
Proof.
  intros A. unfold analyze_item, analyze_license, extract_compatibility_rules.
  rewrite A. reflexivity.
Qed.

Lemma fallback_result_get (license_id key : string) :
  key <> "compatibility_rules" ->
  get (fallback_result license_id) key = get (_get_fallback_analysis license_id) key.
Proof.
  intros N. unfold fallback_result, get, get_default. cbv zeta.
  by rewrite lookup_insert_ne.
Qed.

Lemma fallback_result_missing (license_id : string) :
  missing "category" (fallback_result license_id) = false
  /\ missing "permissions" (fallback_result license_id) = false
  /\ missing "compatibility_rules" (fallback_result license_id) = false
  /\ missing "obligations" (fallback_result license_id) = public_domain_id license_id.
Proof.
  unfold missing.
  destruct (fallback_table license_id) as (_ & _ & O & P).
  cbv zeta in O, P.
  rewrite (fallback_result_get license_id "category"),
    (fallback_result_get license_id "permissions"),
    (fallback_result_get license_id "obligations") by done.
  split; [by rewrite fallback_category_truthy |].
  split; [by rewrite (get_path_truthy _ _ _ _ P) |].
  split.
  - unfold fallback_result, get, get_default. cbv zeta.
    rewrite lookup_insert_eq. by rewrite default_rules_truthy.
  - unfold get, get_default. rewrite O. unfold public_domain_id.
    destruct (contains "GPL" license_id); [reflexivity |].
    cbn [negb andb].
    by destruct (negb (contains "Apache" license_id)
                 && negb (contains "MIT" license_id || contains "BSD" license_id
                          || contains "ISC" license_id)
                 && (contains "CC0" license_id || contains "Unlicense" license_id)).
Qed.

Lemma validate_report_spec `{PyRuntime} (licenses : list pydict) :
  let report := _validate_generated_data licenses in
  report_total_licenses report = length licenses
  /\ missing_category report = count_missing "category" licenses
  /\ missing_permissions report = count_missing "permissions" licenses
  /\ missing_obligations report = count_missing "obligations" licenses
  /\ missing_compatibility report = count_missing "compatibility_rules" licenses
  /\ validation_errors report = concat (messages_of <$> licenses)
  /\ is_valid report
     = Some (bool_decide (concat (messages_of <$> licenses) = [])).
Proof.
  unfold _validate_generated_data. cbn zeta. cbn [report_total_licenses
    missing_category missing_permissions missing_obligations missing_compatibility
    validation_errors is_valid].
  match goal with
  | |- context [foldl ?f ?r0 licenses] =>
      destruct (validate_loop licenses r0) as (T & C & P & O & R & E)
  end.
  cbn zeta in *. rewrite T, C, P, O, R, E. cbn.
  repeat split; try done.
  f_equal. by destruct (concat (messages_of <$> licenses)).
Qed.

Lemma fallback_results_counts `{PyRuntime} (licenses : list license_item) :
  let results := (fun l => fallback_result (item_id l)) <$> licenses in
  count_missing "category" results = 0%nat
  /\ count_missing "permissions" results = 0%nat
  /\ count_missing "compatibility_rules" results = 0%nat
  /\ count_missing "obligations" results
     = length (filter (fun l => public_domain_id (item_id l) = true) licenses)
  /\ concat (messages_of <$> results) = [].
Proof.
  cbv zeta. induction licenses as [|l ls IH]; [done |].
  destruct IH as (IC & IP & IR & IO & IE).
  destruct (fallback_result_missing (item_id l)) as (MC & MP & MR & MO).
  rewrite !fmap_cons, !count_missing_cons, concat_cons, filter_cons.
  rewrite MC, MP, MR, MO, IC, IP, IR, IO, IE.
  unfold messages_of. cbv zeta. rewrite MC, MP.
  repeat split; try done.
  destruct (public_domain_id (item_id l)); by case_decide.
Qed.

(** Without agent, the body of the batch gives every item its fallback
    result, and the validator finds nothing to report on the results of a
    batch: no record lacks its category, its permissions or its compatibility
    rules, the error list is empty and the report is valid; the records
    counted as missing their obligations are those the fallback classified
    public_domain, whose obligations are the empty list. *)
Theorem batch_without_agent_validates `{PyRuntime} (self : LicenseAnalyzer)
    (licenses : list license_item) :
  agent self = None ->
  let results := (fun license_data => fallback_result (item_id license_data))
                   <$> licenses in
  map_outcome (analyze_item self) licenses = Return results
  /\ let report := _validate_generated_data results in
     report_total_licenses report = length licenses
     /\ missing_category report = 0%nat
     /\ missing_permissions report = 0%nat
     /\ missing_compatibility report = 0%nat
     /\ missing_obligations report
        = length (filter (fun license_data =>
                            public_domain_id (item_id license_data) = true) licenses)
     /\ validation_errors report = []
     /\ is_valid report = Some true.
Proof.
  intros A. cbv zeta. split.
  - apply map_outcome_Forall2, Forall2_fmap_r, Forall_Forall2_diag, Forall_forall.
    intros license_data _. by apply analyze_item_without_agent.
  - destruct (validate_report_spec
                ((fun license_data => fallback_result (item_id license_data))
                   <$> licenses))
      as (T & C & P & O & R & E & V).
    rewrite T, C, P, O, R, V, E.
    destruct (fallback_results_counts licenses) as (-> & -> & -> & -> & ->).
    rewrite length_fmap. done.
Qed.

Lemma batch_without_agent_validates_witness :
  is_valid (_validate_generated_data
              ((fun license_data => fallback_result (item_id license_data))
                 <$> Samples.ten_items)) = Some true.
Proof.
  destruct (batch_without_agent_validates Samples.no_backend Samples.ten_items
              eq_refl) as (_ & _ & _ & _ & _ & _ & _ & V).
  exact V.
Defined.

(** ** The datasets, entry by entry *)

Lemma for_each_returned_bodies {A S} (body : A -> S -> outcome S)
    (items : list A) (s : S) (x : A) :
  returns (for_each items body s) ->
  x ∈ items -> exists s0 s1, body x s0 = Return s1.
Proof.
  revert s. induction items as [|y items IH]; intros s R Hx; cbn in *.
  - by apply elem_of_nil in Hx.
  - destruct (body y s) as [s'|e] eqn:B; [| by destruct R].
    apply elem_of_cons in Hx as [-> | Hx]; [by eauto |]. by eapply IH.
Qed.

Lemma for_each_raised {A S} (body : A -> S -> outcome S) (items : list A) (s : S)
    (e : exn) :
  for_each items body s = Raise e ->
  exists x s0, x ∈ items /\ body x s0 = Raise e.
Proof.
  revert s. induction items as [|y items IH]; intros s; cbn; [discriminate |].
  destruct (body y s) as [s'|e'] eqn:B.
  - intros R. destruct (IH _ R) as (x & s0 & Hx & Bx).
    exists x, s0. split; [by right | done].
  - intros [= ->]. exists y, s. split; [left | done].
Qed.

Section Entries.
Context `{PyRuntime}.

Lemma matrix_row_raised (license1 : pydict) (licenses : list pydict) (e : exn) :
  matrix_row license1 licenses = Raise e -> e = TypeError.
Proof.
  intros R. apply for_each_raised in R as (license2 & row & _ & B).
  cbv zeta in B.
  destruct (truthy (get license2 "license_id")); cbn [negb] in B; [| discriminate].
  destruct (get license2 "license_id"); cbn [as_key bind] in B; congruence.
Qed.

(** The matrix is built exactly when every truthy [license_id] is hashable;
    on any other list the generator raises [TypeError]. *)
Theorem matrix_returns_iff_hashable (licenses : list pydict) :
  (returns (_generate_compatibility_matrix licenses)
   <-> Forall hashable_id licenses)
  /\ (~ Forall hashable_id licenses ->
      _generate_compatibility_matrix licenses = Raise TypeError).
Proof.
  assert (Hret : returns (_generate_compatibility_matrix licenses)
                 -> Forall hashable_id licenses).
  { intros R. apply Forall_forall. intros license1 Hin.
    unfold _generate_compatibility_matrix in R.
    destruct (for_each licenses _ ∅) as [table|e] eqn:E; [| by destruct R].
    destruct (for_each_returned_bodies _ licenses ∅ license1
                ltac:(rewrite E; by eexists) Hin) as (d0 & d1 & B).
    cbv zeta in B. intros T. rewrite T in B. cbn [negb] in B.
    destruct (as_key (get license1 "license_id")) as [key|e]; [by eexists |].
    discriminate. }
  split; [split; [exact Hret | apply matrix_returns] |].
  intros N.
  destruct (_generate_compatibility_matrix licenses) as [m|e] eqn:G.
  { destruct N. apply Hret. by eexists. }
  f_equal. unfold _generate_compatibility_matrix in G.
  destruct (for_each licenses _ ∅) as [table|e'] eqn:E; [discriminate |].
  cbn [bind] in G. injection G as <-.
  apply for_each_raised in E as (license1 & d & _ & B). cbv zeta in B.
  destruct (truthy (get license1 "license_id")); cbn [negb] in B; [| discriminate].
  destruct (as_key (get license1 "license_id")) as [key|e''] eqn:K; cbn [bind] in B.
  - destruct (matrix_row license1 licenses) as [row|e''] eqn:R; [discriminate |].
    injection B as <-. by apply matrix_row_raised in R.
  - injection B as <-.
    destruct (get license1 "license_id"); cbn [as_key] in K; congruence.
Qed.

(** Every row of the matrix that was built has the keys of the table: the
    matrix is square.  An entry is the verdict on the last record of the list
    filed under its row key and the last filed under its column key, and it
    is one of the four verdicts of the rule table. *)
Theorem matrix_square_last_wins (licenses : list pydict) (m : matrix)
    (key1 : pykey) (row : gmap pykey pydict) :
  _generate_compatibility_matrix licenses = Return m ->
  compatibility m !! key1 = Some row ->
  dom row = dom (compatibility m)
  /\ forall key2 entry,
       row !! key2 = Some entry ->
       (exists license1 license2,
          find_last (fun l => bool_decide (license_key l = Some key1)) licenses
          = Some license1
          /\ find_last (fun l => bool_decide (license_key l = Some key2)) licenses
             = Some license2
          /\ entry = _check_license_compatibility license1 license2)
       /\ (entry = verdict "compatible" "compatible" "compatible"
           \/ entry = verdict "incompatible" "review_required" "incompatible"
           \/ entry = verdict "review_required" "compatible" "compatible"
           \/ entry = verdict "unknown" "unknown" "unknown").
Proof.
  intros E R. apply matrix_spec in E as [T _]. rewrite T in *.
  rewrite table_lookup in R.
  destruct (find_last (fun l => bool_decide (license_key l = Some key1)) licenses)
    as [license1|] eqn:F1; [| discriminate R].
  change (Some (row_of license1 licenses) = Some row) in R.
  injection R as <-. split.
  - apply set_eq. intros key. unfold row_of, table_of. by rewrite !filed_dom.
  - intros key2 entry L. rewrite row_lookup in L.
    destruct (find_last (fun l => bool_decide (license_key l = Some key2)) licenses)
      as [license2|] eqn:F2; [| discriminate L].
    change (Some (_check_license_compatibility license1 license2) = Some entry) in L.
    injection L as <-. split; [by exists license1, license2 |].
    rewrite check_by_category. cbv zeta.
    generalize (category_of license1) (category_of license2). intros c1 c2.
    destruct (py_eq c1 (PyStr "permissive") && py_eq c2 (PyStr "permissive"));
      [auto |].
    destruct (py_eq c1 (PyStr "copyleft_strong") || py_eq c2 (PyStr "copyleft_strong"));
      [destruct (py_eq c1 c2); auto |].
    destruct (py_eq c1 (PyStr "copyleft_weak") || py_eq c2 (PyStr "copyleft_weak"));
      auto.
Qed.
End Entries.

Lemma filed_lookup {V} (value : pydict -> V) (licenses : list pydict) (key : pykey) :
  foldl (put_entry (filed value)) ∅ licenses !! key
  = value <$> find_last (fun l => bool_decide (license_key l = Some key)) licenses.
Proof.
  rewrite put_entries_lookup.
  rewrite (find_last_ext _ (fun l => bool_decide (license_key l = Some key)))
    by (intros; apply gives_key_filed).
  destruct (find_last _ licenses) as [license_data|] eqn:F; [| done].
  apply find_last_Some in F as [_ K]. apply bool_decide_eq_true in K.
  unfold filed. rewrite K. reflexivity.
Qed.

Lemma matrix_square_last_wins_witness :
  exists m row,
    _generate_compatibility_matrix [Samples.gpl2; Samples.mit; Samples.anonymous]
    = Return m
    /\ compatibility m !! KStr "MIT" = Some row
    /\ dom row = dom (compatibility m).
Proof.
  destruct (matrix_returns _ samples_hashable) as [m E].
  assert (D : KStr "MIT" ∈ dom (compatibility m)).
  { rewrite (proj1 (matrix_spec _ _ E)). apply table_dom. exists Samples.mit.
    split; [apply elem_of_cons; right; apply elem_of_cons; by left | reflexivity]. }
  apply elem_of_dom in D as [row R].
  exists m, row. split; [exact E |]. split; [exact R |].
  apply (matrix_square_last_wins _ m (KStr "MIT") row E R).
Defined.

Section MoreEntries.
Context `{PyRuntime}.

(** An entry of the obligation database is made from the last record of the
    list filed under its key: it carries the obligations and the key
    requirements of the record (the empty list for a missing one), its
    conditions, and the three flags read from the conditions,
    [attribution_required] from [include_copyright],
    [source_disclosure_required] from [disclose_source] and [notice_required]
    from [include_notice], each [False] when the condition is not there. *)
Theorem obligation_entries (licenses : list pydict) (o : obligation_db)
    (key : pykey) (entry : pydict) :
  _generate_obligation_database licenses = Return o ->
  obligation_licenses o !! key = Some entry ->
  exists license_data conditions,
    find_last (fun l => bool_decide (license_key l = Some key)) licenses
    = Some license_data
    /\ get_default license_data "conditions" (PyDict ∅) = PyDict conditions
    /\ entry !! "obligations"
       = Some (get_default license_data "obligations" (PyList []))
    /\ entry !! "key_requirements"
       = Some (get_default license_data "key_requirements" (PyList []))
    /\ entry !! "conditions" = Some (PyDict conditions)
    /\ entry !! "attribution_required"
       = Some (get_default conditions "include_copyright" (PyBool false))
    /\ entry !! "source_disclosure_required"
       = Some (get_default conditions "disclose_source" (PyBool false))
    /\ entry !! "notice_required"
       = Some (get_default conditions "include_notice" (PyBool false)).
Proof.
  intros E L.
  assert (R : returns (_generate_obligation_database licenses)) by by eexists.
  rewrite (obligation_spec _ _ E), filed_lookup in L.
  destruct (find_last _ licenses) as [license_data|] eqn:F; [| discriminate L].
  change (Some (obligation_entry license_data) = Some entry) in L.
  injection L as <-.
  assert (C : is_dict (get_default license_data "conditions" (PyDict ∅))).
  { apply find_last_Some in F as [Hin K]. apply bool_decide_eq_true in K.
    apply license_key_Some in K as [T K].
    unfold _generate_obligation_database in R.
    destruct (for_each licenses _ ∅) as [entries|e] eqn:X; [| by destruct R].
    destruct (for_each_returned_bodies _ licenses ∅ license_data
                ltac:(rewrite X; by eexists) Hin) as (d0 & d1 & B).
    cbv zeta in B. rewrite T in B. cbn [negb] in B.
    destruct (attr_get _ "include_copyright" _) as [a|e] eqn:A1; [| discriminate].
    by apply attr_get_returned in A1 as [? _]. }
  destruct C as [conditions C]. exists license_data, conditions.
  split; [done |]. split; [done |].
  unfold obligation_entry. cbv zeta. rewrite C.
  repeat split; vm_compute; reflexivity.
Qed.

(** An entry of the master database is made from the last record filed under
    its key: [id] is the [license_id] of the record, [name] its name or, when
    it has none, its [license_id]; [category] is the category as the record
    has it, [None] when it has none; and, the obligation database having been
    made from the same list, [obligations] are those of its entry under the
    same key, the obligations of the record. *)
Theorem master_entries (licenses : list pydict) (m : matrix) (o : obligation_db)
    (db : master_db) (key : pykey) (entry : pydict) :
  _generate_obligation_database licenses = Return o ->
  _generate_master_database licenses m o = Return db ->
  master_licenses db !! key = Some entry ->
  exists license_data obligation_record,
    find_last (fun l => bool_decide (license_key l = Some key)) licenses
    = Some license_data
    /\ obligation_licenses o !! key = Some obligation_record
    /\ entry !! "id" = Some (get license_data "license_id")
    /\ entry !! "name"
       = Some (get_default license_data "name" (get license_data "license_id"))
    /\ entry !! "category" = Some (get license_data "category")
    /\ entry !! "obligations" = obligation_record !! "obligations"
    /\ entry !! "obligations"
       = Some (get_default license_data "obligations" (PyList [])).
Proof.
  intros Eo Ed L.
  rewrite (proj1 (master_spec _ _ _ _ Ed)), filed_lookup in L.
  destruct (find_last _ licenses) as [license_data|] eqn:F; [| discriminate L].
  change (Some (master_entry o license_data) = Some entry) in L.
  injection L as <-.
  pose proof F as F'. apply find_last_Some in F' as [_ K].
  apply bool_decide_eq_true in K.
  assert (O : obligation_licenses o !! key = Some (obligation_entry license_data)).
  { by rewrite (obligation_spec _ _ Eo), filed_lookup, F. }
  exists license_data, (obligation_entry license_data).
  split; [done |]. split; [done |].
  unfold master_entry. cbv zeta. rewrite K, O. unfold default.
  cbn [from_option id].
  assert (X : get_default (obligation_entry license_data) "obligations" (PyList [])
              = get_default license_data "obligations" (PyList [])).
  { unfold obligation_entry, get_default at 1. cbv zeta.
    generalize (get_default license_data "obligations" (PyList [])).
    generalize (get_default license_data "key_requirements" (PyList [])).
    generalize (get_default license_data "conditions" (PyDict ∅)).
    intros c k ob.
    generalize (dict_get c "include_copyright" (PyBool false))
               (dict_get c "disclose_source" (PyBool false))
               (dict_get c "include_notice" (PyBool false)).
    intros a b n. by vm_compute. }
  rewrite X.
  assert (Y : obligation_entry license_data !! "obligations"
              = Some (get_default license_data "obligations" (PyList []))).
  { unfold obligation_entry. cbv zeta. by vm_compute. }
  rewrite Y.
  repeat split; vm_compute; reflexivity.
Qed.
End MoreEntries.

Lemma samples_mit_filed {V} (value : pydict -> V) :
  KStr "MIT"
  ∈ dom (foldl (put_entry (filed value)) ∅
           [Samples.gpl2; Samples.mit; Samples.anonymous]).
Proof.
  apply filed_dom. exists Samples.mit.
  split; [apply elem_of_cons; right; apply elem_of_cons; by left |].
  split; reflexivity.
Qed.

Lemma obligation_entries_witness :
  exists o entry license_data conditions,
    _generate_obligation_database [Samples.gpl2; Samples.mit; Samples.anonymous]
    = Return o
    /\ obligation_licenses o !! KStr "MIT" = Some entry
    /\ find_last (fun l => bool_decide (license_key l = Some (KStr "MIT")))
                 [Samples.gpl2; Samples.mit; Samples.anonymous]
       = Some license_data
    /\ get_default license_data "conditions" (PyDict ∅) = PyDict conditions
    /\ entry !! "attribution_required"
       = Some (get_default conditions "include_copyright" (PyBool false)).
Proof.
  destruct (obligation_returns _ samples_well_formed) as [o E].
  pose proof (samples_mit_filed obligation_entry) as D.
  rewrite <- (obligation_spec _ _ E) in D. apply elem_of_dom in D as [entry L].
  destruct (obligation_entries _ o (KStr "MIT") entry E L)
    as (license_data & conditions & F & C & _ & _ & _ & A & _).
  exists o, entry, license_data, conditions.
  split; [exact E |]. split; [exact L |]. split; [exact F |].
  split; [exact C | exact A].
Defined.

Lemma master_entries_witness :
  exists o m db entry license_data,
    _generate_obligation_database [Samples.gpl2; Samples.mit; Samples.anonymous]
    = Return o
    /\ _generate_master_database [Samples.gpl2; Samples.mit; Samples.anonymous] m o
       = Return db
    /\ master_licenses db !! KStr "MIT" = Some entry
    /\ find_last (fun l => bool_decide (license_key l = Some (KStr "MIT")))
                 [Samples.gpl2; Samples.mit; Samples.anonymous]
       = Some license_data
    /\ entry !! "obligations"
       = Some (get_default license_data "obligations" (PyList [])).
Proof.
  destruct (obligation_returns _ samples_well_formed) as [o Eo].
  destruct (matrix_returns _ samples_hashable) as [m Em].
  destruct (master_returns _ m o samples_well_formed) as [db Ed].
  pose proof (samples_mit_filed (master_entry o)) as D.
  rewrite <- (proj1 (master_spec _ _ _ _ Ed)) in D.
  apply elem_of_dom in D as [entry L].
  destruct (master_entries _ m o db (KStr "MIT") entry Eo Ed L)
    as (license_data & record & F & _ & _ & _ & _ & _ & O).
  exists o, m, db, entry, license_data.
  split; [exact Eo |]. split; [exact Ed |]. split; [exact L |].
  split; [exact F | exact O].
Defined.

(** ** The policy files *)

Lemma attr_get_returns_iff (v : pyval) (k : string) (default : pyval) :
  returns (attr_get v k default) <-> is_dict v.
Proof.
  split.
  - intros [r R]. by apply attr_get_returned in R as [? _].
  - intros D. rewrite (attr_get_dict _ _ _ D). by eexists.
Qed.

(** The policy block of a dict of rules whose two linking blocks are dicts. *)
Lemma format_of_dicts (rules static dynamic : pydict) :
  get_default rules "static_linking" (PyDict ∅) = PyDict static ->
  get_default rules "dynamic_linking" (PyDict ∅) = PyDict dynamic ->
  _format_compatibility_for_policy (PyDict rules)
  = Return (dict_of [
      ("static_linking", PyDict (dict_of [
         ("compatible_with", get_default static "compatible_with" (PyList []));
         ("incompatible_with", get_default static "incompatible_with" (PyList []));
         ("requires_review", get_default static "requires_review" (PyList []))]));
      ("dynamic_linking", PyDict (dict_of [
         ("compatible_with", get_default dynamic "compatible_with" (PyList []));
         ("incompatible_with", get_default dynamic "incompatible_with" (PyList []));
         ("requires_review", get_default dynamic "requires_review" (PyList []))]));
      ("contamination_effect", get_default rules "contamination_effect" (PyStr "none"));
      ("notes", get_default rules "notes" (PyStr ""))]).
Proof.
  intros S D. unfold _format_compatibility_for_policy. cbv zeta.
  cbn [attr_get bind]. rewrite S, D. reflexivity.
Qed.

Lemma format_returned (rules : pyval) (policy : pydict) :
  _format_compatibility_for_policy rules = Return policy ->
  exists d static dynamic,
    rules = PyDict d
    /\ get_default d "static_linking" (PyDict ∅) = PyDict static
    /\ get_default d "dynamic_linking" (PyDict ∅) = PyDict dynamic.
Proof.
  unfold _format_compatibility_for_policy. cbv zeta. intros R.
  destruct rules as [| | | | |d]; cbn [attr_get bind] in R; try discriminate R.
  destruct (get_default d "static_linking" (PyDict ∅)) as [| | | | |static] eqn:S;
    cbn [attr_get bind] in R; try discriminate R.
  destruct (get_default d "dynamic_linking" (PyDict ∅)) as [| | | | |dynamic] eqn:D;
    cbn [attr_get bind] in R; try discriminate R.
  exists d, static, dynamic. auto.
Qed.

(** [_format_compatibility_for_policy] returns exactly on a dict whose
    [static_linking] and [dynamic_linking], when there, are dicts, and raises
    [AttributeError] on anything else.  What it returns has the four keys
    [static_linking], [dynamic_linking], [contamination_effect] and [notes]
    and no other: the distribution rules do not reach the policy.  A rule
    that is missing gets its default, and formatting what was formatted
    changes nothing. *)
Theorem format_compatibility_policy (rules : pyval) :
  (returns (_format_compatibility_for_policy rules)
   <-> exists d,
         rules = PyDict d
         /\ is_dict (get_default d "static_linking" (PyDict ∅))
         /\ is_dict (get_default d "dynamic_linking" (PyDict ∅)))
  /\ (forall e, _format_compatibility_for_policy rules = Raise e -> e = AttributeError)
  /\ (forall policy,
        _format_compatibility_for_policy rules = Return policy ->
        (forall key, is_Some (policy !! key)
                     <-> key ∈ ["static_linking"; "dynamic_linking";
                                "contamination_effect"; "notes"])
        /\ policy !! "distribution" = None
        /\ _format_compatibility_for_policy (PyDict policy) = Return policy).
Proof.
  split; [split |].
  - intros [policy R]. apply format_returned in R as (d & s & y & -> & S & D).
    exists d. rewrite S, D. split; [done |]. split; by eexists.
  - intros (d & -> & [s S] & [y D]). rewrite (format_of_dicts d s y S D).
    by eexists.
  - split.
    + unfold _format_compatibility_for_policy. cbv zeta. intros e.
      destruct rules as [| | | | |d]; cbn [attr_get bind]; try congruence.
      destruct (get_default d "static_linking" (PyDict ∅)) as [| | | | |s];
        cbn [attr_get bind]; try congruence.
      destruct (get_default d "dynamic_linking" (PyDict ∅)) as [| | | | |y];
        cbn [attr_get bind]; congruence.
    + intros policy R. pose proof R as R'.
      apply format_returned in R' as (d & s & y & -> & S & D).
      rewrite (format_of_dicts d s y S D) in R. injection R as <-.
      generalize (get_default s "compatible_with" (PyList []))
                 (get_default s "incompatible_with" (PyList []))
                 (get_default s "requires_review" (PyList []))
                 (get_default y "compatible_with" (PyList []))
                 (get_default y "incompatible_with" (PyList []))
                 (get_default y "requires_review" (PyList []))
                 (get_default d "contamination_effect" (PyStr "none"))
                 (get_default d "notes" (PyStr "")).
      intros s1 s2 s3 y1 y2 y3 c n.
      split; [| split].
      * intros key. rewrite <- elem_of_dom. unfold dict_of at 1.
        cbn [foldl fst snd].
        rewrite !dom_insert_L, dom_empty_L, !elem_of_union, !elem_of_singleton,
          elem_of_empty, !elem_of_cons, elem_of_nil.
        tauto.
      * by vm_compute.
      * erewrite format_of_dicts; [| by vm_compute | by vm_compute].
        repeat f_equal; by vm_compute.
Qed.

(** A loop that appends what it makes of the items it keeps. *)
Lemma for_each_append {A B} (keep : A -> bool) (f : A -> outcome B)
    (body : A -> list B -> outcome (list B)) (items : list A) (acc result : list B) :
  (forall x acc,
     body x acc = if negb (keep x) then Return acc
                  else match f x with
                       | Return v => Return (acc ++ [v])%list
                       | Raise e => Raise e
                       end) ->
  for_each items body acc = Return result ->
  exists made,
    result = (acc ++ made)%list
    /\ Forall2 (fun x v => f x = Return v)
               (filter (fun x => keep x = true) items) made.
Proof.
  intros Hbody. revert acc.
  induction items as [|x items IH]; intros acc; cbn [for_each].
  - intros [= <-]. exists []. rewrite app_nil_r. split; [done | constructor].
  - rewrite Hbody, filter_cons. destruct (keep x) eqn:K; cbn [negb].
    + destruct (f x) as [v|e] eqn:F; [| discriminate].
      intros R. destruct (IH _ R) as (made & -> & F2).
      exists (v :: made). rewrite <- app_assoc. split; [done |].
      rewrite decide_True by done. by constructor.
    + intros R. destruct (IH _ R) as (made & -> & F2).
      exists made. split; [done |]. by rewrite decide_False by congruence.
Qed.

Lemma for_each_all_return {A S} (body : A -> S -> outcome S) (items : list A)
    (s : S) :
  (forall x s, x ∈ items -> returns (body x s)) ->
  returns (for_each items body s).
Proof.
  revert s. induction items as [|x items IH]; intros s Hbody; cbn.
  - by eexists.
  - destruct (Hbody x s) as [s' ->]; [left |].
    apply IH. intros y ? Hy. apply Hbody. by right.
Qed.

Lemma for_each_append_returns {A B} (keep : A -> bool) (f : A -> outcome B)
    (body : A -> list B -> outcome (list B)) (items : list A) (acc : list B) :
  (forall x acc,
     body x acc = if negb (keep x) then Return acc
                  else match f x with
                       | Return v => Return (acc ++ [v])%list
                       | Raise e => Raise e
                       end) ->
  (forall x, x ∈ items -> keep x = true -> returns (f x)) ->
  returns (for_each items body acc).
Proof.
  intros Hbody Hf. apply for_each_all_return. intros x acc' Hin.
  rewrite Hbody. destruct (keep x) eqn:K; cbn [negb]; [| by eexists].
  destruct (Hf x Hin K) as [v ->]. by eexists.
Qed.

Lemma policy_literal
    (id name type spdx_id perms conds lims compat obligations key_requirements : pyval) :
  let inner := dict_of [
    ("id", id); ("name", name); ("type", type); ("spdx_id", spdx_id);
    ("properties", perms); ("requirements", conds); ("limitations", lims);
    ("compatibility", compat); ("obligations", obligations);
    ("key_requirements", key_requirements)] in
  dict_of [("license", PyDict inner)] !! "license" = Some (PyDict inner)
  /\ (inner !! "id" = Some id
      /\ inner !! "type" = Some type
      /\ inner !! "properties" = Some perms
      /\ inner !! "requirements" = Some conds).
Proof. cbv zeta. split; [reflexivity |]. repeat split; by vm_compute. Qed.

Section Policies.
Context `{PyRuntime}.

Lemma policies_body (license_data : pydict) (written : list (string * pydict)) :
  (let license_id := get license_data "license_id" in
   if negb (truthy license_id) then Return written
   else
     let! policy := license_policy license_data in
     let policy_file := py_str license_id +:+ ".yaml" in
     Return (written ++ [(policy_file, policy)])%list)
  = if negb (truthy (get license_data "license_id")) then Return written
    else match (let! policy := license_policy license_data in
                Return (py_str (get license_data "license_id") +:+ ".yaml", policy))
         with
         | Return v => Return (written ++ [v])%list
         | Raise e => Raise e
         end.
Proof.
  cbv zeta. destruct (negb _); [done |].
  by destruct (license_policy license_data).
Qed.

(** [_generate_license_policies] writes one file per record with a truthy
    [license_id], in the order of the records, named after the id.  The
    policy of a record files its permissions under [properties] and its
    conditions under [requirements], and its [type] is the category of the
    record, permissive when the record has none.  A record without a truthy
    [license_id] gets no file. *)
Theorem license_policies_written (licenses : list pydict)
    (written : list (string * pydict)) :
  _generate_license_policies licenses = Return written ->
  Forall2 (fun license_data file =>
             file.1 = py_str (get license_data "license_id") +:+ ".yaml"
             /\ license_policy license_data = Return file.2
             /\ exists inner,
                  file.2 !! "license" = Some (PyDict inner)
                  /\ inner !! "id" = Some (get license_data "license_id")
                  /\ inner !! "type" = Some (category_of license_data)
                  /\ inner !! "properties"
                     = Some (get_default license_data "permissions" (PyDict ∅))
                  /\ inner !! "requirements"
                     = Some (get_default license_data "conditions" (PyDict ∅)))
          (filter (fun license_data =>
                     truthy (get license_data "license_id") = true) licenses)
          written.
Proof.
  intros R. unfold _generate_license_policies in R.
  destruct (for_each_append
              (fun l => truthy (get l "license_id"))
              (fun l => let! policy := license_policy l in
                        Return (py_str (get l "license_id") +:+ ".yaml", policy))
              _ licenses [] written (fun l w => policies_body l w) R)
    as (made & -> & F).
  cbn [app]. eapply Forall2_impl; [exact F |].
  intros license_data [name policy] E. cbn [fst snd].
  destruct (license_policy license_data) as [p|e] eqn:P; [| discriminate].
  cbn [bind] in E. injection E as <- <-. split; [done |]. split; [done |].
  unfold license_policy in P. cbv zeta in P.
  destruct (_format_compatibility_for_policy _) as [c|e]; [| discriminate].
  cbn [bind] in P. injection P as <-.
  eexists. split; [apply policy_literal |]. apply policy_literal.
Qed.
End Policies.

Section PoliciesReturn.
Context `{PyRuntime}.

Lemma license_policies_return (licenses : list pydict) :
  Forall (fun license_data =>
            truthy (get license_data "license_id") = true ->
            returns (_format_compatibility_for_policy
                       (get_default license_data "compatibility_rules" (PyDict ∅))))
         licenses ->
  returns (_generate_license_policies licenses).
Proof.
  intros Hall. unfold _generate_license_policies.
  apply (for_each_append_returns
           (fun l => truthy (get l "license_id"))
           (fun l => let! policy := license_policy l in
                     Return (py_str (get l "license_id") +:+ ".yaml", policy))
           _ licenses [] (fun l w => policies_body l w)).
  intros x Hin T. rewrite Forall_forall in Hall.
  destruct (Hall x Hin T) as [c R].
  unfold license_policy. cbv zeta. rewrite R. by eexists.
Qed.
End PoliciesReturn.

Lemma format_of_no_rules :
  returns (_format_compatibility_for_policy (PyDict ∅)).
Proof. erewrite (format_of_dicts ∅ ∅ ∅); [by eexists | done | done]. Qed.

Lemma license_policies_written_witness :
  exists written,
    _generate_license_policies [Samples.gpl2; Samples.mit; Samples.anonymous]
    = Return written
    /\ Forall2 (fun license_data file =>
                  file.1 = py_str (get license_data "license_id") +:+ ".yaml"
                  /\ license_policy license_data = Return file.2
                  /\ exists inner,
                       file.2 !! "license" = Some (PyDict inner)
                       /\ inner !! "id" = Some (get license_data "license_id")
                       /\ inner !! "type" = Some (category_of license_data)
                       /\ inner !! "properties"
                          = Some (get_default license_data "permissions" (PyDict ∅))
                       /\ inner !! "requirements"
                          = Some (get_default license_data "conditions" (PyDict ∅)))
               (filter (fun license_data =>
                          truthy (get license_data "license_id") = true)
                       [Samples.gpl2; Samples.mit; Samples.anonymous])
               written.
Proof.
  assert (R : returns (_generate_license_policies
                         [Samples.gpl2; Samples.mit; Samples.anonymous])).
  { apply license_policies_return.
    apply Forall_cons_2; [| apply Forall_cons_2; [| apply Forall_cons_2;
                                                     [| apply Forall_nil_2]]].
    - intros _. change (get_default Samples.gpl2 "compatibility_rules" (PyDict ∅))
        with (PyDict ∅). apply format_of_no_rules.
    - intros _. change (get_default Samples.mit "compatibility_rules" (PyDict ∅))
        with (PyDict ∅). apply format_of_no_rules.
    - intros T. discriminate T. }
  destruct R as [written R]. exists written. split; [exact R |].
  exact (license_policies_written _ written R).
Defined.

(** ** The histogram of categories *)

Lemma count_categories_loop (licenses : list pydict) (acc histogram : gmap pykey Z) :
  for_each licenses
    (fun license_data categories =>
       let cat := get_default license_data "category" (PyStr "unknown") in
       let! key := as_key cat in
       Return (<[key := default 0 (categories !! key) + 1]> categories))
    acc = Return histogram ->
  Forall (fun l => is_Some (category_key l)) licenses
  /\ forall key,
       default 0 (histogram !! key)
       = default 0 (acc !! key)
         + Z.of_nat (length (filter (fun l => category_key l = Some key) licenses))
       /\ (is_Some (histogram !! key)
           <-> is_Some (acc !! key)
               \/ exists l, l ∈ licenses /\ category_key l = Some key).
Proof.
  revert acc. induction licenses as [|l licenses IH]; intros acc; cbn [for_each].
  - intros [= <-]. split; [constructor |]. intros key. split.
    + rewrite filter_nil. cbn [length]. lia.
    + split; [by left |]. intros [S | (l & Hin & _)]; [done |].
      by apply elem_of_nil in Hin.
  - cbv zeta.
    destruct (as_key (get_default l "category" (PyStr "unknown"))) as [k|e] eqn:K;
      cbn [bind]; [| discriminate].
    assert (Kl : category_key l = Some k) by (unfold category_key; by rewrite K).
    clear K. intros R. destruct (IH _ R) as [Hall Hkeys]. split.
    + constructor; [| done]. rewrite Kl. by eexists.
    + intros key. destruct (Hkeys key) as [Hcount Hdom].
      rewrite Hcount, Hdom, filter_cons.
      destruct (decide (k = key)) as [-> | Hne].
      * rewrite lookup_insert_eq, decide_True by done. cbn [length].
        split; [unfold default; cbn [from_option id]; lia |].
        split; [intros _; right; exists l; split; [by left | done] |].
        intros _. left. by eexists.
      * rewrite lookup_insert_ne by done.
        rewrite decide_False by congruence. split; [done |].
        split.
        -- intros [S | (l' & Hin & K')]; [by left |].
           right. exists l'. split; [by right | done].
        -- intros [S | (l' & Hin & K')]; [by left |].
           apply elem_of_cons in Hin as [-> | Hin].
           ++ congruence.
           ++ right. by exists l'.
Qed.

(** [_count_categories] returns exactly when the category of every record can
    be a dict key, a record without category standing under ["unknown"]; the
    histogram then has one key per category that occurs, with the number of
    records of that category, so that no count is below one. *)
Theorem count_categories_histogram (licenses : list pydict) :
  (returns (_count_categories licenses)
   <-> Forall (fun l => is_Some (category_key l)) licenses)
  /\ (forall l, l !! "category" = None -> category_key l = Some (KStr "unknown"))
  /\ forall histogram,
       _count_categories licenses = Return histogram ->
       forall key,
         (histogram !! key = None
          <-> forall l, l ∈ licenses -> category_key l <> Some key)
         /\ forall n, histogram !! key = Some n ->
              0 < n
              /\ n = Z.of_nat (length (filter (fun l => category_key l = Some key)
                                              licenses)).
Proof.
  split; [split |].
  - intros [histogram R]. by apply count_categories_loop in R as [Hall _].
  - intros Hall. unfold _count_categories. apply for_each_all_return.
    intros l acc Hin. rewrite Forall_forall in Hall.
    destruct (Hall l Hin) as [k K]. unfold category_key in K. cbv zeta.
    destruct (as_key _) as [k'|e]; [by eexists | discriminate].
  - split.
    + intros l L. unfold category_key, get_default, dict_get. by rewrite L.
    + intros histogram R key.
      apply count_categories_loop in R as [_ Hkeys].
      destruct (Hkeys key) as [Hcount Hdom]. rewrite lookup_empty in Hcount, Hdom.
      split.
      * rewrite eq_None_not_Some, Hdom. split.
        -- intros N l Hin K. apply N. right. by exists l.
        -- intros N [S | (l & Hin & K)]; [by destruct S | by apply (N l)].
      * intros n L. rewrite L in Hcount, Hdom. cbn in Hcount.
        split; [| lia].
        destruct (proj1 Hdom ltac:(by eexists)) as [S | (l & Hin & K)];
          [by destruct S |].
        assert (0 < length (filter (fun l => category_key l = Some key) licenses))%nat;
          [| lia].
        assert (l ∈ filter (fun l => category_key l = Some key) licenses) as Hf
          by (apply list_elem_of_filter; done).
        destruct (filter _ licenses); [by apply elem_of_nil in Hf | cbn; lia].
Qed.

(** ** A whole run without backend *)

Lemma fallback_absent_keys (license_id : string) :
  _get_fallback_analysis license_id !! "spdx_data" = None
  /\ _get_fallback_analysis license_id !! "name" = None
  /\ is_dict (get_default (_get_fallback_analysis license_id) "conditions" (PyDict ∅))
  /\ _get_fallback_analysis license_id !! "license_id" = Some (PyStr license_id).
Proof.
  unfold _get_fallback_analysis, is_dict, get_default.
  destruct (contains "GPL" license_id) eqn:G.
  { repeat split; try (vm_compute; reflexivity). eexists. vm_compute. reflexivity. }
  rewrite (contains_tail_false "L" "GPL" license_id G),
    (contains_tail_false "A" "GPL" license_id G).
  destruct (contains "Apache" license_id).
  { repeat split; try (vm_compute; reflexivity). eexists. vm_compute. reflexivity. }
  destruct (contains "MIT" license_id || contains "BSD" license_id
            || contains "ISC" license_id).
  { repeat split; try (vm_compute; reflexivity). eexists. vm_compute. reflexivity. }
  destruct (contains "CC0" license_id || contains "Unlicense" license_id);
    (repeat split; try (vm_compute; reflexivity)); eexists; vm_compute; reflexivity.
Qed.

Lemma fallback_result_lookup (license_id key : string) :
  key <> "compatibility_rules" ->
  fallback_result license_id !! key = _get_fallback_analysis license_id !! key.
Proof. intros N. unfold fallback_result. cbv zeta. by rewrite lookup_insert_ne. Qed.

Lemma fallback_result_key (license_id : string) :
  truthy (PyStr license_id) = true ->
  license_key (fallback_result license_id) = Some (KStr license_id).
Proof.
  intros T. apply license_key_Some.
  destruct (fallback_absent_keys license_id) as (_ & _ & _ & L).
  unfold get, get_default. rewrite fallback_result_lookup, L by done. done.
Qed.

Lemma fallback_result_well_formed (license_id : string) :
  well_formed (fallback_result license_id).
Proof.
  destruct (fallback_absent_keys license_id) as (S & _ & C & L).
  unfold well_formed, hashable_id, get, get_default in *.
  rewrite !fallback_result_lookup, S, L by done.
  split; [intros _; by eexists |]. split; [exact C | by eexists].
Qed.

Lemma default_rules_format (license_id : string) (analysis : pydict) :
  returns (_format_compatibility_for_policy
             (PyDict (_get_default_compatibility_rules license_id analysis))).
Proof.
  unfold _get_default_compatibility_rules.
  destruct (py_eq _ (PyStr "permissive"));
    [| destruct (py_eq _ (PyStr "copyleft_strong"));
       [| destruct (py_eq _ (PyStr "copyleft_weak"))]];
    (erewrite format_of_dicts; [by eexists | vm_compute; reflexivity
                                | vm_compute; reflexivity]).
Qed.

Lemma map_outcome_fmap {A B} (f : A -> outcome B) (g : A -> B) (items : list A) :
  (forall x, f x = Return (g x)) ->
  map_outcome f items = Return (g <$> items).
Proof.
  intros E. apply map_outcome_Forall2, Forall2_fmap_r, Forall_Forall2_diag, Forall_forall.
  intros x _. apply E.
Qed.

Lemma slice_to_take {A} (items : list A) (n : Z) :
  (if truthy (PyInt n) then slice_to items n else items)
  = if n =? 0 then items
    else if 0 <? n then take (Z.to_nat n) items
    else take (length items - Z.to_nat (- n)) items.
Proof.
  unfold truthy, slice_to. destruct (Z.eqb_spec n 0) as [-> | N]; cbn [negb]; [done |].
  destruct (Z.leb_spec 0 n), (Z.ltb_spec 0 n); try lia; [done |].
  f_equal. lia.
Qed.

Section WholeRun.
Context `{PyRuntime}.

Lemma process_licenses_loop (self : PolicyDataGenerator)
    (licenses : list spdx_license) (acc : list license_item) :
  (forall license_id, returns (get_license_text (spdx_processor self) license_id)) ->
  exists items,
    for_each licenses
      (fun license_data processed_licenses =>
         match licenseId license_data with
         | None => Return processed_licenses
         | Some license_id =>
             if negb (truthy (PyStr license_id)) then Return processed_licenses
             else
               let! license_text := get_license_text (spdx_processor self) license_id in
               let text :=
                 match license_text with
                 | Some t => if truthy (PyStr t) then t else ""
                 | None => ""
                 end in
               Return (processed_licenses
                         ++ [{| item_id := license_id; item_text := Some text |}])%list
         end)
      acc = Return (acc ++ items)%list
    /\ item_id <$> items = omap kept_id licenses.
Proof.
  intros Htext. revert acc.
  induction licenses as [|e licenses IH]; intros acc; cbn [for_each].
  - exists []. by rewrite app_nil_r.
  - cbn [omap list_omap]. unfold kept_id at 1.
    destruct (licenseId e) as [license_id|]; [| apply IH].
    destruct (truthy (PyStr license_id)); cbn [negb]; [| apply IH].
    destruct (Htext license_id) as [t Ht].
    destruct (IH (acc ++ [{| item_id := license_id;
                             item_text := Some match t with
                                               | Some t => if truthy (PyStr t) then t else ""
                                               | None => ""
                                               end |}])%list)
      as (items & E & Hids).
    eexists (_ :: items). split.
    + rewrite Ht. cbn [bind].
      rewrite <- app_assoc in E. exact E.
    + rewrite fmap_cons. cbn [item_id]. by rewrite Hids.
Qed.

Lemma histogram_of_fallbacks (ids : list string) (histogram : gmap pykey Z)
    (key : pykey) :
  _count_categories (fallback_result <$> ids) = Return histogram ->
  is_Some (histogram !! key) ->
  key ∈ [KStr "permissive"; KStr "copyleft_strong"; KStr "public_domain"].
Proof.
  intros R S. apply count_categories_loop in R as [_ Hkeys].
  destruct (Hkeys key) as [_ Hdom]. apply Hdom in S as [S | (l & Hin & K)].
  { rewrite lookup_empty in S. by destruct S. }
  apply list_elem_of_fmap in Hin as (license_id & -> & _).
  destruct (fallback_category license_id) as (c & C & Hc).
  unfold category_key, get_default in K.
  rewrite fallback_result_lookup, C in K by done. cbn in K. injection K as <-.
  rewrite !elem_of_cons. destruct Hc as [-> | [-> | ->]]; auto.
Qed.

Lemma histogram_of_fallbacks_returns (ids : list string) :
  returns (_count_categories (fallback_result <$> ids)).
Proof.
  unfold _count_categories. apply for_each_all_return. intros l acc Hin.
  apply list_elem_of_fmap in Hin as (license_id & -> & _).
  destruct (fallback_category license_id) as (c & C & _).
  cbv zeta. unfold get_default. rewrite fallback_result_lookup, C by done.
  by eexists.
Qed.

Lemma policies_of_fallbacks (ids : list string) :
  Forall (fun license_id => truthy (PyStr license_id) = true) ids ->
  exists policies,
    _generate_license_policies (fallback_result <$> ids) = Return policies
    /\ policies.*1 = (fun license_id => py_str (PyStr license_id) +:+ ".yaml") <$> ids.
Proof.
  intros Hids.
  destruct (license_policies_return (fallback_result <$> ids)) as [policies R].
  { apply Forall_fmap, Forall_forall. intros license_id _ _. cbn.
    unfold fallback_result at 1, get_default. cbv zeta. rewrite lookup_insert_eq.
    apply default_rules_format. }
  exists policies. split; [done |].
  unfold _generate_license_policies in R.
  destruct (for_each_append
              (fun l => truthy (get l "license_id"))
              (fun l => let! policy := license_policy l in
                        Return (py_str (get l "license_id") +:+ ".yaml", policy))
              _ (fallback_result <$> ids) [] policies
              (fun l w => policies_body l w) R)
    as (made & -> & F).
  cbn [app]. clear R. revert made F.
  induction Hids as [|license_id ids T _ IH]; intros made F.
  - rewrite fmap_nil, filter_nil in F. by inversion F.
  - rewrite fmap_cons, filter_cons in F.
    assert (G : get (fallback_result license_id) "license_id" = PyStr license_id).
    { destruct (fallback_absent_keys license_id) as (_ & _ & _ & L).
      unfold get, get_default. by rewrite fallback_result_lookup, L. }
    rewrite G in F. rewrite decide_True in F by done.
    inversion F as [|? [name policy] ? made' E F']; subst.
    rewrite !fmap_cons, <- (IH made' F'). f_equal.
    destruct (license_policy _); [| discriminate E]. cbn [bind] in E.
    rewrite G in E. by injection E as <- _.
Qed.

Lemma master_literal
    (id name category perms conds lims obligations rules metadata : pyval) :
  let entry := dict_of [
    ("id", id); ("name", name); ("category", category); ("permissions", perms);
    ("conditions", conds); ("limitations", lims); ("obligations", obligations);
    ("compatibility_rules", rules); ("spdx_metadata", metadata)] in
  entry !! "name" = Some name /\ entry !! "spdx_metadata" = Some metadata.
Proof. cbv zeta. split; by vm_compute. Qed.

Lemma master_entry_of_fallback (o : obligation_db) (license_id : string) :
  master_entry o (fallback_result license_id) !! "name" = Some (PyStr license_id)
  /\ master_entry o (fallback_result license_id) !! "spdx_metadata"
     = Some (PyDict (dict_of [("is_osi_approved", PyBool false);
                              ("is_fsf_libre", PyBool false);
                              ("is_deprecated", PyBool false)])).
Proof.
  destruct (fallback_absent_keys license_id) as (S & N & _ & L).
  unfold master_entry. cbv zeta. split.
  - etransitivity; [apply master_literal |].
    unfold get, get_default. by rewrite !fallback_result_lookup, N, L.
  - etransitivity; [apply master_literal |].
    unfold get_default at 1 2 3. by rewrite !fallback_result_lookup, S.
Qed.

Lemma kept_ids_truthy (licenses : list spdx_license) :
  Forall (fun license_id => truthy (PyStr license_id) = true) (omap kept_id licenses).
Proof.
  induction licenses as [|e licenses IH]; [constructor |].
  cbn [omap list_omap]. destruct (kept_id e) as [license_id|] eqn:K; [| done].
  constructor; [| done]. unfold kept_id in K.
  destruct (licenseId e) as [i|]; [| discriminate].
  destruct (truthy (PyStr i)) eqn:T; [| discriminate]. by injection K as <-.
Qed.

(** A run of the generator whose analyzer has no agent, on a registry whose
    download and text lookups return: the run returns.  It processes the
    entries with a truthy [licenseId] among the first [limit] entries of the
    registry, all of them when [limit] is [None] or zero, all but the last
    [-limit] when [limit] is negative.  The summary counts those entries and
    carries the version of the registry; the validator reports the datasets
    valid and no category missing; there is one policy file per processed
    entry, in order, named after the id; the master database has exactly the
    processed ids as keys, each entry named by its id, and the three flags of
    its [spdx_metadata] are [False] whatever the registry says, the batch
    having dropped the registry entry; and the histogram has no category but
    permissive, copyleft_strong and public_domain. *)
Theorem generate_all_data_without_backend (self : PolicyDataGenerator)
    (force_download : bool) (limit : option Z) (spdx_data : spdx_snapshot) :
  agent (llm_analyzer self) = None ->
  download_spdx_data (spdx_processor self) force_download = Return spdx_data ->
  (forall license_id, returns (get_license_text (spdx_processor self) license_id)) ->
  let all := spdx_licenses spdx_data in
  let licenses :=
    match limit with
    | None => all
    | Some n => if n =? 0 then all
                else if 0 <? n then take (Z.to_nat n) all
                else take (length all - Z.to_nat (- n)) all
    end in
  let ids := omap kept_id licenses in
  exists r,
    generate_all_data self force_download limit = Return r
    /\ summary_total_licenses (run_summary r) = length ids
    /\ summary_spdx_version (run_summary r) = spdx_version spdx_data
    /\ is_valid (validation (run_summary r)) = Some true
    /\ missing_category (validation (run_summary r)) = 0%nat
    /\ (run_policies r).*1
       = (fun license_id => py_str (PyStr license_id) +:+ ".yaml") <$> ids
    /\ (forall key, is_Some (master_licenses (run_master r) !! key)
                    <-> exists license_id, license_id ∈ ids /\ key = KStr license_id)
    /\ (forall license_id entry,
          master_licenses (run_master r) !! KStr license_id = Some entry ->
          entry !! "name" = Some (PyStr license_id)
          /\ entry !! "spdx_metadata"
             = Some (PyDict (dict_of [("is_osi_approved", PyBool false);
                                      ("is_fsf_libre", PyBool false);
                                      ("is_deprecated", PyBool false)])))
    /\ (forall key, is_Some (categories (run_summary r) !! key) ->
                    key ∈ [KStr "permissive"; KStr "copyleft_strong";
                           KStr "public_domain"]).
Proof.
  intros A D Htext all licenses ids.
  assert (L : match limit with
              | Some n => if truthy (PyInt n) then slice_to all n else all
              | None => all
              end = licenses).
  { subst licenses. destruct limit as [n|]; [apply slice_to_take | done]. }
  destruct (process_licenses_loop self licenses [] Htext) as (items & P & Hids).
  fold ids in Hids. cbn [app] in P.
  pose proof (kept_ids_truthy licenses) as Tids. fold ids in Tids.
  assert (M : map_outcome (analyze_item (llm_analyzer self)) items
              = Return (fallback_result <$> ids)).
  { rewrite <- Hids, <- list_fmap_compose. apply map_outcome_fmap.
    intros x. by apply analyze_item_without_agent. }
  assert (W : Forall well_formed (fallback_result <$> ids)).
  { apply Forall_fmap, Forall_forall. intros x _. apply fallback_result_well_formed. }
  assert (Hh : Forall hashable_id (fallback_result <$> ids)).
  { eapply Forall_impl; [exact W |]. by intros x [? _]. }
  destruct (policies_of_fallbacks ids Tids) as (policies & Ep & Np).
  destruct (matrix_returns _ Hh) as [m Em].
  destruct (obligation_returns _ W) as [o Eo].
  destruct (master_returns _ m o W) as [db Ed].
  destruct (histogram_of_fallbacks_returns ids) as [h Eh].
  eexists. split.
  { unfold generate_all_data. rewrite D. cbn [bind]. cbv zeta. fold all.
    rewrite L. unfold process_licenses. rewrite P. cbn [bind]. rewrite M.
    cbn [bind]. rewrite Ep. cbn [bind]. rewrite Em. cbn [bind]. rewrite Eo.
    cbn [bind]. rewrite Ed. cbn [bind]. rewrite Eh. cbn [bind]. reflexivity. }
  cbn [run_summary run_policies run_master summary_total_licenses
       summary_spdx_version validation categories].
  split; [by rewrite length_fmap |]. split; [done |].
  assert (V : is_valid (_validate_generated_data (fallback_result <$> ids)) = Some true
              /\ missing_category (_validate_generated_data (fallback_result <$> ids))
                 = 0%nat).
  { rewrite <- Hids, <- list_fmap_compose. unfold compose.
    pose proof (validate_report_spec ((fun l => fallback_result (item_id l)) <$> items))
      as Hv.
    cbv zeta in Hv. destruct Hv as (_ & C & _ & _ & _ & _ & V).
    destruct (fallback_results_counts items) as (C0 & _ & _ & _ & E0).
    cbv zeta in C0, E0. rewrite C, V, C0, E0. done. }
  split; [apply V |]. split; [apply V |]. split; [exact Np |].
  pose proof (proj1 (master_spec _ _ _ _ Ed)) as Sd.
  split; [| split].
  - intros key. rewrite Sd, <- elem_of_dom, filed_dom. split.
    + intros (l & Hin & T & K).
      apply list_elem_of_fmap in Hin as (license_id & -> & Hin).
      exists license_id. split; [done |].
      destruct (fallback_absent_keys license_id) as (_ & _ & _ & I).
      unfold get, get_default in K. rewrite fallback_result_lookup, I in K by done.
      cbn in K. by injection K as <-.
    + intros (license_id & Hin & ->). exists (fallback_result license_id).
      split; [by apply list_elem_of_fmap_2 |].
      apply license_key_Some, fallback_result_key.
      by apply (proj1 (Forall_forall _ _) Tids).
  - intros license_id entry E. rewrite Sd, filed_lookup in E.
    destruct (find_last _ _) as [l|] eqn:F; [| discriminate E].
    injection E as <-. apply find_last_Some in F as [Hin K].
    apply list_elem_of_fmap in Hin as (i & -> & Hin).
    apply bool_decide_eq_true in K.
    rewrite fallback_result_key in K
      by by apply (proj1 (Forall_forall _ _) Tids).
    injection K as ->. apply master_entry_of_fallback.
  - intros key. apply (histogram_of_fallbacks ids h key Eh).
Qed.

End WholeRun.

Lemma generate_all_data_without_backend_witness :
  exists r,
    generate_all_data Samples.offline_generator false (Some 0) = Return r
    /\ summary_total_licenses (run_summary r) = 2%nat
    /\ is_valid (validation (run_summary r)) = Some true.
Proof.
  destruct (generate_all_data_without_backend Samples.offline_generator false
              (Some 0) Samples.registry eq_refl eq_refl
              (fun license_id => ex_intro _ None eq_refl))
    as (r & E & T & _ & V & _).
  exists r. split; [exact E |]. split; [exact T | exact V].
Defined.

(** ** When the policy files are written *)

Lemma format_raised (rules : pyval) (e : exn) :
  _format_compatibility_for_policy rules = Raise e -> e = AttributeError.
Proof.
  unfold _format_compatibility_for_policy. cbv zeta.
  destruct rules as [| | | | |d]; cbn [attr_get bind]; try congruence.
  destruct (get_default d "static_linking" (PyDict ∅)) as [| | | | |s];
    cbn [attr_get bind]; try congruence.
  destruct (get_default d "dynamic_linking" (PyDict ∅)) as [| | | | |y];
    cbn [attr_get bind]; congruence.
Qed.

Section PoliciesAbort.
Context `{PyRuntime}.


End PoliciesAbort.

(** ** A record without category *)

Section Uncategorized.
Context `{PyRuntime}.

(** A record that has no [category] key is read in four ways by the
    generator: the validator counts its category as missing, the histogram
    counts it under ["unknown"], the matrix and the policy file take it for
    permissive, and the master database files [None]. *)
Theorem uncategorized_record_defaults (license_data : pydict) :
  license_data !! "category" = None ->
  missing "category" license_data = true
  /\ category_key license_data = Some (KStr "unknown")
  /\ (forall other,
        _check_license_compatibility license_data other
        = _check_license_compatibility
            (<["category" := PyStr "permissive"]> license_data) other
        /\ _check_license_compatibility other license_data
           = _check_license_compatibility
               other (<["category" := PyStr "permissive"]> license_data))
  /\ (forall policy,
        license_policy license_data = Return policy ->
        get_path policy "license" "type" = Some (PyStr "permissive"))
  /\ (forall o, master_entry o license_data !! "category" = Some PyNone).
Proof.
  intros E.
  assert (C : forall default, get_default license_data "category" default = default).
  { intros default. unfold get_default. by rewrite E. }
  split; [unfold missing, get; by rewrite C |].
  split; [unfold category_key; by rewrite C |].
  split; [| split].
  - intros other. unfold _check_license_compatibility. cbv zeta.
    assert (C' : get_default (<["category" := PyStr "permissive"]> license_data)
                   "category" (PyStr "permissive") = PyStr "permissive")
      by (unfold get_default; by rewrite lookup_insert_eq).
    by rewrite C, C'.
  - intros policy P. unfold license_policy in P. cbv zeta in P.
    destruct (_format_compatibility_for_policy _) as [c|e]; [| discriminate P].
    cbn [bind] in P. injection P as <-. rewrite C. unfold get_path.
    match goal with
    | |- context [dict_of [("license", PyDict ?inner)] !! "license"] =>
        change (dict_of [("license", PyDict inner)] !! "license")
          with (Some (PyDict inner))
    end.
    apply policy_literal.
  - intros o. unfold master_entry, get. cbv zeta. rewrite C.
    generalize (get_default license_data "license_id" PyNone).
    intros license_id.
    generalize (get_default license_data "name" license_id)
               (get_default license_data "permissions" PyNone)
               (get_default license_data "conditions" PyNone)
               (get_default license_data "limitations" PyNone)
               (get_default license_data "compatibility_rules" (PyDict ∅)).
    intros name perms conds lims rules.
    match goal with
    | |- context [("obligations", ?v)] => generalize v
    end.
    match goal with
    | |- context [("spdx_metadata", ?v)] => generalize v
    end.
    intros metadata obligations. by vm_compute.
Qed.

End Uncategorized.

Lemma uncategorized_record_defaults_witness :
  Samples.uncategorized !! "category" = None
  /\ category_key Samples.uncategorized = Some (KStr "unknown")
  /\ _check_license_compatibility Samples.uncategorized Samples.mit
     = _check_license_compatibility
         (<["category" := PyStr "permissive"]> Samples.uncategorized) Samples.mit.
Proof.
  assert (E : Samples.uncategorized !! "category" = None) by reflexivity.
  split; [exact E |].
  destruct (uncategorized_record_defaults Samples.uncategorized E)
    as (_ & K & M & _).
  split; [exact K | exact (proj1 (M Samples.mit))].
Defined.

(** ** Making an analyzer *)

(** [LicenseAnalyzer(model, ollama_url)] never raises and keeps the model and
    the URL it is given.  The analyzer has an agent exactly when the SDK was
    imported and both its constructors returned; in every other case the
    agent is [None], and both [analyze_license] and
    [extract_compatibility_rules] answer with their table, whatever the id,
    the text and the analysis. *)
Theorem analyzer_construction `{PyRuntime} (sdk : option Sdk)
    (the_model the_url : string) :
  exists self,
    new_LicenseAnalyzer sdk the_model the_url = Return self
    /\ model self = the_model
    /\ ollama_url self = the_url
    /\ (forall the_agent,
          agent self = Some the_agent
          <-> exists the_sdk the_provider,
                sdk = Some the_sdk
                /\ OllamaProvider the_sdk the_model the_url = Return the_provider
                /\ make_Agent the_sdk "LicenseAnalyzer" the_provider system_prompt
                   = Return the_agent)
    /\ (agent self = None ->
        forall license_id license_text analysis,
          analyze_license self license_id license_text
          = Return (_get_fallback_analysis license_id)
          /\ extract_compatibility_rules self license_id analysis
             = Return (_get_default_compatibility_rules license_id analysis)).
Proof.
  assert (Hnone : forall self : LicenseAnalyzer,
             agent self = None ->
             forall license_id license_text analysis,
               analyze_license self license_id license_text
               = Return (_get_fallback_analysis license_id)
               /\ extract_compatibility_rules self license_id analysis
                  = Return (_get_default_compatibility_rules license_id analysis)).
  { intros self A license_id license_text analysis.
    unfold analyze_license, extract_compatibility_rules. by rewrite A. }
  unfold new_LicenseAnalyzer. destruct sdk as [the_sdk|]; cbn [bind].
  - unfold _init_agent.
    destruct (OllamaProvider the_sdk the_model the_url) as [p|e] eqn:P;
      cbn [bind try_except is_Exception].
    + destruct (make_Agent the_sdk "LicenseAnalyzer" p system_prompt) as [a|e] eqn:M;
        cbn [bind try_except is_Exception].
      * eexists. split; [reflexivity |]. cbn [model ollama_url agent].
        split; [done |]. split; [done |]. split; [| discriminate].
        intros a'. split.
        -- intros [= <-]. by exists the_sdk, p.
        -- intros (s' & p' & [= <-] & P' & M').
           rewrite P in P'. injection P' as <-. rewrite M in M'. by injection M' as <-.
      * eexists. split; [reflexivity |]. cbn [model ollama_url agent].
        split; [done |]. split; [done |]. split; [| intros _; by apply Hnone].
        intros a'. split; [discriminate |].
        intros (s' & p' & [= <-] & P' & M').
        rewrite P in P'. injection P' as <-. rewrite M in M'. discriminate M'.
    + eexists. split; [reflexivity |]. cbn [model ollama_url agent].
      split; [done |]. split; [done |]. split; [| intros _; by apply Hnone].
      intros a'. split; [discriminate |].
      intros (s' & p' & [= <-] & P' & _). rewrite P in P'. discriminate P'.
  - eexists. split; [reflexivity |]. cbn [model ollama_url agent].
    split; [done |]. split; [done |]. split; [| intros _; by apply Hnone].
    intros a'. split; [discriminate |]. by intros (s' & p' & [=] & _).
Qed.

(** * The repair script *)

Import FixMissingLicenses.

Lemma dict_of_single (k : string) (v : pyval) : dict_of [(k, v)] !! k = Some v.
Proof. unfold dict_of. cbn [foldl fst snd]. apply lookup_insert_eq. Qed.

Lemma file_literal
    (id name type spdx_id perms conds lims compat obligations key_requirements : pyval) :
  let inner := dict_of [
    ("id", id); ("name", name); ("type", type); ("spdx_id", spdx_id);
    ("properties", perms); ("requirements", conds); ("limitations", lims);
    ("compatibility", compat); ("obligations", obligations);
    ("key_requirements", key_requirements)] in
  inner !! "id" = Some id
  /\ inner !! "name" = Some name
  /\ inner !! "type" = Some type
  /\ inner !! "requirements" = Some conds
  /\ inner !! "compatibility" = Some compat
  /\ inner !! "obligations" = Some obligations.
Proof. cbv zeta. repeat split; by vm_compute. Qed.

Lemma table_categories (license_id : string) (fallback : fallback_license) :
  FALLBACK_LICENSES !! license_id = Some fallback ->
  entry_category fallback
  ∈ ["permissive"; "copyleft_strong"; "copyleft_weak"; "public_domain"].
Proof.
  intros E. unfold FALLBACK_LICENSES in E. apply elem_of_list_to_map_2 in E.
  rewrite !elem_of_cons, elem_of_nil in E. rewrite !elem_of_cons.
  repeat (destruct E as [[= _ ->] | E]; [cbn [entry_category]; tauto |]).
  destruct E.
Qed.

Lemma source_category (requests : Requests) (license_id text name category : string) :
  license_source requests license_id = (text, name, category) ->
  category ∈ ["permissive"; "copyleft_strong"; "copyleft_weak"; "public_domain"].
Proof.
  unfold license_source. cbv zeta.
  destruct (if no_text _ then _ else None) as [fallback|] eqn:F.
  - intros [= _ _ <-].
    destruct (no_text _); [| discriminate F]. by eapply table_categories.
  - intros [= _ _ <-]. rewrite elem_of_cons. by left.
Qed.

Lemma source_fetched (requests : Requests) (license_id t : string) :
  try_fetch_from_github requests license_id = Some t -> t <> "" ->
  license_source requests license_id
  = (t, replace_char "-" " " license_id, "permissive").
Proof.
  intros F N. unfold license_source. rewrite F. cbv zeta. unfold no_text, truthy.
  destruct (String.eqb_spec t ""); [done |]. reflexivity.
Qed.

Lemma source_table (requests : Requests) (license_id : string)
    (fallback : fallback_license) :
  no_text (try_fetch_from_github requests license_id) = true ->
  FALLBACK_LICENSES !! license_id = Some fallback ->
  license_source requests license_id
  = (entry_text fallback, entry_name fallback, entry_category fallback).
Proof. intros N F. unfold license_source. cbv zeta. by rewrite N, F. Qed.

Lemma missing_in_table (license_id : string) :
  license_id ∈ MISSING_LICENSES -> is_Some (FALLBACK_LICENSES !! license_id).
Proof.
  unfold MISSING_LICENSES. rewrite !elem_of_cons, elem_of_nil.
  intros E.
  repeat (destruct E as [-> | E]; [eexists; vm_compute; reflexivity |]).
  destruct E.
Qed.

Lemma created_lookup (requests : Requests) (license_id text name category : string) :
  license_source requests license_id = (text, name, category) ->
  exists inner requirements compatibility obligations,
    (create_license_file requests license_id).1 = license_id +:+ ".yaml"
    /\ (create_license_file requests license_id).2 !! "license" = Some (PyDict inner)
    /\ inner !! "id" = Some (PyStr license_id)
    /\ inner !! "name" = Some (PyStr name)
    /\ inner !! "type" = Some (PyStr category)
    /\ inner !! "requirements" = Some (PyDict requirements)
    /\ requirements !! "disclose_source"
       = Some (PyBool (String.eqb category "copyleft_strong"))
    /\ requirements !! "same_license"
       = Some (PyBool (String.eqb category "copyleft_strong"))
    /\ inner !! "compatibility" = Some (PyDict compatibility)
    /\ compatibility !! "contamination_effect"
       = Some (PyStr (if String.eqb category "permissive" then "none" else "strong"))
    /\ inner !! "obligations" = Some (str_list obligations)
    /\ obligations
       = if contains "copyleft" category then
           if String.eqb category "copyleft_strong" then
             ["Include license text"; "Include copyright notice";
              "Share source code for modifications"; "Distribute under same license"]
           else
             ["Include license text"; "Include copyright notice";
              "Share source code for modifications"]
         else ["Include license text"; "Include copyright notice"].
Proof.
  intros S. unfold create_license_file. rewrite S. cbv zeta. cbn [fst snd].
  generalize (String.eqb category "copyleft_strong")
             (String.eqb category "permissive")
             (contains "copyleft" category).
  intros strong permissive copyleft.
  eexists _, _, _, _. split; [reflexivity |].
  split; [apply dict_of_single |].
  split; [apply file_literal |]. split; [apply file_literal |].
  split; [apply file_literal |]. split; [apply file_literal |].
  split; [by vm_compute |]. split; [by vm_compute |].
  split; [apply file_literal |].
  split.
  { generalize (if permissive then str_list ["category:any"] else PyList [])
               (if negb strong then str_list ["category:any"] else PyList [])
               (PyStr (if permissive then "none" else "strong"))
               (PyStr ("License data for " +:+ license_id)).
    intros s d c n. by vm_compute. }
  split; [apply file_literal |].
  by destruct copyleft, strong.
Qed.

(** The file [create_license_file] makes is named after the id, and what it
    holds hangs together on its [type], which is one of permissive,
    copyleft_strong, copyleft_weak and public_domain: the requirements
    [disclose_source] and [same_license] are set exactly for copyleft_strong;
    the contamination effect is none for permissive and strong for the three
    other types, public_domain among them; the obligations are the two of
    every file, with a third for the two copyleft types and a fourth for
    copyleft_strong. *)
Theorem created_file_consistent (requests : Requests) (license_id : string) :
  let file := create_license_file requests license_id in
  file.1 = license_id +:+ ".yaml"
  /\ exists inner requirements compatibility category,
       file.2 !! "license" = Some (PyDict inner)
       /\ inner !! "id" = Some (PyStr license_id)
       /\ inner !! "type" = Some (PyStr category)
       /\ category ∈ ["permissive"; "copyleft_strong"; "copyleft_weak"; "public_domain"]
       /\ inner !! "requirements" = Some (PyDict requirements)
       /\ requirements !! "disclose_source"
          = Some (PyBool (String.eqb category "copyleft_strong"))
       /\ requirements !! "same_license"
          = Some (PyBool (String.eqb category "copyleft_strong"))
       /\ inner !! "compatibility" = Some (PyDict compatibility)
       /\ compatibility !! "contamination_effect"
          = Some (PyStr (if String.eqb category "permissive" then "none" else "strong"))
       /\ inner !! "obligations"
          = Some (str_list
                    (["Include license text"; "Include copyright notice"]
                     ++ (if String.eqb category "copyleft_strong"
                            || String.eqb category "copyleft_weak"
                         then ["Share source code for modifications"] else [])
                     ++ (if String.eqb category "copyleft_strong"
                         then ["Distribute under same license"] else []))).
Proof.
  cbv zeta.
  destruct (license_source requests license_id) as [[text name] category] eqn:S.
  pose proof (source_category _ _ _ _ _ S) as C.
  destruct (created_lookup _ _ _ _ _ S)
    as (inner & requirements & compatibility & obligations
        & F & L & I & _ & T & R & D & M & K & E & O & Ob).
  split; [exact F |].
  exists inner, requirements, compatibility, category.
  repeat (split; [assumption |]).
  rewrite O, Ob. f_equal. f_equal. clear -C.
  rewrite !elem_of_cons, elem_of_nil in C.
  destruct C as [-> | [-> | [-> | [-> | []]]]]; reflexivity.
Qed.

(** When a text could be fetched, the file is permissive and named by the id
    with its hyphens turned into spaces, whatever the table says of the id;
    and the text itself does not reach the file: any other fetched text gives
    the same file. *)
Theorem fetched_text_overrides_table (requests : Requests) (license_id t : string) :
  try_fetch_from_github requests license_id = Some t ->
  t <> "" ->
  (exists inner,
     (create_license_file requests license_id).2 !! "license" = Some (PyDict inner)
     /\ inner !! "type" = Some (PyStr "permissive")
     /\ inner !! "name" = Some (PyStr (replace_char "-" " " license_id)))
  /\ forall requests' t',
       try_fetch_from_github requests' license_id = Some t' ->
       t' <> "" ->
       create_license_file requests' license_id
       = create_license_file requests license_id.
Proof.
  intros F N. pose proof (source_fetched _ _ _ F N) as S. split.
  - destruct (created_lookup _ _ _ _ _ S)
      as (inner & ? & ? & ? & _ & L & _ & Nm & T & _).
    by exists inner.
  - intros requests' t' F' N'. pose proof (source_fetched _ _ _ F' N') as S'.
    unfold create_license_file. by rewrite S, S'.
Qed.

(** When no text could be fetched for an id of [MISSING_LICENSES], the table
    has the id, and the file takes its type and its name from the table. *)
Theorem unfetched_follows_table (requests : Requests) (license_id : string) :
  license_id ∈ MISSING_LICENSES ->
  no_text (try_fetch_from_github requests license_id) = true ->
  exists fallback inner,
    FALLBACK_LICENSES !! license_id = Some fallback
    /\ (create_license_file requests license_id).2 !! "license" = Some (PyDict inner)
    /\ inner !! "type" = Some (PyStr (entry_category fallback))
    /\ inner !! "name" = Some (PyStr (entry_name fallback)).
Proof.
  intros Hin N. destruct (missing_in_table _ Hin) as [fallback E].
  pose proof (source_table _ _ _ N E) as S.
  destruct (created_lookup _ _ _ _ _ S)
    as (inner & ? & ? & ? & _ & L & _ & Nm & T & _).
  by exists fallback, inner.
Qed.

Section Repair.
Variable requests : Requests.

Lemma fix_loop_noop (ids : list string) (files : gmap string pydict) (count : nat)
    (requests' : Requests) :
  (forall license_id, license_id ∈ ids -> is_Some (files !! (license_id +:+ ".yaml"))) ->
  foldl (fix_license requests') (files, count) ids = (files, count).
Proof.
  induction ids as [|license_id ids IH]; intros Hall; cbn [foldl]; [done |].
  unfold fix_license at 2. rewrite bool_decide_eq_true_2 by (apply Hall; left).
  apply IH. intros i Hi. apply Hall. by right.
Qed.

Lemma filter_ext_in {A} (P Q : A -> Prop) `{!forall x, Decision (P x)}
    `{!forall x, Decision (Q x)} (l : list A) :
  (forall x, x ∈ l -> P x <-> Q x) -> filter P l = filter Q l.
Proof.
  induction l as [|x l IH]; intros E; [done |].
  rewrite !filter_cons.
  destruct (decide (P x)) as [p|p], (decide (Q x)) as [q|q].
  - f_equal. apply IH. intros y Hy. apply E. by right.
  - destruct q. apply E; [left | done].
  - destruct p. apply E; [left | done].
  - apply IH. intros y Hy. apply E. by right.
Qed.

Lemma fix_loop (ids : list string) (files : gmap string pydict) (count : nat) :
  NoDup ((fun license_id => license_id +:+ ".yaml") <$> ids) ->
  let result := foldl (fix_license requests) (files, count) ids in
  (forall f, f ∉ (fun license_id => license_id +:+ ".yaml") <$> ids ->
             result.1 !! f = files !! f)
  /\ (forall license_id,
        license_id ∈ ids ->
        result.1 !! (license_id +:+ ".yaml")
        = Some (default (create_license_file requests license_id).2
                        (files !! (license_id +:+ ".yaml"))))
  /\ result.2
     = (count + length (filter (fun license_id =>
                                  files !! (license_id +:+ ".yaml") = None) ids))%nat.
Proof.
  revert files count.
  induction ids as [|license_id ids IH]; intros files count ND; cbv zeta.
  - cbn [foldl fst snd]. split; [done |]. split.
    + intros i Hi. by apply elem_of_nil in Hi.
    + rewrite filter_nil. cbn [length]. lia.
  - rewrite fmap_cons in ND. apply NoDup_cons in ND as [Hnew ND].
    cbn [foldl]. unfold fix_license at 2 4 6.
    destruct (files !! (license_id +:+ ".yaml")) as [c|] eqn:E.
    + rewrite bool_decide_eq_true_2 by by eexists.
      destruct (IH files count ND) as (I1 & I2 & I3). cbv zeta in I1, I2, I3.
      split; [| split].
      * intros f Hf. apply I1. intros Hin. apply Hf. rewrite fmap_cons. by right.
      * intros i Hi. apply elem_of_cons in Hi as [-> | Hi]; [| by apply I2].
        rewrite (I1 _ Hnew), E. reflexivity.
      * rewrite I3, filter_cons, decide_False; [done |]. by rewrite E.
    + rewrite bool_decide_eq_false_2 by by intros [? ?].
      assert (N : (create_license_file requests license_id).1 = license_id +:+ ".yaml")
        by (unfold create_license_file; by destruct (license_source _ _) as [[? ?] ?]).
      destruct (create_license_file requests license_id) as [created license_data]
        eqn:Cr.
      cbn [fst snd] in N |- *. subst created.
      destruct (IH (<[license_id +:+ ".yaml" := license_data]> files) (S count) ND)
        as (I1 & I2 & I3). cbv zeta in I1, I2, I3.
      split; [| split].
      * intros f Hf. rewrite fmap_cons in Hf. apply not_elem_of_cons in Hf as [Hne Hf].
        rewrite (I1 _ Hf). by rewrite lookup_insert_ne.
      * intros i Hi. apply elem_of_cons in Hi as [-> | Hi].
        -- rewrite (I1 _ Hnew), lookup_insert_eq, Cr, E. reflexivity.
        -- rewrite (I2 _ Hi). rewrite lookup_insert_ne; [done |].
           intros Heq. apply Hnew. rewrite Heq.
           by apply (list_elem_of_fmap_2 (fun license_id => license_id +:+ ".yaml")).
      * rewrite I3, filter_cons, decide_True by done. cbn [length].
        rewrite (filter_ext_in
                   (fun i => <[license_id +:+ ".yaml" := license_data]> files
                             !! (i +:+ ".yaml") = None)
                   (fun i => files !! (i +:+ ".yaml") = None)); [lia |].
        intros i Hi. rewrite lookup_insert_ne; [done |].
        intros Heq. apply Hnew. rewrite Heq.
        by apply (list_elem_of_fmap_2 (fun license_id => license_id +:+ ".yaml")).
Qed.

Lemma missing_names_NoDup :
  NoDup ((fun license_id => license_id +:+ ".yaml") <$> MISSING_LICENSES).
Proof.
  assert (B : bool_decide
                (NoDup ((fun license_id => license_id +:+ ".yaml") <$> MISSING_LICENSES))
              = true) by (vm_compute; reflexivity).
  by apply bool_decide_eq_true in B.
Qed.

(** [main] leaves a file for every id of [MISSING_LICENSES]: the one that was
    there, untouched, or else the one [create_license_file] makes; it leaves
    every other file as it was; it counts the files it created; and a second
    run, whatever can be fetched then, changes nothing and counts none. *)
Theorem main_fixes_missing (files : gmap string pydict) :
  let result := main requests files in
  (forall license_id,
     license_id ∈ MISSING_LICENSES ->
     result.1 !! (license_id +:+ ".yaml")
     = Some (default (create_license_file requests license_id).2
                     (files !! (license_id +:+ ".yaml"))))
  /\ (forall f,
        (forall license_id, license_id ∈ MISSING_LICENSES -> f <> license_id +:+ ".yaml") ->
        result.1 !! f = files !! f)
  /\ result.2
     = length (filter (fun license_id => files !! (license_id +:+ ".yaml") = None)
                      MISSING_LICENSES)
  /\ forall requests', main requests' result.1 = (result.1, 0%nat).
Proof.
  cbv zeta. unfold main.
  destruct (fix_loop MISSING_LICENSES files 0 missing_names_NoDup) as (I1 & I2 & I3).
  cbv zeta in I1, I2, I3.
  split; [exact I2 |]. split; [| split; [exact I3 |]].
  - intros f Hf. apply I1. intros Hin.
    apply list_elem_of_fmap in Hin as (i & -> & Hi). by apply (Hf i).
  - intros requests'. apply fix_loop_noop. intros i Hi. rewrite (I2 i Hi). by eexists.
Qed.

End Repair.

Lemma fetched_text_overrides_table_witness :
  exists inner,
    (create_license_file Samples.online "ESA-PL-strong-copyleft-2.4").2 !! "license"
    = Some (PyDict inner)
    /\ inner !! "type" = Some (PyStr "permissive").
Proof.
  destruct (fetched_text_overrides_table Samples.online "ESA-PL-strong-copyleft-2.4"
              "The text of the license." eq_refl ltac:(discriminate))
    as [(inner & L & T & _) _].
  exists inner. split; [exact L | exact T].
Defined.

Lemma unfetched_follows_table_witness :
  exists fallback inner,
    FALLBACK_LICENSES !! "NIST-PD-TNT" = Some fallback
    /\ (create_license_file Samples.offline "NIST-PD-TNT").2 !! "license"
       = Some (PyDict inner)
    /\ inner !! "type" = Some (PyStr (entry_category fallback)).
Proof.
  assert (Hin : "NIST-PD-TNT" ∈ MISSING_LICENSES).
  { unfold MISSING_LICENSES. rewrite !elem_of_cons. tauto. }
  destruct (unfetched_follows_table Samples.offline "NIST-PD-TNT" Hin eq_refl)
    as (fallback & inner & E & L & T & _).
  exists fallback, inner. split; [exact E |]. split; [exact L | exact T].
Defined.

(** ** The record of an item, when the backend answers *)

(** When the reply to the analysis prompt of an item holds a JSON object, the
    record the batch makes of the item is that object with the compatibility
    rules put in: the key the generators file the record under and the
    category they read are those of the reply, whatever the id of the item
    was. *)
Theorem batch_record_trusts_reply `{PyRuntime} (self : LicenseAnalyzer)
    (license_data : license_item) (the_agent : Agent) (response : string)
    (analysis : pydict) :
  agent self = Some the_agent ->
  query the_agent (analysis_prompt (item_id license_data)
                                   (default "" (item_text license_data)))
  = Return response ->
  brace_before response ->
  json_loads (slice response (str_find "{" response) (str_rfind "}" response + 1))
  = Return analysis ->
  exists rules,
    analyze_item self license_data
    = Return (<["compatibility_rules" := PyDict rules]> analysis)
    /\ license_key (<["compatibility_rules" := PyDict rules]> analysis)
       = license_key analysis
    /\ category_of (<["compatibility_rules" := PyDict rules]> analysis)
       = category_of analysis.
Proof.
  intros A Q B J. unfold analyze_item. cbv zeta.
  assert (R : analyze_license self (item_id license_data)
                (default "" (item_text license_data)) = Return analysis).
  { unfold analyze_license. rewrite A, Q. cbn [bind try_except].
    apply extraction_test_brace_before in B. by rewrite B, J. }
  rewrite R. cbn [bind].
  destruct (extract_compatibility_rules_returns self (item_id license_data) analysis)
    as [rules ->].
  exists rules. cbn [bind]. split; [done |].
  unfold license_key, category_of, get, get_default. cbv zeta.
  by rewrite !lookup_insert_ne.
Qed.

Lemma batch_record_trusts_reply_witness :
  exists record,
    analyze_item Samples.no_category_backend
      {| item_id := "Zlib"; item_text := Some "text" |} = Return record
    /\ license_key record = Some (KStr "MIT").
Proof.
  assert (B : brace_before Samples.no_category_reply).
  { apply extraction_test_brace_before. by vm_compute. }
  assert (J : json_loads (slice Samples.no_category_reply
                                (str_find "{" Samples.no_category_reply)
                                (str_rfind "}" Samples.no_category_reply + 1))
              = Return (dict_of [("license_id", PyStr "MIT")])).
  { vm_compute. reflexivity. }
  destruct (batch_record_trusts_reply Samples.no_category_backend
              {| item_id := "Zlib"; item_text := Some "text" |}
              {| query := fun prompt => Return Samples.no_category_reply |}
              Samples.no_category_reply (dict_of [("license_id", PyStr "MIT")])
              eq_refl eq_refl B J)
    as (rules & E & K & _).
  eexists. split; [exact E |]. rewrite K. reflexivity.
Defined.

(** ** How a run can fail *)

Lemma as_key_raised (v : pyval) (e : exn) : as_key v = Raise e -> e = TypeError.
Proof. destruct v; cbn; congruence. Qed.

Lemma attr_get_raised (v : pyval) (k : string) (default : pyval) (e : exn) :
  attr_get v k default = Raise e -> e = AttributeError.
Proof. destruct v; cbn; congruence. Qed.

Lemma map_outcome_returns {A B} (f : A -> outcome B) (items : list A) :
  (forall x, returns (f x)) ->
  exists results,
    map_outcome f items = Return results /\ length results = length items.
Proof.
  intros Hf. induction items as [|x items (results & E & L)]; cbn.
  - by exists [].
  - destruct (Hf x) as [y ->]. rewrite E. exists (y :: results). cbn. by rewrite L.
Qed.

Section FailureModes.
Context `{PyRuntime}.

Lemma policies_raised (licenses : list pydict) (e : exn) :
  _generate_license_policies licenses = Raise e -> e = AttributeError.
Proof.
  intros R. unfold _generate_license_policies in R.
  apply for_each_raised in R as (l & written & _ & B).
  rewrite policies_body in B.
  destruct (negb _); [discriminate B |].
  unfold license_policy in B. cbv zeta in B.
  destruct (_format_compatibility_for_policy _) as [c|e'] eqn:C;
    cbn [bind] in B; [discriminate B |].
  injection B as <-. by apply format_raised in C.
Qed.

Lemma matrix_raised (licenses : list pydict) (e : exn) :
  _generate_compatibility_matrix licenses = Raise e -> e = TypeError.
Proof.
  intros G. unfold _generate_compatibility_matrix in G.
  destruct (for_each licenses _ ∅) as [table|e'] eqn:E; [discriminate |].
  cbn [bind] in G. injection G as <-.
  apply for_each_raised in E as (license1 & d & _ & B). cbv zeta in B.
  destruct (truthy (get license1 "license_id")); cbn [negb] in B; [| discriminate].
  destruct (as_key (get license1 "license_id")) as [key|e''] eqn:K; cbn [bind] in B.
  - destruct (matrix_row license1 licenses) as [row|e''] eqn:R; [discriminate |].
    injection B as <-. by apply matrix_row_raised in R.
  - injection B as <-. by apply as_key_raised in K.
Qed.

Lemma obligation_raised (licenses : list pydict) (e : exn) :
  _generate_obligation_database licenses = Raise e ->
  e = AttributeError \/ e = TypeError.
Proof.
  intros G. unfold _generate_obligation_database in G.
  destruct (for_each licenses _ ∅) as [entries|e'] eqn:E; [discriminate |].
  cbn [bind] in G. injection G as <-.
  apply for_each_raised in E as (l & d & _ & B). cbv zeta in B.
  destruct (truthy (get l "license_id")); cbn [negb] in B; [| discriminate].
  destruct (attr_get _ "include_copyright" _) as [a|e1] eqn:A1; cbn [bind] in B;
    [| injection B as <-; left; by apply attr_get_raised in A1].
  destruct (attr_get _ "disclose_source" _) as [b|e2] eqn:A2; cbn [bind] in B;
    [| injection B as <-; left; by apply attr_get_raised in A2].
  destruct (attr_get _ "include_notice" _) as [c|e3] eqn:A3; cbn [bind] in B;
    [| injection B as <-; left; by apply attr_get_raised in A3].
  destruct (as_key _) as [key|e4] eqn:K; cbn [bind] in B; [discriminate |].
  injection B as <-. right. by apply as_key_raised in K.
Qed.

Lemma master_raised (licenses : list pydict) (m : matrix) (o : obligation_db)
    (e : exn) :
  _generate_master_database licenses m o = Raise e ->
  e = AttributeError \/ e = TypeError.
Proof.
  intros G. unfold _generate_master_database in G.
  destruct (for_each licenses _ ∅) as [entries|e'] eqn:E; [discriminate |].
  cbn [bind] in G. injection G as <-.
  apply for_each_raised in E as (l & d & _ & B). cbv zeta in B.
  destruct (truthy (get l "license_id")); cbn [negb] in B; [| discriminate].
  destruct (as_key _) as [key|e4] eqn:K; cbn [bind] in B;
    [| injection B as <-; right; by apply as_key_raised in K].
  destruct (attr_get _ "isOsiApproved" _) as [a|e1] eqn:A1; cbn [bind] in B;
    [| injection B as <-; left; by apply attr_get_raised in A1].
  destruct (attr_get _ "isFsfLibre" _) as [b|e2] eqn:A2; cbn [bind] in B;
    [| injection B as <-; left; by apply attr_get_raised in A2].
  destruct (attr_get _ "isDeprecatedLicenseId" _) as [c|e3] eqn:A3; cbn [bind] in B;
    [discriminate |].
  injection B as <-. left. by apply attr_get_raised in A3.
Qed.

Lemma count_raised (licenses : list pydict) (e : exn) :
  _count_categories licenses = Raise e -> e = TypeError.
Proof.
  intros G. unfold _count_categories in G.
  apply for_each_raised in G as (l & d & _ & B). cbv zeta in B.
  destruct (as_key _) as [key|e'] eqn:K; cbn [bind] in B; [discriminate |].
  injection B as <-. by apply as_key_raised in K.
Qed.

(** Whatever the backend answers, a run whose download and text lookups
    return either returns or raises [AttributeError] or [TypeError]: no
    failure of the backend and no reply that does not parse ends the run.
    When the run returns, the three totals it records all count the
    processed entries of the registry, also those whose record the reply
    left without a [license_id]. *)
Theorem run_failure_modes (self : PolicyDataGenerator) (force_download : bool)
    (limit : option Z) (spdx_data : spdx_snapshot) :
  download_spdx_data (spdx_processor self) force_download = Return spdx_data ->
  (forall license_id, returns (get_license_text (spdx_processor self) license_id)) ->
  let all := spdx_licenses spdx_data in
  let licenses :=
    match limit with
    | None => all
    | Some n => if n =? 0 then all
                else if 0 <? n then take (Z.to_nat n) all
                else take (length all - Z.to_nat (- n)) all
    end in
  let processed := length (omap kept_id licenses) in
  match generate_all_data self force_download limit with
  | Return r =>
      summary_total_licenses (run_summary r) = processed
      /\ total_licenses (run_matrix r) = processed
      /\ master_total_licenses (run_master r) = processed
      /\ report_total_licenses (validation (run_summary r)) = processed
  | Raise e => e = AttributeError \/ e = TypeError
  end.
Proof.
  intros D Htext all licenses processed.
  assert (L : match limit with
              | Some n => if truthy (PyInt n) then slice_to all n else all
              | None => all
              end = licenses).
  { subst licenses. destruct limit as [n|]; [apply slice_to_take | done]. }
  destruct (process_licenses_loop self licenses [] Htext) as (items & P & Hids).
  cbn [app] in P.
  destruct (map_outcome_returns (analyze_item (llm_analyzer self)) items
              (analyze_item_returns (llm_analyzer self)))
    as (analyzed & M & Hlen).
  assert (Hn : length analyzed = processed).
  { subst processed. by rewrite Hlen, <- Hids, length_fmap. }
  unfold generate_all_data. rewrite D. cbn [bind]. cbv zeta. fold all.
  rewrite L. unfold process_licenses. rewrite P. cbn [bind]. rewrite M.
  cbn [bind].
  destruct (_generate_license_policies analyzed) as [policies|e] eqn:Ep;
    cbn [bind]; [| left; by apply policies_raised in Ep].
  destruct (_generate_compatibility_matrix analyzed) as [m|e] eqn:Em;
    cbn [bind]; [| right; by apply matrix_raised in Em].
  destruct (_generate_obligation_database analyzed) as [o|e] eqn:Eo;
    cbn [bind]; [| by apply obligation_raised in Eo].
  destruct (_generate_master_database analyzed m o) as [db|e] eqn:Ed;
    cbn [bind]; [| by apply master_raised in Ed].
  destruct (_count_categories analyzed) as [h|e] eqn:Eh;
    cbn [bind]; [| right; by apply count_raised in Eh].
  cbn [run_summary run_matrix run_master summary_total_licenses validation].
  split; [exact Hn |].
  split; [by rewrite (proj2 (matrix_spec _ _ Em)) |].
  split; [by rewrite (proj2 (master_spec _ _ _ _ Ed)) |].
  pose proof (validate_report_spec analyzed) as V. cbv zeta in V.
  by rewrite (proj1 V).
Qed.

End FailureModes.

Lemma run_failure_modes_witness :
  match generate_all_data Samples.offline_generator false (Some 1) with
  | Return r => total_licenses (run_matrix r) = 1%nat
  | Raise e => e = AttributeError \/ e = TypeError
  end.
Proof.
  pose proof (run_failure_modes Samples.offline_generator false (Some 1)
                Samples.registry eq_refl
                (fun license_id => ex_intro _ None eq_refl)) as F.
  cbv zeta in F.
  destruct (generate_all_data Samples.offline_generator false (Some 1)) as [r|e];
    [exact (proj1 (proj2 F)) | exact F].
Defined.

(** ** What the two queries read *)

Lemma substring_prefix_idem (n : nat) (s : string) :
  String.substring 0 n (String.substring 0 n s) = String.substring 0 n s.
Proof.
  revert n. induction s as [|c s IH]; intros [|n]; cbn; try reflexivity.
  by rewrite IH.
Qed.

Lemma slice_prefix_idem (s : string) (stop : Z) :
  slice (slice s 0 stop) 0 stop = slice s 0 stop.
Proof. unfold slice. change (Z.to_nat 0) with 0%nat. apply substring_prefix_idem. Qed.

Lemma analysis_prompt_prefix (license_id text text' : string) :
  slice text 0 3000 = slice text' 0 3000 ->
  analysis_prompt license_id text = analysis_prompt license_id text'.
Proof. intros E. unfold analysis_prompt. by rewrite E. Qed.

(** [analyze_license] reads no more of the text than its first 3000
    characters: the analysis of a text is the analysis of that prefix, and
    two texts with the same prefix get the same analysis from the same
    analyzer, and the same record from the batch. *)
Theorem analysis_reads_text_prefix `{PyRuntime} (self : LicenseAnalyzer)
    (license_id text : string) :
  analyze_license self license_id text
  = analyze_license self license_id (slice text 0 3000)
  /\ forall text',
       slice text 0 3000 = slice text' 0 3000 ->
       analyze_license self license_id text = analyze_license self license_id text'
       /\ analyze_item self {| item_id := license_id; item_text := Some text |}
          = analyze_item self {| item_id := license_id; item_text := Some text' |}.
Proof.
  assert (P : forall text', slice text 0 3000 = slice text' 0 3000 ->
                analyze_license self license_id text
                = analyze_license self license_id text').
  { intros text' E. unfold analyze_license.
    by rewrite (analysis_prompt_prefix license_id text text' E). }
  split.
  - apply P. by rewrite slice_prefix_idem.
  - intros text' E. split; [by apply P |].
    unfold analyze_item. cbv zeta. cbn [item_id item_text default from_option id].
    unfold default. cbn [from_option id]. by rewrite (P text' E).
Qed.

(** [extract_compatibility_rules] reads nothing of the analysis but its
    category: the prompt it sends and the rules it falls back on are the same
    for two analyses with the same category, or both without one. *)
Theorem rules_read_category_only `{PyRuntime} (self : LicenseAnalyzer)
    (license_id : string) (analysis analysis' : pydict) :
  analysis !! "category" = analysis' !! "category" ->
  rules_prompt license_id analysis = rules_prompt license_id analysis'
  /\ extract_compatibility_rules self license_id analysis
     = extract_compatibility_rules self license_id analysis'.
Proof.
  intros E.
  assert (G : forall default, get_default analysis "category" default
                              = get_default analysis' "category" default).
  { intros default. unfold get_default. by rewrite E. }
  assert (P : rules_prompt license_id analysis = rules_prompt license_id analysis').
  { unfold rules_prompt. by rewrite G. }
  assert (D : _get_default_compatibility_rules license_id analysis
              = _get_default_compatibility_rules license_id analysis').
  { unfold _get_default_compatibility_rules. by rewrite G. }
  split; [exact P |]. unfold extract_compatibility_rules. by rewrite P, D.
Qed.

Lemma rules_read_category_only_witness :
  extract_compatibility_rules Samples.chatty_backend "MIT" Samples.mit
  = extract_compatibility_rules Samples.chatty_backend "MIT" Samples.bare_mit.
Proof.
  apply (rules_read_category_only Samples.chatty_backend "MIT" Samples.mit
           Samples.bare_mit).
  reflexivity.
Defined.

(** ** Two records of different categories *)

(** Two records whose categories differ are incompatible for static linking
    and distribution (review_required for dynamic linking) when one of them is
    copyleft_strong; otherwise review_required for static linking (compatible
    for the rest) when one of them is copyleft_weak; and unknown in all three
    dimensions in every other case, a permissive record next to a
    public_domain one among them. *)
Theorem mixed_category_verdict (license1 license2 : pydict) (cat1 cat2 : string) :
  category_of license1 = PyStr cat1 ->
  category_of license2 = PyStr cat2 ->
  cat1 <> cat2 ->
  _check_license_compatibility license1 license2
  = if String.eqb cat1 "copyleft_strong" || String.eqb cat2 "copyleft_strong"
    then verdict "incompatible" "review_required" "incompatible"
    else if String.eqb cat1 "copyleft_weak" || String.eqb cat2 "copyleft_weak"
    then verdict "review_required" "compatible" "compatible"
    else verdict "unknown" "unknown" "unknown".
Proof.
  intros E1 E2 N. rewrite check_by_category. cbn zeta. rewrite E1, E2.
  cbn [py_eq].
  assert (String.eqb cat1 cat2 = false) as -> by by apply String.eqb_neq.
  destruct (String.eqb_spec cat1 "permissive") as [-> | P1];
    destruct (String.eqb_spec cat2 "permissive") as [-> | P2];
    try done; cbn [andb].
Qed.

Lemma mixed_category_verdict_witness :
  _check_license_compatibility Samples.mit Samples.cc0
  = verdict "unknown" "unknown" "unknown"
  /\ _check_license_compatibility Samples.gpl3 Samples.lgpl
     = verdict "incompatible" "review_required" "incompatible".
Proof.
  split.
  - apply (mixed_category_verdict Samples.mit Samples.cc0 "permissive" "public_domain");
      [reflexivity | reflexivity | discriminate].
  - apply (mixed_category_verdict Samples.gpl3 Samples.lgpl "copyleft_strong"
             "copyleft_weak"); [reflexivity | reflexivity | discriminate].
Defined.
